(** * SceneManager: texture registry, material registry and shader binding

    A shallow embedding of [SceneManager.cpp].  The C++ object, the GL
    context it drives, the decoder's bookkeeping and the two output streams
    are one explicit [World]; every member function is a function on that
    world.  An out-of-bounds subscript is the outcome [Undefined]; loops run
    on a bounded number of iterations that is shown to suffice.  The mesh
    object and the scene content (PrepareScene, RenderScene, SetupLighting)
    take no part in the registries and are left out. *)

From Stdlib Require Import ZArith String Ascii List Lia Bool.
From stdpp Require Import base option list gmap sets strings pretty.

Local Open Scope string_scope.
Local Open Scope Z_scope.

Set Default Proof Using "Type".

(** ** Outcomes of running a piece of C++ *)

Inductive outcome (A : Type) : Type :=
| Ok (a : A)
| Undefined
| OutOfFuel.

Arguments Ok {A} a.
Arguments Undefined {A}.
Arguments OutOfFuel {A}.

Definition obind {A B : Type} (c : outcome A) (k : A -> outcome B) : outcome B :=
  match c with
  | Ok a => k a
  | Undefined => Undefined
  | OutOfFuel => OutOfFuel
  end.

Notation "'let*' x ':=' c 'in' k" := (obind c (fun x => k))
  (at level 10, x pattern, c at level 100, k at level 200).

(** [while (cond) body], run for at most [fuel] iterations of the body. *)
Fixpoint while {S : Type} (fuel : nat) (cond : S -> bool)
         (body : S -> outcome S) (s : S) : outcome S :=
  if cond s then
    match fuel with
    | O => OutOfFuel
    | Datatypes.S fuel' =>
        match body s with
        | Ok s' => while fuel' cond body s'
        | Undefined => Undefined
        | OutOfFuel => OutOfFuel
        end
    end
  else Ok s.

(** ** Values of the language and of the libraries *)

(** [a.compare(b)]: negative, zero or positive; only the sign is modelled. *)
Definition std_string_compare (a b : string) : Z :=
  match String.compare a b with
  | Eq => 0
  | Lt => -1
  | Gt => 1
  end.

(** Conversion of a [GLuint] to [int] (the result type of [FindTextureID]):
    reduction modulo 2^32 into the signed range. *)
Definition int_of_GLuint (u : Z) : Z := (u + 2 ^ 31) mod 2 ^ 32 - 2 ^ 31.

(** [a[i]] on a built-in array: outside the array the behaviour is undefined. *)
Definition subscript {A : Type} (a : list A) (i : Z) : outcome A :=
  if i <? 0 then Undefined
  else match a !! Z.to_nat i with
       | Some x => Ok x
       | None => Undefined
       end.

(** [a[i] = x] on a built-in array. *)
Definition subscript_store {A : Type} (a : list A) (i : Z) (x : A) : outcome (list A) :=
  if i <? 0 then Undefined
  else if i <? Z.of_nat (length a) then Ok (<[Z.to_nat i := x]> a)
  else Undefined.

Module glm.
Record vec2 (float : Type) : Type := Vec2 { u : float; v : float }.
Record vec3 (float : Type) : Type := Vec3 { x : float; y : float; z : float }.
Record vec4 (float : Type) : Type := Vec4 { r : float; g : float; b : float; a : float }.
Arguments Vec2 {float} _ _.
Arguments Vec3 {float} _ _ _.
Arguments Vec4 {float} _ _ _ _.
Arguments u {float} _.
Arguments v {float} _.
Arguments x {float} _.
Arguments y {float} _.
Arguments z {float} _.
Arguments r {float} _.
Arguments g {float} _.
Arguments b {float} _.
Arguments a {float} _.
End glm.

(** The two structs of [SceneManager.h], with the fields the code uses. *)
Module TEXTURE_INFO.
Record t : Type := mk { ID : Z; tag : string }.
End TEXTURE_INFO.

Module OBJECT_MATERIAL.
Record t (float : Type) : Type := mk {
  tag : string;
  diffuseColor : glm.vec3 float;
  specularColor : glm.vec3 float;
  shininess : float
}.
Arguments mk {float} _ _ _ _.
Arguments tag {float} _.
Arguments diffuseColor {float} _.
Arguments specularColor {float} _.
Arguments shininess {float} _.
End OBJECT_MATERIAL.

(** ** The GL context: texture objects and texture units *)

Inductive GLenum : Type :=
| GL_TEXTURE_2D
| GL_TEXTURE_WRAP_S | GL_TEXTURE_WRAP_T
| GL_TEXTURE_MIN_FILTER | GL_TEXTURE_MAG_FILTER
| GL_REPEAT | GL_LINEAR | GL_LINEAR_MIPMAP_LINEAR
| GL_RGB8 | GL_RGBA8 | GL_RGB | GL_RGBA
| GL_UNSIGNED_BYTE.

(** A decoded image, as [stbi_load] hands it over. *)
Record Image : Type := {
  img_width : Z;
  img_height : Z;
  img_channels : Z;
  img_pixels : list Z
}.

Record TexImage : Type := {
  ti_internal : GLenum;
  ti_width : Z;
  ti_height : Z;
  ti_format : GLenum;
  ti_type : GLenum;
  ti_pixels : list Z
}.

Record TexObj : Type := {
  tex_params : list (GLenum * GLenum);
  tex_image : option TexImage;
  tex_mipmaps : bool
}.

Definition TexObj_new : TexObj :=
  {| tex_params := []; tex_image := None; tex_mipmaps := false |}.

Record GLState : Type := {
  gl_textures : gmap Z TexObj;     (* texture names in use, with their state *)
  gl_active : Z;                   (* the active texture unit *)
  gl_bound : gmap Z Z              (* unit -> texture bound to GL_TEXTURE_2D *)
}.

Definition gl_binding (g : GLState) : Z := default 0 (gl_bound g !! gl_active g).

Definition with_textures (g : GLState) (t : gmap Z TexObj) : GLState :=
  {| gl_textures := t; gl_active := gl_active g; gl_bound := gl_bound g |}.

(** [glBindTexture(GL_TEXTURE_2D, id)]: binds on the active unit; a non-zero
    name that is not yet a texture becomes one. *)
Definition glBindTexture (id : Z) (g : GLState) : GLState :=
  {| gl_textures :=
       if decide (id = 0) then gl_textures g
       else match gl_textures g !! id with
            | Some _ => gl_textures g
            | None => <[id := TexObj_new]> (gl_textures g)
            end;
     gl_active := gl_active g;
     gl_bound := <[gl_active g := id]> (gl_bound g) |}.

(** [glActiveTexture(GL_TEXTURE0 + unit)]. *)
Definition glActiveTexture (unit : Z) (g : GLState) : GLState :=
  {| gl_textures := gl_textures g; gl_active := unit; gl_bound := gl_bound g |}.

(** The calls below act on the texture bound on the active unit. *)
Definition glTexParameteri (pname value : GLenum) (g : GLState) : GLState :=
  with_textures g
    (alter (fun o => {| tex_params := (pname, value) :: tex_params o;
                        tex_image := tex_image o;
                        tex_mipmaps := tex_mipmaps o |})
           (gl_binding g) (gl_textures g)).

Definition glTexImage2D (internal : GLenum) (w h : Z) (format type : GLenum)
           (pixels : list Z) (g : GLState) : GLState :=
  with_textures g
    (alter (fun o => {| tex_params := tex_params o;
                        tex_image := Some {| ti_internal := internal; ti_width := w;
                                             ti_height := h; ti_format := format;
                                             ti_type := type; ti_pixels := pixels |};
                        tex_mipmaps := false |})
           (gl_binding g) (gl_textures g)).

Definition glGenerateMipmap (g : GLState) : GLState :=
  with_textures g
    (alter (fun o => {| tex_params := tex_params o;
                        tex_image := tex_image o;
                        tex_mipmaps := true |})
           (gl_binding g) (gl_textures g)).

(** [glDeleteTextures(1, &id)]: the name is released; a unit the texture was
    bound on reverts to 0; 0 and unused names are ignored. *)
Definition glDeleteTextures (id : Z) (g : GLState) : GLState :=
  {| gl_textures := delete id (gl_textures g);
     gl_active := gl_active g;
     gl_bound := (fun t => if decide (t = id) then 0 else t) <$> gl_bound g |}.

(** ** The shader bridge, the scene manager and the world *)

(** A value written through one of [ShaderManager]'s setters. *)
Inductive Uniform (float mat4 : Type) : Type :=
| UMat4 (m : mat4)
| UInt (n : Z)
| USampler2D (n : Z)
| UBool (b : bool)
| UFloat (f : float)
| UVec2 (v : glm.vec2 float)
| UVec3 (v : glm.vec3 float)
| UVec4 (v : glm.vec4 float).

Arguments UMat4 {float mat4} m.
Arguments UInt {float mat4} n.
Arguments USampler2D {float mat4} n.
Arguments UBool {float mat4} b.
Arguments UFloat {float mat4} f.
Arguments UVec2 {float mat4} v.
Arguments UVec3 {float mat4} v.
Arguments UVec4 {float mat4} v.

(** The shader program's uniforms: the value last written under each name. *)
Abbreviation ShaderManager float mat4 := (gmap string (Uniform float mat4)).

Record SceneManager (float mat4 : Type) : Type := {
  m_pShaderManager : option (ShaderManager float mat4);   (* [None] is NULL *)
  m_textureIDs : list TEXTURE_INFO.t;                     (* [MAX_TEXTURES] slots *)
  m_loadedTextures : Z;
  m_objectMaterials : list (OBJECT_MATERIAL.t float)
}.

Arguments m_pShaderManager {float mat4} _.
Arguments m_textureIDs {float mat4} _.
Arguments m_loadedTextures {float mat4} _.
Arguments m_objectMaterials {float mat4} _.

Record World (float mat4 : Type) : Type := {
  scene : SceneManager float mat4;     (* [*this] *)
  gl : GLState;                        (* the GL context *)
  stbi_flip : bool;                    (* stb_image's flip-on-load flag *)
  stbi_buffers : Z;                    (* decoded buffers not yet freed *)
  cout : string;
  cerr : string
}.

Arguments scene {float mat4} _.
Arguments gl {float mat4} _.
Arguments stbi_flip {float mat4} _.
Arguments stbi_buffers {float mat4} _.
Arguments cout {float mat4} _.
Arguments cerr {float mat4} _.

Definition endl : string := String (ascii_of_nat 10) EmptyString.

(* declaration of global variables *)
Definition g_ModelName : string := "model".
Definition g_ColorValueName : string := "objectColor".
Definition g_TextureValueName : string := "objectTexture".
Definition g_UseTextureName : string := "bUseTexture".
Definition g_UseLightingName : string := "bUseLighting".

(** ** A concrete platform

    An instance of what the development leaves open: exact arithmetic on
    integers for [float], 4x4 integer matrices in GLM's column-major layout
    with rotations exact at quarter turns (angles stay in degrees), a decoder
    that knows three files, and a GL that hands out the lowest unused name.
    The closed examples at the end of the file run the code on it. *)
Module Demo.

Record mat4 : Type := Mat4 {
  col0 : glm.vec4 Z;
  col1 : glm.vec4 Z;
  col2 : glm.vec4 Z;
  col3 : glm.vec4 Z
}.

Definition vscale (k : Z) (c : glm.vec4 Z) : glm.vec4 Z :=
  glm.Vec4 (k * glm.r c) (k * glm.g c) (k * glm.b c) (k * glm.a c).

Definition vadd (c d : glm.vec4 Z) : glm.vec4 Z :=
  glm.Vec4 (glm.r c + glm.r d) (glm.g c + glm.g d) (glm.b c + glm.b d) (glm.a c + glm.a d).

(** [A * p]: the combination of the columns of [A] weighted by [p]. *)
Definition transform (A : mat4) (p : glm.vec4 Z) : glm.vec4 Z :=
  vadd (vadd (vadd (vscale (glm.r p) (col0 A)) (vscale (glm.g p) (col1 A)))
             (vscale (glm.b p) (col2 A)))
       (vscale (glm.a p) (col3 A)).

Definition mul (A B : mat4) : mat4 :=
  Mat4 (transform A (col0 B)) (transform A (col1 B))
       (transform A (col2 B)) (transform A (col3 B)).

Definition identity : mat4 :=
  Mat4 (glm.Vec4 1 0 0 0) (glm.Vec4 0 1 0 0) (glm.Vec4 0 0 1 0) (glm.Vec4 0 0 0 1).

Definition scale (v : glm.vec3 Z) : mat4 :=
  Mat4 (glm.Vec4 (glm.x v) 0 0 0) (glm.Vec4 0 (glm.y v) 0 0)
       (glm.Vec4 0 0 (glm.z v) 0) (glm.Vec4 0 0 0 1).

Definition translate (v : glm.vec3 Z) : mat4 :=
  Mat4 (glm.Vec4 1 0 0 0) (glm.Vec4 0 1 0 0) (glm.Vec4 0 0 1 0)
       (glm.Vec4 (glm.x v) (glm.y v) (glm.z v) 1).

Definition cosd (deg : Z) : Z :=
  let d := deg mod 360 in
  if d =? 0 then 1 else if d =? 180 then -1 else 0.

Definition sind (deg : Z) : Z :=
  let d := deg mod 360 in
  if d =? 90 then 1 else if d =? 270 then -1 else 0.

(** Rotation by [deg] degrees about the unit axis [n], as GLM lays it out. *)
Definition rotate (deg : Z) (n : glm.vec3 Z) : mat4 :=
  let c := cosd deg in
  let s := sind deg in
  let t := 1 - c in
  Mat4 (glm.Vec4 (c + t * glm.x n * glm.x n)
                 (t * glm.x n * glm.y n + s * glm.z n)
                 (t * glm.x n * glm.z n - s * glm.y n) 0)
       (glm.Vec4 (t * glm.y n * glm.x n - s * glm.z n)
                 (c + t * glm.y n * glm.y n)
                 (t * glm.y n * glm.z n + s * glm.x n) 0)
       (glm.Vec4 (t * glm.z n * glm.x n + s * glm.y n)
                 (t * glm.z n * glm.y n - s * glm.x n)
                 (c + t * glm.z n * glm.z n) 0)
       (glm.Vec4 0 0 0 1).

Definition radians (deg : Z) : Z := deg.

Definition MAX_TEXTURES : positive := 16.

Definition image (channels : Z) : Image :=
  {| img_width := 2; img_height := 1; img_channels := channels;
     img_pixels := repeat 255 (Z.to_nat (2 * channels)) |}.

Definition stbi_load (flip : bool) (filename : string) : option Image :=
  if String.eqb filename "textures/tent.jpg" then Some (image 3)
  else if String.eqb filename "textures/leaf.png" then Some (image 4)
  else if String.eqb filename "textures/mask.png" then Some (image 2)
  else None.

(** The lowest name from 1 on that is not in use. *)
Definition glGenName (textures : gmap Z TexObj) : Z :=
  match list_find (fun k => textures !! k = None)
                  (seqZ 1 (Z.of_nat (size textures) + 1)) with
  | Some (_, k) => k
  | None => 0
  end.

(** A registry of [n] textures tex0, tex1, ... with handles 1, 2, ...; the
    slots past them hold what the constructor left there. *)
Definition entry (i : nat) : TEXTURE_INFO.t :=
  TEXTURE_INFO.mk (Z.of_nat i + 1) ("tex" +:+ pretty (Z.of_nat i)).

Definition slots (n : nat) : list TEXTURE_INFO.t :=
  (map entry (seq 0 n)
   ++ map (fun i => TEXTURE_INFO.mk 0 "") (seq n (Pos.to_nat MAX_TEXTURES - n)))%list.

Definition materials : list (OBJECT_MATERIAL.t Z) :=
  [ OBJECT_MATERIAL.mk "floor" (glm.Vec3 44 26 8) (glm.Vec3 3 3 3) 32;
    OBJECT_MATERIAL.mk "tent" (glm.Vec3 2 4 1) (glm.Vec3 2 2 2) 16;
    OBJECT_MATERIAL.mk "tent" (glm.Vec3 9 9 9) (glm.Vec3 7 7 7) 5 ].

Definition shader : gmap string (Uniform Z mat4) :=
  {[ "objectTexture" := USampler2D 5 ]}.

Definition scene_of (p : option (gmap string (Uniform Z mat4))) (n : nat)
  : SceneManager Z mat4 :=
  {| m_pShaderManager := p; m_textureIDs := slots n;
     m_loadedTextures := Z.of_nat n; m_objectMaterials := materials |}.

Definition gl_of (n : nat) : GLState :=
  {| gl_textures := list_to_map (map (fun i => (Z.of_nat i + 1, TexObj_new)) (seq 0 n));
     gl_active := 0; gl_bound := ∅ |}.

Definition world_of (p : option (gmap string (Uniform Z mat4))) (n : nat) : World Z mat4 :=
  {| scene := scene_of p n; gl := gl_of n; stbi_flip := false; stbi_buffers := 0;
     cout := ""; cerr := "" |}.

(** Literals in thousandths: [float_lit 44 2] is 440; then 1.0f is 1000. *)
Definition float_lit (m : Z) (d : nat) : Z := m * 1000 / 10 ^ Z.of_nat d.

(** A decoder for the scene's files: colour images, but a greyscale rock. *)
Definition stbi_load_scene (flip : bool) (filename : string) : option Image :=
  if String.eqb filename "textures/rock.jpg" then Some (image 1)
  else if String.prefix "textures/" filename then Some (image 3)
  else None.

(** A world without a scene manager's textures or materials in it. *)
Definition world_blank (p : option (gmap string (Uniform Z mat4))) : World Z mat4 :=
  {| scene := {| m_pShaderManager := p; m_textureIDs := slots 0;
                 m_loadedTextures := 0; m_objectMaterials := [] |};
     gl := gl_of 0; stbi_flip := false; stbi_buffers := 0; cout := ""; cerr := "" |}.

End Demo.

Section SceneManager.

(** [float] stands for the values of the C++ type; the code only stores
    and forwards them.  [mat4] and the functions on it are GLM's. *)
Variables float mat4 : Type.
Variable mat4_mul : mat4 -> mat4 -> mat4.
Variable glm_scale : glm.vec3 float -> mat4.
Variable glm_rotate : float -> glm.vec3 float -> mat4.
Variable glm_translate : glm.vec3 float -> mat4.
Variable glm_radians : float -> float.
(** The literals [0.0f] and [1.0f]. *)
Variables float_0 float_1 : float.

(** The array bound of [m_textureIDs], from [SceneManager.h]. *)
Variable MAX_TEXTURES : positive.
(** The decoder: flip flag and file name to the decoded image, if any. *)
Variable stbi_load : bool -> string -> option Image.
(** The name [glGenTextures] hands out, given the textures in use. *)
Variable glGenName : gmap Z TexObj -> Z.

Abbreviation Scene := (SceneManager float mat4).
Abbreviation W := (World float mat4).
Abbreviation Shader := (ShaderManager float mat4).
Abbreviation Material := (OBJECT_MATERIAL.t float).
Infix "*m" := mat4_mul (at level 40, left associativity).

(** *** Updates of one component of the world *)

Definition set_scene (w : W) (s : Scene) : W :=
  {| scene := s; gl := gl w; stbi_flip := stbi_flip w;
     stbi_buffers := stbi_buffers w; cout := cout w; cerr := cerr w |}.

Definition set_gl (w : W) (g : GLState) : W :=
  {| scene := scene w; gl := g; stbi_flip := stbi_flip w;
     stbi_buffers := stbi_buffers w; cout := cout w; cerr := cerr w |}.

Definition on_gl (f : GLState -> GLState) (w : W) : W := set_gl w (f (gl w)).

Definition print_cout (msg : string) (w : W) : W :=
  {| scene := scene w; gl := gl w; stbi_flip := stbi_flip w;
     stbi_buffers := stbi_buffers w; cout := cout w +:+ msg; cerr := cerr w |}.

Definition print_cerr (msg : string) (w : W) : W :=
  {| scene := scene w; gl := gl w; stbi_flip := stbi_flip w;
     stbi_buffers := stbi_buffers w; cout := cout w; cerr := cerr w +:+ msg |}.

Definition set_pShaderManager (s : Scene) (p : option Shader) : Scene :=
  {| m_pShaderManager := p; m_textureIDs := m_textureIDs s;
     m_loadedTextures := m_loadedTextures s;
     m_objectMaterials := m_objectMaterials s |}.

Definition set_textureIDs (s : Scene) (a : list TEXTURE_INFO.t) : Scene :=
  {| m_pShaderManager := m_pShaderManager s; m_textureIDs := a;
     m_loadedTextures := m_loadedTextures s;
     m_objectMaterials := m_objectMaterials s |}.

Definition set_loadedTextures (s : Scene) (n : Z) : Scene :=
  {| m_pShaderManager := m_pShaderManager s; m_textureIDs := m_textureIDs s;
     m_loadedTextures := n;
     m_objectMaterials := m_objectMaterials s |}.

(** *** stb_image and GL calls on the world *)

Definition stbi_set_flip_vertically_on_load (flag : bool) (w : W) : W :=
  {| scene := scene w; gl := gl w; stbi_flip := flag;
     stbi_buffers := stbi_buffers w; cout := cout w; cerr := cerr w |}.

(** [stbi_load]: a successful decode leaves one more buffer to free. *)
Definition stbi_load_w (filename : string) (w : W) : option Image * W :=
  match stbi_load (stbi_flip w) filename with
  | Some img =>
      (Some img,
       {| scene := scene w; gl := gl w; stbi_flip := stbi_flip w;
          stbi_buffers := stbi_buffers w + 1; cout := cout w; cerr := cerr w |})
  | None => (None, w)
  end.

Definition stbi_image_free (w : W) : W :=
  {| scene := scene w; gl := gl w; stbi_flip := stbi_flip w;
     stbi_buffers := stbi_buffers w - 1; cout := cout w; cerr := cerr w |}.

(** [glGenTextures(1, &textureID)]: a name is taken into use and returned. *)
Definition glGenTextures (w : W) : Z * W :=
  let id := glGenName (gl_textures (gl w)) in
  (id, on_gl (fun g => with_textures g (<[id := TexObj_new]> (gl_textures g))) w).

(** *** The shader bridge's setters *)

Definition setMat4Value (name : string) (m : mat4) (sh : Shader) : Shader :=
  <[name := UMat4 m]> sh.
Definition setIntValue (name : string) (n : Z) (sh : Shader) : Shader :=
  <[name := UInt n]> sh.
Definition setSampler2DValue (name : string) (n : Z) (sh : Shader) : Shader :=
  <[name := USampler2D n]> sh.
Definition setVec2Value (name : string) (v : glm.vec2 float) (sh : Shader) : Shader :=
  <[name := UVec2 v]> sh.
Definition setVec4Value (name : string) (v : glm.vec4 float) (sh : Shader) : Shader :=
  <[name := UVec4 v]> sh.

(** The shader object behind [m_pShaderManager] after a call on it. *)
Definition set_shader (w : W) (sh : Shader) : W :=
  set_scene w (set_pShaderManager (scene w) (Some sh)).

(** *** SceneManager() *)

(** The constructor.  The slots of [m_textureIDs] are default-initialised:
    an empty tag and an indeterminate [ID], here [junk i] for slot [i]. *)
Definition SceneManager_ctor (pShaderManager : option Shader) (junk : nat -> Z) : Scene :=
  {| m_pShaderManager := pShaderManager;
     m_textureIDs :=
       map (fun i => TEXTURE_INFO.mk (junk i) "") (seq 0 (Pos.to_nat MAX_TEXTURES));
     m_loadedTextures := 0;
     m_objectMaterials := [] |}.

(** *** CreateGLTexture() *)

(** Lines 156-166: register the loaded texture under the tag. *)
Definition register_texture (textureID : Z) (tag : string) (w : W) : outcome W :=
  let s := scene w in
  if m_loadedTextures s <? Z.pos MAX_TEXTURES then
    let* e := subscript (m_textureIDs s) (m_loadedTextures s) in
    let* a := subscript_store (m_textureIDs s) (m_loadedTextures s)
                (TEXTURE_INFO.mk textureID (TEXTURE_INFO.tag e)) in
    let s := set_textureIDs s a in
    let* e := subscript (m_textureIDs s) (m_loadedTextures s) in
    let* a := subscript_store (m_textureIDs s) (m_loadedTextures s)
                (TEXTURE_INFO.mk (TEXTURE_INFO.ID e) tag) in
    let s := set_textureIDs s a in
    let s := set_loadedTextures s (m_loadedTextures s + 1) in
    Ok (set_scene w s)
  else
    Ok (print_cout ("[TextureLoader] WARNING: Exceeded MAX_TEXTURES; texture not stored."
                    +:+ endl) w).

Definition CreateGLTexture (filename : string) (tag : string) (w : W) : outcome (bool * W) :=
  (* indicate to always flip images vertically when loaded *)
  let w := stbi_set_flip_vertically_on_load true w in
  (* try to parse the image data from the specified image file *)
  let '(image, w) := stbi_load_w filename w in
  match image with
  | Some img =>
      let width := img_width img in
      let height := img_height img in
      let colorChannels := img_channels img in
      let w := print_cout ("[TextureLoader] Successfully loaded image: "
                           +:+ filename
                           +:+ ", width: " +:+ pretty width
                           +:+ ", height: " +:+ pretty height
                           +:+ ", channels: " +:+ pretty colorChannels
                           +:+ endl) w in
      let '(textureID, w) := glGenTextures w in
      let w := on_gl (glBindTexture textureID) w in
      let w := on_gl (glTexParameteri GL_TEXTURE_WRAP_S GL_REPEAT) w in
      let w := on_gl (glTexParameteri GL_TEXTURE_WRAP_T GL_REPEAT) w in
      let w := on_gl (glTexParameteri GL_TEXTURE_MIN_FILTER GL_LINEAR_MIPMAP_LINEAR) w in
      let w := on_gl (glTexParameteri GL_TEXTURE_MAG_FILTER GL_LINEAR) w in
      (* the statements after the if / else if / else *)
      let rest (w : W) : outcome (bool * W) :=
        let w := on_gl glGenerateMipmap w in
        let w := stbi_image_free w in
        let w := on_gl (glBindTexture 0) w in
        let* w := register_texture textureID tag w in
        Ok (true, w) in
      if colorChannels =? 3 then
        rest (on_gl (glTexImage2D GL_RGB8 width height GL_RGB GL_UNSIGNED_BYTE
                                  (img_pixels img)) w)
      else if colorChannels =? 4 then
        rest (on_gl (glTexImage2D GL_RGBA8 width height GL_RGBA GL_UNSIGNED_BYTE
                                  (img_pixels img)) w)
      else
        let w := print_cout ("[TextureLoader] ERROR: Not implemented to handle image with "
                             +:+ pretty colorChannels
                             +:+ " channels"
                             +:+ endl) w in
        let w := stbi_image_free w in
        let w := on_gl (glBindTexture 0) w in
        Ok (false, w)
  | None =>
      Ok (false,
          print_cout ("[TextureLoader] Could not load image: " +:+ filename +:+ endl) w)
  end.

(** *** BindGLTextures() and DestroyGLTextures() *)

Definition BindGLTextures (w : W) : outcome W :=
  let* (_, w) :=
    while (Z.to_nat (m_loadedTextures (scene w)))
      (fun '(i, w) => i <? m_loadedTextures (scene w))
      (fun '(i, w) =>
         let w := on_gl (glActiveTexture i) w in
         let* e := subscript (m_textureIDs (scene w)) i in
         let w := on_gl (glBindTexture (TEXTURE_INFO.ID e)) w in
         Ok (i + 1, w))
      (0, w) in
  Ok w.

Definition DestroyGLTextures (w : W) : outcome W :=
  let* (_, w) :=
    while (Z.to_nat (m_loadedTextures (scene w)))
      (fun '(i, w) => i <? m_loadedTextures (scene w))
      (fun '(i, w) =>
         let* e := subscript (m_textureIDs (scene w)) i in
         let w := on_gl (glDeleteTextures (TEXTURE_INFO.ID e)) w in
         Ok (i + 1, w))
      (0, w) in
  Ok (set_scene w (set_loadedTextures (scene w) 0)).

(** *** FindTextureID() and FindTextureSlot() *)

Definition FindTextureID (s : Scene) (tag : string) : outcome Z :=
  let textureID := -1 in
  let index := 0 in
  let bFound := false in
  let* (textureID, index, bFound) :=
    while (Z.to_nat (m_loadedTextures s))
      (fun '(textureID, index, bFound) =>
         (index <? m_loadedTextures s) && Bool.eqb bFound false)
      (fun '(textureID, index, bFound) =>
         let* e := subscript (m_textureIDs s) index in
         if std_string_compare (TEXTURE_INFO.tag e) tag =? 0 then
           Ok (int_of_GLuint (TEXTURE_INFO.ID e), index, true)
         else
           Ok (textureID, index + 1, bFound))
      (textureID, index, bFound) in
  Ok textureID.

Definition FindTextureSlot (s : Scene) (tag : string) : outcome Z :=
  let textureSlot := -1 in
  let index := 0 in
  let bFound := false in
  let* (textureSlot, index, bFound) :=
    while (Z.to_nat (m_loadedTextures s))
      (fun '(textureSlot, index, bFound) =>
         (index <? m_loadedTextures s) && Bool.eqb bFound false)
      (fun '(textureSlot, index, bFound) =>
         let* e := subscript (m_textureIDs s) index in
         if std_string_compare (TEXTURE_INFO.tag e) tag =? 0 then
           Ok (index, index, true)
         else
           Ok (textureSlot, index + 1, bFound))
      (textureSlot, index, bFound) in
  Ok textureSlot.

(** *** FindMaterial() *)

Definition set_diffuseColor (m : Material) (c : glm.vec3 float) : Material :=
  OBJECT_MATERIAL.mk (OBJECT_MATERIAL.tag m) c
    (OBJECT_MATERIAL.specularColor m) (OBJECT_MATERIAL.shininess m).
Definition set_specularColor (m : Material) (c : glm.vec3 float) : Material :=
  OBJECT_MATERIAL.mk (OBJECT_MATERIAL.tag m) (OBJECT_MATERIAL.diffuseColor m)
    c (OBJECT_MATERIAL.shininess m).
Definition set_shininess (m : Material) (f : float) : Material :=
  OBJECT_MATERIAL.mk (OBJECT_MATERIAL.tag m) (OBJECT_MATERIAL.diffuseColor m)
    (OBJECT_MATERIAL.specularColor m) f.

(** [material] is the reference parameter: its value on entry goes in, its
    value on return comes out next to the result.  [size()] is unsigned; the
    [int] index never goes below zero, so the comparison is the one on Z. *)
Definition FindMaterial (s : Scene) (tag : string) (material : Material)
  : outcome (bool * Material) :=
  let size := Z.of_nat (length (m_objectMaterials s)) in
  if size =? 0 then Ok (false, material)
  else
    let index := 0 in
    let bFound := false in
    let* (material, index, bFound) :=
      while (length (m_objectMaterials s))
        (fun '(material, index, bFound) => (index <? size) && Bool.eqb bFound false)
        (fun '(material, index, bFound) =>
           let* e := subscript (m_objectMaterials s) index in
           if std_string_compare (OBJECT_MATERIAL.tag e) tag =? 0 then
             let bFound := true in
             let material := set_diffuseColor material (OBJECT_MATERIAL.diffuseColor e) in
             let material := set_specularColor material (OBJECT_MATERIAL.specularColor e) in
             let material := set_shininess material (OBJECT_MATERIAL.shininess e) in
             Ok (material, index, bFound)
           else
             Ok (material, index + 1, bFound))
        (material, index, bFound) in
    Ok (true, material).

(** *** SetTransformations(), SetShaderColor(), SetShaderTexture(), SetTextureUVScale() *)

Definition SetTransformations (scaleXYZ : glm.vec3 float)
           (XrotationDegrees YrotationDegrees ZrotationDegrees : float)
           (positionXYZ : glm.vec3 float) (w : W) : W :=
  let scale := glm_scale scaleXYZ in
  let rotationX := glm_rotate (glm_radians XrotationDegrees)
                              (glm.Vec3 float_1 float_0 float_0) in
  let rotationY := glm_rotate (glm_radians YrotationDegrees)
                              (glm.Vec3 float_0 float_1 float_0) in
  let rotationZ := glm_rotate (glm_radians ZrotationDegrees)
                              (glm.Vec3 float_0 float_0 float_1) in
  let translation := glm_translate positionXYZ in
  let modelView := translation *m rotationZ *m rotationY *m rotationX *m scale in
  match m_pShaderManager (scene w) with
  | Some sh => set_shader w (setMat4Value g_ModelName modelView sh)
  | None => w
  end.

Definition SetShaderColor (redColorValue greenColorValue blueColorValue alphaValue : float)
           (w : W) : W :=
  let currentColor :=
    glm.Vec4 redColorValue greenColorValue blueColorValue alphaValue in
  match m_pShaderManager (scene w) with
  | Some sh =>
      (* Turn off texturing in the shader *)
      let sh := setIntValue g_UseTextureName 0 sh in
      let sh := setVec4Value g_ColorValueName currentColor sh in
      set_shader w sh
  | None => w
  end.

Definition SetShaderTexture (textureTag : string) (w : W) : outcome W :=
  match m_pShaderManager (scene w) with
  | Some sh =>
      (* Turn on texturing in the shader *)
      let sh := setIntValue g_UseTextureName 1 sh in
      let w := set_shader w sh in
      let* slot := FindTextureSlot (scene w) textureTag in
      if slot >=? 0 then
        (* Tell the shader which texture unit to sample from *)
        Ok (set_shader w (setSampler2DValue g_TextureValueName slot sh))
      else
        Ok (print_cerr ("[SceneManager] ERROR: Texture tag '"
                        +:+ textureTag
                        +:+ "' not found."
                        +:+ endl) w)
  | None => Ok w
  end.

Definition SetTextureUVScale (u v : float) (w : W) : W :=
  match m_pShaderManager (scene w) with
  | Some sh => set_shader w (setVec2Value "UVscale" (glm.Vec2 u v) sh)
  | None => w
  end.

(** ** Vocabulary of the statements *)

(** The shape shared by the three search loops: walk [index] up to [n], stop
    at the first element that [hits]; [upd] computes the value kept for it. *)
Definition scan_cond {R : Type} (n : Z) : R * Z * bool -> bool :=
  fun '(_, index, bFound) => (index <? n) && Bool.eqb bFound false.

Definition scan_body {E R : Type} (arr : list E) (hits : E -> bool)
           (upd : R -> Z -> E -> R) : R * Z * bool -> outcome (R * Z * bool) :=
  fun '(r, index, bFound) =>
    let* e := subscript arr index in
    if hits e then Ok (upd r index e, index, true) else Ok (r, index + 1, bFound).

Definition scan_result {E R : Type} (arr : list E) (n : Z) (hits : E -> bool)
           (upd : R -> Z -> E -> R) (r : R) : R :=
  match list_find (fun e => hits e = true) (take (Z.to_nat n) arr) with
  | Some (i, e) => upd r (Z.of_nat i) e
  | None => r
  end.

(** The entries the registry holds: the first [m_loadedTextures] slots. *)
Definition registered (s : Scene) : list TEXTURE_INFO.t :=
  take (Z.to_nat (m_loadedTextures s)) (m_textureIDs s).

(** Slot [i] holds [e], the first registered entry tagged [t]. *)
Definition first_registered (s : Scene) (t : string) (i : nat) (e : TEXTURE_INFO.t) : Prop :=
  registered s !! i = Some e /\ TEXTURE_INFO.tag e = t /\
  forall j e', registered s !! j = Some e' -> (j < i)%nat -> TEXTURE_INFO.tag e' <> t.

Definition tag_registered (s : Scene) (t : string) : Prop :=
  exists e, e ∈ registered s /\ TEXTURE_INFO.tag e = t.

(** The class invariant: the count is within the array, which has
    [MAX_TEXTURES] slots. *)
Definition count_inv (s : Scene) : Prop :=
  0 <= m_loadedTextures s <= Z.pos MAX_TEXTURES.

Definition array_inv (s : Scene) : Prop :=
  length (m_textureIDs s) = Pos.to_nat MAX_TEXTURES.

Definition registry_inv (s : Scene) : Prop := count_inv s /\ array_inv s.

Definition tag_hits (t : string) (e : TEXTURE_INFO.t) : bool :=
  std_string_compare (TEXTURE_INFO.tag e) t =? 0.

Definition gl_live (g : GLState) : gset Z := dom (gl_textures g).

Definition live (w : W) : gset Z := gl_live (gl w).

(** The GL context after [act i e] on each entry [e] of slot [i], in turn. *)
Fixpoint gl_each (act : Z -> TEXTURE_INFO.t -> GLState -> GLState)
         (i : Z) (es : list TEXTURE_INFO.t) (g : GLState) : GLState :=
  match es with
  | [] => g
  | e :: es => gl_each act (i + 1) es (act i e g)
  end.

(** The GL context after [glDeleteTextures] on each of the entries in turn. *)
Definition delete_all (es : list TEXTURE_INFO.t) (g : GLState) : GLState :=
  gl_each (fun _ e => glDeleteTextures (TEXTURE_INFO.ID e)) 0 es g.

Definition bind_all (es : list TEXTURE_INFO.t) (g : GLState) : GLState :=
  gl_each (fun i e g => glBindTexture (TEXTURE_INFO.ID e) (glActiveTexture i g)) 0 es g.

Definition material_hits (t : string) (e : Material) : bool :=
  std_string_compare (OBJECT_MATERIAL.tag e) t =? 0.

(** What the loop body of [FindMaterial] assigns on a match. *)
Definition copy_material (material : Material) (e : Material) : Material :=
  set_shininess
    (set_specularColor
       (set_diffuseColor material (OBJECT_MATERIAL.diffuseColor e))
       (OBJECT_MATERIAL.specularColor e))
    (OBJECT_MATERIAL.shininess e).

(** Entry [i] is [e], the first material tagged [t], in insertion order. *)
Definition first_material (s : Scene) (t : string) (i : nat) (e : Material) : Prop :=
  m_objectMaterials s !! i = Some e /\ OBJECT_MATERIAL.tag e = t /\
  forall j e', m_objectMaterials s !! j = Some e' -> (j < i)%nat ->
               OBJECT_MATERIAL.tag e' <> t.

Definition material_defined (s : Scene) (t : string) : Prop :=
  exists e, e ∈ m_objectMaterials s /\ OBJECT_MATERIAL.tag e = t.

(** ** Tactics *)

(** Forget the variables of the context that the goal does not mention. *)
Ltac drop_unused := repeat match goal with x : _ |- _ => clear x end.

Ltac world_simpl :=
  cbn [gl scene cout cerr stbi_flip stbi_buffers
       on_gl set_gl set_scene print_cout print_cerr set_shader
       stbi_image_free stbi_set_flip_vertically_on_load
       m_pShaderManager m_textureIDs m_loadedTextures m_objectMaterials
       set_pShaderManager set_textureIDs set_loadedTextures].

(** ** Reasoning about the loops *)

Lemma string_compare_refl (a : string) : String.compare a a = Eq.
Proof.
  pose proof (String.compare_antisym a a) as H.
  destruct (String.compare a a); simpl in H; congruence.
Qed.

Lemma std_string_compare_eq (a b : string) :
  (std_string_compare a b =? 0) = true <-> a = b.
Proof.
  unfold std_string_compare. split.
  - destruct (String.compare a b) eqn:Hc; simpl; try discriminate.
    intros _. now apply String.compare_eq_iff.
  - intros ->. now rewrite string_compare_refl.
Qed.

Lemma subscript_Ok {A : Type} (a : list A) (i : Z) (x : A) :
  subscript a i = Ok x <-> 0 <= i /\ a !! Z.to_nat i = Some x.
Proof.
  unfold subscript. destruct (Z.ltb_spec i 0).
  - split; [discriminate | lia].
  - destruct (a !! Z.to_nat i) eqn:E; split; try discriminate.
    + intros [= ->]. auto.
    + intros [_ [= ->]]. reflexivity.
    + intros [_ [=]].
Qed.

Lemma subscript_in_range {A : Type} (a : list A) (i : Z) :
  0 <= i < Z.of_nat (length a) -> exists x, subscript a i = Ok x /\ a !! Z.to_nat i = Some x.
Proof.
  intros Hi. destruct (lookup_lt_is_Some_2 a (Z.to_nat i)) as [x Hx]; [lia |].
  exists x. split; [| exact Hx]. apply subscript_Ok. split; [lia | exact Hx].
Qed.

(** A search loop over an array that holds at least [n] elements returns,
    within [n] iterations, what the first hit among the first [n] gives. *)
Section Scan.
Context {E R : Type}.
Variable arr : list E.
Variable n : Z.
Variable hits : E -> bool.
Variable upd : R -> Z -> E -> R.

Lemma scan_from (fuel : nat) :
  n <= Z.of_nat (length arr) ->
  forall (index : Z) (r : R),
    0 <= index -> n - index <= Z.of_nat fuel ->
    exists index' bFound',
      while fuel (scan_cond n) (scan_body arr hits upd) (r, index, false)
      = Ok (match list_find (fun e => hits e = true)
                            (drop (Z.to_nat index) (take (Z.to_nat n) arr)) with
            | Some (i, e) => upd r (index + Z.of_nat i) e
            | None => r
            end, index', bFound').
Proof.
  intros Hn. induction fuel as [| fuel IH]; intros index r Hidx Hfuel.
  - exists index, false. simpl.
    destruct (Z.ltb_spec index n); [lia |]. simpl.
    rewrite drop_ge; [reflexivity |]. rewrite length_take. lia.
  - destruct (Z.ltb_spec index n) as [Hlt | Hge].
    + destruct (subscript_in_range arr index) as [e [He Hl]]; [lia |].
      assert (Hdrop : drop (Z.to_nat index) (take (Z.to_nat n) arr)
                      = e :: drop (S (Z.to_nat index)) (take (Z.to_nat n) arr)).
      { apply drop_S. rewrite lookup_take_lt by lia. exact Hl. }
      rewrite Hdrop. cbn [list_find].
      cbn [while scan_cond]. destruct (Z.ltb_spec index n); [| lia].
      cbn [andb Bool.eqb scan_body]. rewrite He. cbn [obind].
      destruct (hits e) eqn:Hh.
      * rewrite decide_True by reflexivity.
        exists index, true. rewrite Z.add_0_r.
        destruct fuel; simpl; rewrite andb_false_r; reflexivity.
      * rewrite decide_False by discriminate.
        destruct (IH (index + 1) r) as [i' [b' Hw]]; [lia | lia |].
        exists i', b'. rewrite Hw.
        replace (Z.to_nat (index + 1)) with (S (Z.to_nat index)) by lia.
        destruct (list_find _ (drop (S (Z.to_nat index)) _)) as [[i x] |]; simpl;
          [| reflexivity].
        replace (index + Z.of_nat (S i)) with (index + 1 + Z.of_nat i) by lia.
        reflexivity.
    + exists index, false. simpl.
      destruct (Z.ltb_spec index n); [lia |]. simpl.
      rewrite drop_ge; [reflexivity |]. rewrite length_take. lia.
Qed.

Lemma scan_total (fuel : nat) (r : R) :
  n <= Z.of_nat (length arr) -> n <= Z.of_nat fuel ->
  exists index' bFound',
    while fuel (scan_cond n) (scan_body arr hits upd) (r, 0, false)
    = Ok (scan_result arr n hits upd r, index', bFound').
Proof.
  intros Hn Hfuel.
  destruct (scan_from fuel Hn 0 r) as [i' [b' Hw]]; [lia | lia |].
  exists i', b'. rewrite Hw. reflexivity.
Qed.

End Scan.

(** ** The texture registry *)

Lemma find_first_registered (s : Scene) (t : string) (i : nat) (e : TEXTURE_INFO.t) :
  list_find (fun e => tag_hits t e = true) (registered s) = Some (i, e)
  <-> first_registered s t i e.
Proof.
  rewrite list_find_Some. unfold first_registered, tag_hits.
  rewrite std_string_compare_eq.
  split; intros (H1 & H2 & H3); (split; [exact H1 | split; [exact H2 |]]);
    intros j e' Hj Hlt; specialize (H3 j e' Hj Hlt);
    rewrite std_string_compare_eq in *; exact H3.
Qed.

Lemma find_not_registered (s : Scene) (t : string) :
  list_find (fun e => tag_hits t e = true) (registered s) = None
  <-> ~ tag_registered s t.
Proof.
  rewrite list_find_None, Forall_forall. unfold tag_registered, tag_hits. split.
  - intros H (e & Hin & Ht). apply (H e Hin). now apply std_string_compare_eq.
  - intros H e Hin Hh. apply H. exists e. split; [exact Hin |].
    now apply std_string_compare_eq.
Qed.

Lemma tag_registered_first (s : Scene) (t : string) :
  tag_registered s t -> exists i e, first_registered s t i e.
Proof.
  intros Hreg.
  destruct (list_find (fun e => tag_hits t e = true) (registered s)) as [[i e] |] eqn:Hf.
  - exists i, e. now apply find_first_registered.
  - apply find_not_registered in Hf. contradiction.
Qed.

Lemma first_registered_bound (s : Scene) (t : string) (i : nat) (e : TEXTURE_INFO.t) :
  first_registered s t i e -> 0 <= Z.of_nat i < m_loadedTextures s.
Proof.
  intros (Hl & _). apply lookup_lt_Some in Hl. unfold registered in Hl.
  rewrite length_take in Hl. lia.
Qed.

Lemma FindTextureID_scan (s : Scene) (t : string) :
  m_loadedTextures s <= Z.of_nat (length (m_textureIDs s)) ->
  FindTextureID s t
  = Ok (match list_find (fun e => tag_hits t e = true) (registered s) with
        | Some (_, e) => int_of_GLuint (TEXTURE_INFO.ID e)
        | None => -1
        end).
Proof.
  intros Hlen. unfold FindTextureID.
  destruct (scan_total (m_textureIDs s) (m_loadedTextures s) (tag_hits t)
              (fun _ _ e => int_of_GLuint (TEXTURE_INFO.ID e))
              (Z.to_nat (m_loadedTextures s)) (-1) Hlen) as (i' & b' & Hw); [lia |].
  unfold scan_cond, scan_body, tag_hits in Hw. rewrite Hw. cbn [obind].
  unfold scan_result, registered, tag_hits.
  destruct (list_find _ _) as [[i e] |]; reflexivity.
Qed.

Lemma FindTextureSlot_scan (s : Scene) (t : string) :
  m_loadedTextures s <= Z.of_nat (length (m_textureIDs s)) ->
  FindTextureSlot s t
  = Ok (match list_find (fun e => tag_hits t e = true) (registered s) with
        | Some (i, _) => Z.of_nat i
        | None => -1
        end).
Proof.
  intros Hlen. unfold FindTextureSlot.
  destruct (scan_total (m_textureIDs s) (m_loadedTextures s) (tag_hits t)
              (fun _ i _ => i)
              (Z.to_nat (m_loadedTextures s)) (-1) Hlen) as (i' & b' & Hw); [lia |].
  unfold scan_cond, scan_body, tag_hits in Hw. rewrite Hw. cbn [obind].
  unfold scan_result, registered, tag_hits.
  destruct (list_find _ _) as [[i e] |]; reflexivity.
Qed.

Lemma int_of_GLuint_small (u : Z) : 0 <= u < 2 ^ 31 -> int_of_GLuint u = u.
Proof.
  intros Hu. unfold int_of_GLuint.
  change (2 ^ 31) with 2147483648 in *. change (2 ^ 32) with 4294967296.
  rewrite Z.mod_small by lia. lia.
Qed.

Lemma lookup_first_registered (s : Scene) (t : string) (i : nat) (e : TEXTURE_INFO.t) :
  registry_inv s -> first_registered s t i e ->
  FindTextureID s t = Ok (int_of_GLuint (TEXTURE_INFO.ID e)) /\
  FindTextureSlot s t = Ok (Z.of_nat i).
Proof.
  intros [[Hlo Hhi] Harr] Hfirst. unfold array_inv in Harr.
  rewrite FindTextureID_scan, FindTextureSlot_scan by lia.
  apply find_first_registered in Hfirst. rewrite Hfirst. split; reflexivity.
Qed.

Lemma lookup_not_registered (s : Scene) (t : string) :
  registry_inv s -> ~ tag_registered s t ->
  FindTextureID s t = Ok (-1) /\ FindTextureSlot s t = Ok (-1).
Proof.
  intros [[Hlo Hhi] Harr] Hno. unfold array_inv in Harr.
  rewrite FindTextureID_scan, FindTextureSlot_scan by lia.
  apply find_not_registered in Hno. rewrite Hno. split; reflexivity.
Qed.

Lemma first_registered_appended (s s' : Scene) (t : string) (e : TEXTURE_INFO.t) :
  registered s' = (registered s ++ [e])%list ->
  TEXTURE_INFO.tag e = t -> ~ tag_registered s t ->
  first_registered s' t (length (registered s)) e.
Proof.
  intros Happ Htag Hno. unfold first_registered. rewrite Happ.
  split; [| split; [exact Htag |]].
  - rewrite lookup_app_r by lia. now rewrite Nat.sub_diag.
  - intros j e' Hj Hlt Ht. rewrite lookup_app_l in Hj by lia.
    apply Hno. exists e'. split; [| exact Ht]. eapply list_elem_of_lookup_2. exact Hj.
Qed.

(** ** Texture names in use in the GL context *)

Lemma gl_live_glBindTexture (id : Z) (g : GLState) :
  id = 0 \/ id ∈ gl_live g -> gl_live (glBindTexture id g) = gl_live g.
Proof.
  intros Hid. unfold glBindTexture. unfold gl_live at 1. cbn [gl_textures].
  destruct (decide (id = 0)) as [| Hne]; [reflexivity |].
  destruct Hid as [| Hin]; [contradiction |].
  unfold gl_live in Hin. apply elem_of_dom in Hin as [o Ho]. now rewrite Ho.
Qed.

Lemma gl_live_glTexParameteri (pname value : GLenum) (g : GLState) :
  gl_live (glTexParameteri pname value g) = gl_live g.
Proof. unfold gl_live, glTexParameteri. cbn [with_textures gl_textures]. apply dom_alter_L. Qed.

Lemma gl_live_glTexImage2D (internal : GLenum) (wd ht : Z) (format type : GLenum)
      (pixels : list Z) (g : GLState) :
  gl_live (glTexImage2D internal wd ht format type pixels g) = gl_live g.
Proof. unfold gl_live, glTexImage2D. cbn [with_textures gl_textures]. apply dom_alter_L. Qed.

Lemma gl_live_glGenerateMipmap (g : GLState) :
  gl_live (glGenerateMipmap g) = gl_live g.
Proof. unfold gl_live, glGenerateMipmap. cbn [with_textures gl_textures]. apply dom_alter_L. Qed.

Lemma gl_live_glDeleteTextures (id : Z) (g : GLState) :
  gl_live (glDeleteTextures id g) = gl_live g ∖ {[id]}.
Proof. unfold gl_live, glDeleteTextures. cbn [gl_textures]. apply dom_delete_L. Qed.

Lemma live_glGenTextures (w : W) :
  live (snd (glGenTextures w)) = {[fst (glGenTextures w)]} ∪ live w.
Proof.
  unfold live, gl_live, glGenTextures, on_gl, set_gl, with_textures.
  cbn [fst snd gl gl_textures]. apply dom_insert_L.
Qed.

(** ** CreateGLTexture, case by case *)

Lemma subscript_store_in_range {A : Type} (a : list A) (i : Z) (x : A) :
  0 <= i < Z.of_nat (length a) -> subscript_store a i x = Ok (<[Z.to_nat i := x]> a).
Proof.
  intros Hi. unfold subscript_store.
  destruct (Z.ltb_spec i 0); [lia |].
  destruct (Z.ltb_spec i (Z.of_nat (length a))); [reflexivity | lia].
Qed.

Lemma register_texture_room (textureID : Z) (tag : string) (w : W) :
  registry_inv (scene w) ->
  m_loadedTextures (scene w) < Z.pos MAX_TEXTURES ->
  register_texture textureID tag w
  = Ok (set_scene w
          (set_loadedTextures
             (set_textureIDs (scene w)
                (<[Z.to_nat (m_loadedTextures (scene w)) := TEXTURE_INFO.mk textureID tag]>
                   (m_textureIDs (scene w))))
             (m_loadedTextures (scene w) + 1))).
Proof.
  intros [[Hlo Hhi] Harr] Hroom. unfold array_inv in Harr. unfold register_texture.
  destruct (Z.ltb_spec (m_loadedTextures (scene w)) (Z.pos MAX_TEXTURES)); [| lia].
  destruct (subscript_in_range (m_textureIDs (scene w)) (m_loadedTextures (scene w)))
    as [e [He _]]; [lia |].
  rewrite He. cbn [obind].
  rewrite subscript_store_in_range by lia. cbn [obind].
  cbn [set_textureIDs m_textureIDs m_loadedTextures].
  destruct (subscript_in_range
              (<[Z.to_nat (m_loadedTextures (scene w)) :=
                   TEXTURE_INFO.mk textureID (TEXTURE_INFO.tag e)]> (m_textureIDs (scene w)))
              (m_loadedTextures (scene w))) as [e' [He' Hl']];
    [rewrite length_insert; lia |].
  rewrite He'. cbn [obind].
  rewrite subscript_store_in_range by (rewrite length_insert; lia). cbn [obind].
  rewrite list_lookup_insert_eq in Hl' by lia. injection Hl' as <-.
  cbn [TEXTURE_INFO.ID]. rewrite list_insert_insert_eq. reflexivity.
Qed.

Lemma register_texture_full (textureID : Z) (tag : string) (w : W) :
  Z.pos MAX_TEXTURES <= m_loadedTextures (scene w) ->
  register_texture textureID tag w
  = Ok (print_cout ("[TextureLoader] WARNING: Exceeded MAX_TEXTURES; texture not stored."
                    +:+ endl) w).
Proof.
  intros Hfull. unfold register_texture.
  destruct (Z.ltb_spec (m_loadedTextures (scene w)) (Z.pos MAX_TEXTURES)); [lia | reflexivity].
Qed.

Lemma CreateGLTexture_not_decoded (filename tag : string) (w : W) :
  stbi_load true filename = None ->
  exists w', CreateGLTexture filename tag w = Ok (false, w') /\
             scene w' = scene w /\ gl w' = gl w /\ cerr w' = cerr w.
Proof.
  intros Hload. unfold CreateGLTexture, stbi_load_w.
  cbn [stbi_set_flip_vertically_on_load stbi_flip]. rewrite Hload.
  eexists. split; [reflexivity |]. repeat split.
Qed.

Lemma CreateGLTexture_unsupported (filename tag : string) (w : W) (img : Image) :
  stbi_load true filename = Some img ->
  img_channels img <> 3 -> img_channels img <> 4 ->
  exists w', CreateGLTexture filename tag w = Ok (false, w') /\
             scene w' = scene w /\
             live w' = {[glGenName (gl_textures (gl w))]} ∪ live w /\
             stbi_buffers w' = stbi_buffers w /\
             cerr w' = cerr w.
Proof.
  drop_unused.
  intros Hload H3 H4. unfold CreateGLTexture, stbi_load_w.
  cbn [stbi_set_flip_vertically_on_load stbi_flip]. rewrite Hload.
  cbn [glGenTextures on_gl set_gl print_cout gl scene].
  destruct (Z.eqb_spec (img_channels img) 3); [contradiction |].
  destruct (Z.eqb_spec (img_channels img) 4); [contradiction |].
  eexists. split; [reflexivity |]. split; [reflexivity |].
  split; [| split; [cbn; lia | reflexivity]].
  unfold live. world_simpl.
  rewrite gl_live_glBindTexture by (left; reflexivity).
  rewrite !gl_live_glTexParameteri.
  rewrite gl_live_glBindTexture.
  - unfold gl_live, with_textures. cbn [gl_textures]. apply dom_insert_L.
  - right. unfold gl_live, with_textures. cbn [gl_textures].
    rewrite dom_insert_L. set_solver.
Qed.

Lemma CreateGLTexture_supported (filename tag : string) (w : W) (img : Image) :
  stbi_load true filename = Some img ->
  img_channels img = 3 \/ img_channels img = 4 ->
  exists wm,
    scene wm = scene w /\
    live wm = {[glGenName (gl_textures (gl w))]} ∪ live w /\
    stbi_buffers wm = stbi_buffers w /\
    cerr wm = cerr w /\
    CreateGLTexture filename tag w
    = (let* w' := register_texture (glGenName (gl_textures (gl w))) tag wm in Ok (true, w')).
Proof.
  drop_unused.
  intros Hload Hch. unfold CreateGLTexture, stbi_load_w.
  cbn [stbi_set_flip_vertically_on_load stbi_flip]. rewrite Hload.
  cbn [glGenTextures on_gl set_gl print_cout gl scene].
  assert (Hlive : forall internal format,
    gl_live
      (glBindTexture 0
        (glGenerateMipmap
          (glTexImage2D internal (img_width img) (img_height img) format GL_UNSIGNED_BYTE
            (img_pixels img)
            (glTexParameteri GL_TEXTURE_MAG_FILTER GL_LINEAR
              (glTexParameteri GL_TEXTURE_MIN_FILTER GL_LINEAR_MIPMAP_LINEAR
                (glTexParameteri GL_TEXTURE_WRAP_T GL_REPEAT
                  (glTexParameteri GL_TEXTURE_WRAP_S GL_REPEAT
                    (glBindTexture (glGenName (gl_textures (gl w)))
                      (with_textures (gl w)
                        (<[glGenName (gl_textures (gl w)) := TexObj_new]>
                           (gl_textures (gl w))))))))))))
    = {[glGenName (gl_textures (gl w))]} ∪ live w).
  { intros internal format.
    rewrite gl_live_glBindTexture by (left; reflexivity).
    rewrite gl_live_glGenerateMipmap, gl_live_glTexImage2D, !gl_live_glTexParameteri.
    rewrite gl_live_glBindTexture.
    - unfold gl_live, with_textures. cbn [gl_textures]. apply dom_insert_L.
    - right. unfold gl_live, with_textures. cbn [gl_textures].
      rewrite dom_insert_L. set_solver. }
  destruct Hch as [Hc | Hc]; rewrite Hc; cbn [Z.eqb Pos.eqb];
    (eexists; split; [| split; [| split; [| split; [| reflexivity]]]]);
    try reflexivity; try (cbn; lia); unfold live; world_simpl; apply Hlive.
Qed.

(** ** BindGLTextures and DestroyGLTextures *)

Lemma set_gl_same (w : W) : set_gl w (gl w) = w.
Proof. destruct w; reflexivity. Qed.

Lemma each_texture_loop (act : Z -> TEXTURE_INFO.t -> GLState -> GLState) (fuel : nat) :
  forall (i : Z) (w : W),
    m_loadedTextures (scene w) <= Z.of_nat (length (m_textureIDs (scene w))) ->
    0 <= i -> m_loadedTextures (scene w) - i <= Z.of_nat fuel ->
    exists i',
      while fuel
        (fun '(i, w) => i <? m_loadedTextures (scene w))
        (fun '(i, w) =>
           let* e := subscript (m_textureIDs (scene w)) i in
           Ok (i + 1, on_gl (act i e) w))
        (i, w)
      = Ok (i', set_gl w (gl_each act i (drop (Z.to_nat i) (registered (scene w))) (gl w))).
Proof.
  induction fuel as [| fuel IH]; intros i w Hlen Hi Hfuel.
  - exists i. cbn [while]. destruct (Z.ltb_spec i (m_loadedTextures (scene w))); [lia |].
    unfold registered. rewrite drop_ge by (rewrite length_take; lia).
    cbn [gl_each]. now rewrite set_gl_same.
  - cbn [while]. destruct (Z.ltb_spec i (m_loadedTextures (scene w))) as [Hlt | Hge].
    + destruct (subscript_in_range (m_textureIDs (scene w)) i) as [e [He Hl]]; [lia |].
      rewrite He. cbn [obind].
      destruct (IH (i + 1) (on_gl (act i e) w))
        as [i' Hw]; [exact Hlen | lia | world_simpl; lia |].
      exists i'. refine (eq_trans Hw _). f_equal. f_equal.
      unfold registered. world_simpl.
      replace (Z.to_nat (i + 1)) with (S (Z.to_nat i)) by lia.
      rewrite (drop_S (take (Z.to_nat (m_loadedTextures (scene w))) (m_textureIDs (scene w)))
                      e (Z.to_nat i))
        by (rewrite lookup_take_lt by lia; exact Hl).
      reflexivity.
    + exists i. unfold registered. rewrite drop_ge by (rewrite length_take; lia).
      cbn [gl_each]. now rewrite set_gl_same.
Qed.

Lemma DestroyGLTextures_Ok (w : W) :
  m_loadedTextures (scene w) <= Z.of_nat (length (m_textureIDs (scene w))) ->
  DestroyGLTextures w
  = Ok (set_scene (set_gl w (delete_all (registered (scene w)) (gl w)))
                  (set_loadedTextures (scene w) 0)).
Proof.
  intros Hlen. unfold DestroyGLTextures.
  destruct (each_texture_loop (fun _ e => glDeleteTextures (TEXTURE_INFO.ID e))
              (Z.to_nat (m_loadedTextures (scene w))) 0 w Hlen)
    as [i' Hw]; [lia | lia |].
  match goal with
  | |- obind ?c _ = _ =>
      replace c
        with (Ok (i', set_gl w (delete_all (registered (scene w)) (gl w))))
        by (symmetry; exact Hw)
  end.
  reflexivity.
Qed.

Lemma BindGLTextures_Ok (w : W) :
  m_loadedTextures (scene w) <= Z.of_nat (length (m_textureIDs (scene w))) ->
  BindGLTextures w = Ok (set_gl w (bind_all (registered (scene w)) (gl w))).
Proof.
  intros Hlen. unfold BindGLTextures.
  destruct (each_texture_loop
              (fun i e g => glBindTexture (TEXTURE_INFO.ID e) (glActiveTexture i g))
              (Z.to_nat (m_loadedTextures (scene w))) 0 w Hlen)
    as [i' Hw]; [lia | lia |].
  match goal with
  | |- obind ?c _ = _ =>
      replace c
        with (Ok (i', set_gl w (bind_all (registered (scene w)) (gl w))))
        by (symmetry; exact Hw)
  end.
  reflexivity.
Qed.

Lemma gl_live_delete_from (es : list TEXTURE_INFO.t) (i : Z) (g : GLState) (id : Z) :
  id ∈ gl_live (gl_each (fun _ e => glDeleteTextures (TEXTURE_INFO.ID e)) i es g)
  <-> id ∈ gl_live g /\ forall e, e ∈ es -> TEXTURE_INFO.ID e <> id.
Proof.
  drop_unused.
  revert i g. induction es as [| e es IH]; intros i g; cbn [gl_each].
  - split; [intros H; split; [exact H | intros e He; set_solver] | intros [H _]; exact H].
  - rewrite IH, gl_live_glDeleteTextures. set_solver.
Qed.

Lemma gl_live_delete_all (es : list TEXTURE_INFO.t) (g : GLState) (id : Z) :
  id ∈ gl_live (delete_all es g)
  <-> id ∈ gl_live g /\ forall e, e ∈ es -> TEXTURE_INFO.ID e <> id.
Proof. apply gl_live_delete_from. Qed.

(** ** The material registry *)

Lemma find_first_material (s : Scene) (t : string) (i : nat) (e : Material) :
  list_find (fun e => material_hits t e = true) (m_objectMaterials s) = Some (i, e)
  <-> first_material s t i e.
Proof.
  rewrite list_find_Some. unfold first_material, material_hits.
  rewrite std_string_compare_eq.
  split; intros (H1 & H2 & H3); (split; [exact H1 | split; [exact H2 |]]);
    intros j e' Hj Hlt; specialize (H3 j e' Hj Hlt);
    rewrite std_string_compare_eq in *; exact H3.
Qed.

Lemma find_no_material (s : Scene) (t : string) :
  list_find (fun e => material_hits t e = true) (m_objectMaterials s) = None
  <-> ~ material_defined s t.
Proof.
  rewrite list_find_None, Forall_forall. unfold material_defined, material_hits. split.
  - intros H (e & Hin & Ht). apply (H e Hin). now apply std_string_compare_eq.
  - intros H e Hin Hh. apply H. exists e. split; [exact Hin |].
    now apply std_string_compare_eq.
Qed.

Lemma material_defined_first (s : Scene) (t : string) :
  material_defined s t -> exists i e, first_material s t i e.
Proof.
  intros Hdef.
  destruct (list_find (fun e => material_hits t e = true) (m_objectMaterials s))
    as [[i e] |] eqn:Hf.
  - exists i, e. now apply find_first_material.
  - apply find_no_material in Hf. contradiction.
Qed.

Lemma FindMaterial_scan (s : Scene) (t : string) (material : Material) :
  FindMaterial s t material
  = Ok (match m_objectMaterials s with
        | [] => (false, material)
        | _ :: _ =>
            (true,
             match list_find (fun e => material_hits t e = true) (m_objectMaterials s) with
             | Some (_, e) => copy_material material e
             | None => material
             end)
        end).
Proof.
  unfold FindMaterial.
  destruct (m_objectMaterials s) as [| e0 mats] eqn:Hm; [reflexivity |].
  destruct (Z.eqb_spec (Z.of_nat (length (e0 :: mats))) 0) as [Hz | _];
    [cbn [length] in Hz; lia |].
  destruct (scan_total (e0 :: mats) (Z.of_nat (length (e0 :: mats))) (material_hits t)
              (fun m _ e => copy_material m e)
              (length (e0 :: mats)) material) as (i' & b' & Hw); [lia | lia |].
  match goal with
  | |- obind ?c _ = _ =>
      replace c with (Ok (scan_result (e0 :: mats) (Z.of_nat (length (e0 :: mats)))
                            (material_hits t) (fun m _ e => copy_material m e) material,
                          i', b'))
        by (symmetry; exact Hw)
  end.
  cbn [obind]. unfold scan_result. rewrite Nat2Z.id, firstn_all.
  destruct (list_find _ _) as [[i e] |]; reflexivity.
Qed.

(** ** The claims about the registries *)

(** C1: [FindMaterial] reports not-found exactly when the material registry is
    empty; on a non-empty registry in which no entry carries the tag it
    reports success and hands the output material back as it came in. *)
Theorem FindMaterial_not_found_iff_empty (s : Scene) (t : string) (material : Material) :
  exists (bReturn : bool) (out : Material),
    FindMaterial s t material = Ok (bReturn, out) /\
    (bReturn = false <-> m_objectMaterials s = []) /\
    (m_objectMaterials s <> [] -> ~ material_defined s t ->
     bReturn = true /\ out = material).
Proof.
  drop_unused.
  rewrite FindMaterial_scan.
  destruct (m_objectMaterials s) as [| e0 mats] eqn:Hm.
  - exists false, material. split; [reflexivity |]. split; [tauto |]. congruence.
  - eexists true, _. split; [reflexivity |]. split; [split; discriminate |].
    intros _ Hno. split; [reflexivity |].
    apply find_no_material in Hno. rewrite Hm in Hno. now rewrite Hno.
Qed.

(** C8: on a non-empty material registry, a tag carried by some entry makes
    [FindMaterial] overwrite the output's diffuse colour, specular colour and
    shininess with those of the first such entry in insertion order, and
    nothing else of it; a tag carried by no entry leaves the output as it
    came in. *)
Theorem FindMaterial_first_match (s : Scene) (t : string) (material : Material) :
  m_objectMaterials s <> [] ->
  (material_defined s t -> exists i e, first_material s t i e) /\
  (forall i e, first_material s t i e ->
     FindMaterial s t material
     = Ok (true, OBJECT_MATERIAL.mk (OBJECT_MATERIAL.tag material)
                   (OBJECT_MATERIAL.diffuseColor e)
                   (OBJECT_MATERIAL.specularColor e)
                   (OBJECT_MATERIAL.shininess e))) /\
  (~ material_defined s t -> FindMaterial s t material = Ok (true, material)).
Proof.
  intros Hne. split; [apply material_defined_first |].
  rewrite FindMaterial_scan.
  destruct (m_objectMaterials s) as [| e0 mats] eqn:Hm; [congruence |]. split.
  - intros i e Hfirst. apply find_first_material in Hfirst.
    rewrite Hm in Hfirst. rewrite Hfirst. reflexivity.
  - intros Hno. apply find_no_material in Hno. rewrite Hm in Hno. now rewrite Hno.
Qed.

Lemma CreateGLTexture_true (filename tag : string) (w w' : W) :
  CreateGLTexture filename tag w = Ok (true, w') ->
  exists img, stbi_load true filename = Some img /\
              (img_channels img = 3 \/ img_channels img = 4).
Proof.
  intros Hc. destruct (stbi_load true filename) as [img |] eqn:Hload.
  - exists img. split; [reflexivity |].
    destruct (Z.eq_dec (img_channels img) 3) as [| H3]; [now left |].
    destruct (Z.eq_dec (img_channels img) 4) as [| H4]; [now right |].
    destruct (CreateGLTexture_unsupported filename tag w img Hload H3 H4) as (w1 & Hw1 & _).
    congruence.
  - destruct (CreateGLTexture_not_decoded filename tag w Hload) as (w1 & Hw1 & _).
    congruence.
Qed.

Lemma registered_after_store (s : Scene) (e : TEXTURE_INFO.t) :
  registry_inv s -> m_loadedTextures s < Z.pos MAX_TEXTURES ->
  registered (set_loadedTextures
                (set_textureIDs s (<[Z.to_nat (m_loadedTextures s) := e]> (m_textureIDs s)))
                (m_loadedTextures s + 1))
  = (registered s ++ [e])%list.
Proof.
  intros [[Hlo Hhi] Harr] Hroom. unfold array_inv in Harr. unfold registered. world_simpl.
  replace (Z.to_nat (m_loadedTextures s + 1)) with (S (Z.to_nat (m_loadedTextures s))) by lia.
  destruct (lookup_lt_is_Some_2 (m_textureIDs s) (Z.to_nat (m_loadedTextures s)))
    as [old Hold]; [lia |].
  erewrite take_S_r by (rewrite list_lookup_insert_eq by lia; reflexivity).
  rewrite take_insert_ge by lia. reflexivity.
Qed.

Lemma registry_inv_after_store (s : Scene) (e : TEXTURE_INFO.t) :
  registry_inv s -> m_loadedTextures s < Z.pos MAX_TEXTURES ->
  registry_inv (set_loadedTextures
                  (set_textureIDs s (<[Z.to_nat (m_loadedTextures s) := e]> (m_textureIDs s)))
                  (m_loadedTextures s + 1)).
Proof.
  intros [[Hlo Hhi] Harr] Hroom. unfold registry_inv, count_inv, array_inv in *. world_simpl.
  rewrite length_insert. lia.
Qed.

(** A registration that succeeds while there is room puts the new handle and
    tag in the slot after the entries held so far. *)
Lemma CreateGLTexture_registers (filename tag : string) (w w' : W) :
  registry_inv (scene w) ->
  m_loadedTextures (scene w) < Z.pos MAX_TEXTURES ->
  CreateGLTexture filename tag w = Ok (true, w') ->
  registered (scene w')
  = (registered (scene w) ++ [TEXTURE_INFO.mk (glGenName (gl_textures (gl w))) tag])%list /\
  registry_inv (scene w').
Proof.
  intros Hinv Hroom Hc.
  destruct (CreateGLTexture_true _ _ _ _ Hc) as (img & Hload & Hch).
  destruct (CreateGLTexture_supported filename tag w img Hload Hch)
    as (wm & Hs & _ & _ & _ & Heq).
  rewrite Heq in Hc. rewrite register_texture_room in Hc by (rewrite Hs; assumption).
  cbn [obind] in Hc. injection Hc as <-. world_simpl. rewrite Hs.
  split; [now apply registered_after_store | now apply registry_inv_after_store].
Qed.

(** C5: on a registry within capacity, [FindTextureID] returns the handle
    (as an [int]) and [FindTextureSlot] the index of the first registered
    entry that carries the tag; that index lies in [0, m_loadedTextures); a
    handle below 2^31 is returned unchanged; a registered tag always has such
    a first entry; for a tag that is not registered both return -1.  After a
    registration that succeeded with room left, under a tag not used before,
    the two lookups return the handle just generated and the old count. *)
Theorem FindTexture_first_match (s : Scene) (t : string) :
  registry_inv s ->
  (tag_registered s t -> exists i e, first_registered s t i e) /\
  (forall i e, first_registered s t i e ->
     FindTextureID s t = Ok (int_of_GLuint (TEXTURE_INFO.ID e)) /\
     FindTextureSlot s t = Ok (Z.of_nat i) /\
     0 <= Z.of_nat i < m_loadedTextures s /\
     (0 <= TEXTURE_INFO.ID e < 2 ^ 31 -> FindTextureID s t = Ok (TEXTURE_INFO.ID e))) /\
  (~ tag_registered s t ->
     FindTextureID s t = Ok (-1) /\ FindTextureSlot s t = Ok (-1)) /\
  (forall filename w w',
     scene w = s -> m_loadedTextures s < Z.pos MAX_TEXTURES ->
     CreateGLTexture filename t w = Ok (true, w') ->
     ~ tag_registered s t ->
     FindTextureID (scene w') t = Ok (int_of_GLuint (glGenName (gl_textures (gl w)))) /\
     FindTextureSlot (scene w') t = Ok (m_loadedTextures s)).
Proof.
  intros Hinv. split; [apply tag_registered_first |]. split; [| split].
  - intros i e Hfirst.
    destruct (lookup_first_registered s t i e Hinv Hfirst) as [Hid Hslot].
    split; [exact Hid |]. split; [exact Hslot |].
    split; [now apply (first_registered_bound s t i e) |].
    intros Hsmall. rewrite Hid. now rewrite int_of_GLuint_small.
  - now apply lookup_not_registered.
  - intros filename w w' Hs Hroom Hrun Hno. subst s.
    destruct (CreateGLTexture_registers filename t w w' Hinv Hroom Hrun) as [Happ Hinv'].
    pose proof (first_registered_appended (scene w) (scene w') t
                  (TEXTURE_INFO.mk (glGenName (gl_textures (gl w))) t) Happ eq_refl Hno)
      as Hfirst.
    destruct (lookup_first_registered _ _ _ _ Hinv' Hfirst) as [Hid Hslot].
    split; [exact Hid |]. rewrite Hslot. f_equal.
    destruct Hinv as [[Hlo Hhi] Harr]. unfold array_inv in Harr.
    unfold registered. rewrite length_take. lia.
Qed.

(** C9: the registered-texture count stays within [0, MAX_TEXTURES] and the
    array keeps its MAX_TEXTURES slots.  The constructor starts at zero;
    [CreateGLTexture] returns normally and either leaves the registry as it
    was or, only when the count is below MAX_TEXTURES, writes slot [count]
    and increments the count by one; [DestroyGLTextures] and
    [BindGLTextures] return normally, the first with the count at zero; the
    shader-binding calls do not touch the registry. *)
Theorem registry_inv_preserved :
  (forall pShaderManager junk, registry_inv (SceneManager_ctor pShaderManager junk)) /\
  (forall filename tag w, registry_inv (scene w) ->
     exists b w', CreateGLTexture filename tag w = Ok (b, w') /\
       registry_inv (scene w') /\
       (scene w' = scene w \/
        (m_loadedTextures (scene w) < Z.pos MAX_TEXTURES /\ b = true /\
         m_loadedTextures (scene w') = m_loadedTextures (scene w) + 1 /\
         m_textureIDs (scene w')
         = <[Z.to_nat (m_loadedTextures (scene w)) :=
               TEXTURE_INFO.mk (glGenName (gl_textures (gl w))) tag]>
             (m_textureIDs (scene w))))) /\
  (forall w, registry_inv (scene w) ->
     exists w', DestroyGLTextures w = Ok w' /\
       m_loadedTextures (scene w') = 0 /\ registry_inv (scene w')) /\
  (forall w, registry_inv (scene w) ->
     exists w', BindGLTextures w = Ok w' /\ scene w' = scene w) /\
  (forall w, registry_inv (scene w) ->
     (forall sc rx ry rz pos, registry_inv (scene (SetTransformations sc rx ry rz pos w))) /\
     (forall cr cg cb ca, registry_inv (scene (SetShaderColor cr cg cb ca w))) /\
     (forall u v, registry_inv (scene (SetTextureUVScale u v w))) /\
     (forall t, exists w', SetShaderTexture t w = Ok w' /\ registry_inv (scene w'))).
Proof.
  split; [| split; [| split; [| split]]].
  - intros p junk. unfold registry_inv, count_inv, array_inv, SceneManager_ctor. world_simpl.
    rewrite length_map, length_seq. lia.
  - intros filename tag w Hinv.
    destruct (stbi_load true filename) as [img |] eqn:Hload.
    + destruct (Z.eq_dec (img_channels img) 3) as [H3 | H3];
        [| destruct (Z.eq_dec (img_channels img) 4) as [H4 | H4]].
      1, 2: destruct (CreateGLTexture_supported filename tag w img Hload ltac:(tauto))
              as (wm & Hs & _ & _ & _ & Heq); rewrite Heq;
            destruct (Z.lt_ge_cases (m_loadedTextures (scene w)) (Z.pos MAX_TEXTURES))
              as [Hroom | Hfull].
      1, 3: rewrite register_texture_room by (rewrite Hs; assumption);
            cbn [obind]; eexists true, _; split; [reflexivity |]; world_simpl; rewrite Hs;
            split; [now apply registry_inv_after_store |];
            right; repeat split; assumption.
      1, 2: rewrite register_texture_full by (rewrite Hs; assumption);
            cbn [obind]; eexists true, _; split; [reflexivity |]; world_simpl; rewrite Hs;
            split; [assumption | now left].
      destruct (CreateGLTexture_unsupported filename tag w img Hload H3 H4)
        as (w' & Hw' & Hs & _).
      exists false, w'. rewrite Hs. auto.
    + destruct (CreateGLTexture_not_decoded filename tag w Hload) as (w' & Hw' & Hs & _).
      exists false, w'. rewrite Hs. auto.
  - intros w Hinv. pose proof Hinv as [[Hlo Hhi] Harr]. unfold array_inv in Harr.
    rewrite DestroyGLTextures_Ok by lia. eexists. split; [reflexivity |].
    unfold registry_inv, count_inv, array_inv. world_simpl. repeat split; lia.
  - intros w Hinv. pose proof Hinv as [[Hlo Hhi] Harr]. unfold array_inv in Harr.
    rewrite BindGLTextures_Ok by lia. eexists. split; reflexivity.
  - intros w Hinv. pose proof Hinv as [[Hlo Hhi] Harr]. unfold array_inv in Harr.
    assert (Hlen : m_loadedTextures (scene w) <= Z.of_nat (length (m_textureIDs (scene w))))
      by lia.
    split; [| split; [| split]].
    + intros. unfold SetTransformations.
      destruct (m_pShaderManager (scene w)); [| assumption]. exact Hinv.
    + intros. unfold SetShaderColor.
      destruct (m_pShaderManager (scene w)); [| assumption]. exact Hinv.
    + intros. unfold SetTextureUVScale.
      destruct (m_pShaderManager (scene w)); [| assumption]. exact Hinv.
    + intros t. unfold SetShaderTexture.
      destruct (m_pShaderManager (scene w)) as [sh |]; [| eauto].
      rewrite FindTextureSlot_scan by (world_simpl; exact Hlen). cbn [obind].
      match goal with |- context [if ?c then _ else _] => destruct c end;
        eexists; (split; [reflexivity | exact Hinv]).
Qed.

(** C6: on an empty registry [DestroyGLTextures] returns normally and leaves
    the world as it was; on any registry that satisfies the invariant it
    returns normally with the count at zero, after which both lookups return
    -1 for every tag and no registered handle is a texture in use. *)
Theorem DestroyGLTextures_resets :
  (forall w, m_loadedTextures (scene w) = 0 -> DestroyGLTextures w = Ok w) /\
  (forall w, registry_inv (scene w) ->
     exists w', DestroyGLTextures w = Ok w' /\
       m_loadedTextures (scene w') = 0 /\
       (forall t, FindTextureID (scene w') t = Ok (-1) /\
                  FindTextureSlot (scene w') t = Ok (-1)) /\
       (forall e, e ∈ registered (scene w) -> TEXTURE_INFO.ID e ∉ live w')).
Proof.
  split.
  - intros w Hz. rewrite DestroyGLTextures_Ok by lia.
    unfold registered. rewrite Hz. cbn [Z.to_nat take delete_all gl_each].
    destruct w as [[p a n m] g f b o e]. cbn in Hz. subst n. reflexivity.
  - intros w [[Hlo Hhi] Harr]. unfold array_inv in Harr.
    rewrite DestroyGLTextures_Ok by lia. eexists. split; [reflexivity |].
    split; [reflexivity |]. split.
    + intros t. split; reflexivity.
    + intros e He Hin. unfold live in Hin. world_simpl.
      apply gl_live_delete_all in Hin as [_ Hne]. now apply (Hne e).
Qed.

(** C3: with the registry at capacity, registering a decodable image of 3 or
    4 channels returns true and takes a texture name into use, while the
    registry is left exactly as it was: the count stays at MAX_TEXTURES,
    every tag looks up as before, and a tag that was not registered is
    still answered with -1. *)
Theorem CreateGLTexture_at_capacity (filename tag : string) (w : W) (img : Image) :
  registry_inv (scene w) ->
  m_loadedTextures (scene w) = Z.pos MAX_TEXTURES ->
  stbi_load true filename = Some img ->
  img_channels img = 3 \/ img_channels img = 4 ->
  exists w', CreateGLTexture filename tag w = Ok (true, w') /\
    glGenName (gl_textures (gl w)) ∈ live w' /\
    live w' = {[glGenName (gl_textures (gl w))]} ∪ live w /\
    scene w' = scene w /\
    m_loadedTextures (scene w') = Z.pos MAX_TEXTURES /\
    (forall t i e, first_registered (scene w) t i e ->
       FindTextureID (scene w') t = Ok (int_of_GLuint (TEXTURE_INFO.ID e)) /\
       FindTextureSlot (scene w') t = Ok (Z.of_nat i)) /\
    (~ tag_registered (scene w) tag ->
       FindTextureID (scene w') tag = Ok (-1) /\ FindTextureSlot (scene w') tag = Ok (-1)).
Proof.
  drop_unused.
  intros Hinv Hfull Hload Hch.
  destruct (CreateGLTexture_supported filename tag w img Hload Hch)
    as (wm & Hs & Hlive & _ & _ & Heq).
  rewrite Heq, register_texture_full by (rewrite Hs; lia). cbn [obind].
  eexists. split; [reflexivity |].
  assert (Hs' : scene (print_cout
                         ("[TextureLoader] WARNING: Exceeded MAX_TEXTURES; texture not stored."
                          +:+ endl) wm) = scene w) by exact Hs.
  assert (Hl' : live (print_cout
                        ("[TextureLoader] WARNING: Exceeded MAX_TEXTURES; texture not stored."
                         +:+ endl) wm)
                = {[glGenName (gl_textures (gl w))]} ∪ live w) by exact Hlive.
  rewrite Hs', Hl'.
  split; [set_solver |]. split; [reflexivity |]. split; [reflexivity |].
  split; [exact Hfull |].
  split; [| now apply lookup_not_registered].
  intros t i e Hfirst. now apply lookup_first_registered.
Qed.

(** C2 (what the code does): for an image that decodes with a channel count
    other than 3 or 4, [CreateGLTexture] returns false with the registry
    untouched and the decoded buffer freed, but the texture name it
    generated is still in use on return; [DestroyGLTextures] does not
    release it either, unless a registered entry happens to hold that name. *)
Theorem CreateGLTexture_unsupported_keeps_texture
        (filename tag : string) (w : W) (img : Image) :
  stbi_load true filename = Some img ->
  img_channels img <> 3 -> img_channels img <> 4 ->
  glGenName (gl_textures (gl w)) ∉ live w ->
  exists w', CreateGLTexture filename tag w = Ok (false, w') /\
    scene w' = scene w /\
    stbi_buffers w' = stbi_buffers w /\
    glGenName (gl_textures (gl w)) ∈ live w' /\
    live w' = {[glGenName (gl_textures (gl w))]} ∪ live w /\
    live w' <> live w /\
    (registry_inv (scene w) ->
     (forall e, e ∈ registered (scene w) ->
                TEXTURE_INFO.ID e <> glGenName (gl_textures (gl w))) ->
     exists w'', DestroyGLTextures w' = Ok w'' /\
                 glGenName (gl_textures (gl w)) ∈ live w'').
Proof.
  drop_unused.
  intros Hload H3 H4 Hfresh.
  destruct (CreateGLTexture_unsupported filename tag w img Hload H3 H4)
    as (w' & Hw' & Hs & Hlive & Hbuf & _).
  exists w'. split; [exact Hw' |]. split; [exact Hs |]. split; [exact Hbuf |].
  split; [rewrite Hlive; set_solver |]. split; [exact Hlive |].
  split; [rewrite Hlive; set_solver |].
  intros [[Hlo Hhi] Harr] Hids. unfold array_inv in Harr.
  rewrite DestroyGLTextures_Ok by (rewrite Hs; lia).
  eexists. split; [reflexivity |].
  unfold live. world_simpl. apply gl_live_delete_all. rewrite Hs.
  split; [| exact Hids]. fold (live w'). rewrite Hlive. set_solver.
Qed.

(** ** The claims about the shader binding *)

(** C7: with a shader manager in place and the registry within capacity,
    [SetShaderTexture] returns normally and has written 1 to the use-texture
    uniform whatever the tag; for a tag first registered in slot [i] it has
    also written [i] as the sampler and printed nothing; for a tag that is
    not registered the use-texture write is the only one, the sampler
    uniform reads as before, and the error line is on [cerr]. *)
Theorem SetShaderTexture_writes (textureTag : string) (w : W) (sh : Shader) :
  m_pShaderManager (scene w) = Some sh ->
  registry_inv (scene w) ->
  exists w' sh',
    SetShaderTexture textureTag w = Ok w' /\
    m_pShaderManager (scene w') = Some sh' /\
    sh' !! g_UseTextureName = Some (UInt 1) /\
    (forall i e, first_registered (scene w) textureTag i e ->
       sh' = setSampler2DValue g_TextureValueName (Z.of_nat i)
               (setIntValue g_UseTextureName 1 sh) /\
       sh' !! g_TextureValueName = Some (USampler2D (Z.of_nat i)) /\
       cerr w' = cerr w) /\
    (~ tag_registered (scene w) textureTag ->
       sh' = setIntValue g_UseTextureName 1 sh /\
       sh' !! g_TextureValueName = sh !! g_TextureValueName /\
       cerr w' = cerr w +:+ ("[SceneManager] ERROR: Texture tag '"
                             +:+ textureTag +:+ "' not found." +:+ endl)).
Proof.
  intros Hsh [[Hlo Hhi] Harr]. unfold array_inv in Harr.
  unfold SetShaderTexture. rewrite Hsh.
  rewrite FindTextureSlot_scan by (world_simpl; lia). cbn [obind].
  change (registered (scene (set_shader w (setIntValue g_UseTextureName 1 sh))))
    with (registered (scene w)).
  destruct (list_find (fun e => tag_hits textureTag e = true) (registered (scene w)))
    as [[i e] |] eqn:Hf.
  - destruct (Z.geb_spec (Z.of_nat i) 0) as [_ | Hneg]; [| lia].
    eexists _, _. split; [reflexivity |]. split; [reflexivity |].
    unfold setSampler2DValue, setIntValue. split; [| split].
    + rewrite lookup_insert_ne by discriminate. apply lookup_insert_eq.
    + intros i0 e0 Hfirst. apply find_first_registered in Hfirst.
      rewrite Hf in Hfirst. injection Hfirst as <- <-.
      split; [reflexivity |]. split; [apply lookup_insert_eq | reflexivity].
    + intros Hno. apply find_not_registered in Hno. congruence.
  - cbn [Z.geb Z.compare].
    eexists _, _. split; [reflexivity |]. split; [reflexivity |].
    unfold setIntValue. split; [apply lookup_insert_eq | split].
    + intros i0 e0 Hfirst. apply find_first_registered in Hfirst. congruence.
    + intros _. split; [reflexivity |]. split; [| reflexivity].
      apply lookup_insert_ne. discriminate.
Qed.

(** C10: with a null shader-manager pointer, [SetTransformations],
    [SetShaderColor], [SetShaderTexture] and [SetTextureUVScale] return
    normally and leave the whole world, and so every uniform, as it was. *)
Theorem null_shader_is_noop (w : W) :
  m_pShaderManager (scene w) = None ->
  (forall scaleXYZ rx ry rz positionXYZ,
     SetTransformations scaleXYZ rx ry rz positionXYZ w = w) /\
  (forall red green blue alpha, SetShaderColor red green blue alpha w = w) /\
  (forall textureTag, SetShaderTexture textureTag w = Ok w) /\
  (forall u v, SetTextureUVScale u v w = w).
Proof.
  intros Hnull. repeat split; intros;
    unfold SetTransformations, SetShaderColor, SetShaderTexture, SetTextureUVScale;
    rewrite Hnull; reflexivity.
Qed.

(** C4: with a shader manager in place, [SetTransformations] writes, under
    the name "model", the product translation * rotationZ * rotationY *
    rotationX * scale, grouped from the left, and touches no other uniform.
    Where the matrix product acts on points as composition, that matrix
    scales a point first, then rotates it about X, Y and Z in that order,
    then translates it.  Where GLM maps unit scale, zero angle and zero
    offset to the identity and identity * identity is the identity, the call
    with scale (1,1,1), angles 0 and offset (0,0,0) writes the identity. *)
Theorem SetTransformations_pushes_composition (w : W) (sh : Shader) :
  m_pShaderManager (scene w) = Some sh ->
  (forall scaleXYZ rx ry rz positionXYZ,
     let modelView :=
       glm_translate positionXYZ
       *m glm_rotate (glm_radians rz) (glm.Vec3 float_0 float_0 float_1)
       *m glm_rotate (glm_radians ry) (glm.Vec3 float_0 float_1 float_0)
       *m glm_rotate (glm_radians rx) (glm.Vec3 float_1 float_0 float_0)
       *m glm_scale scaleXYZ in
     exists sh',
       m_pShaderManager (scene (SetTransformations scaleXYZ rx ry rz positionXYZ w))
       = Some sh' /\
       sh' !! g_ModelName = Some (UMat4 modelView) /\
       (forall name, name <> g_ModelName -> sh' !! name = sh !! name) /\
       SetTransformations scaleXYZ rx ry rz positionXYZ w
       = set_shader w (setMat4Value g_ModelName modelView sh)) /\
  (forall (point : Type) (transform : mat4 -> point -> point),
     (forall A B p, transform (A *m B) p = transform A (transform B p)) ->
     forall scaleXYZ rx ry rz positionXYZ p,
       transform
         (glm_translate positionXYZ
          *m glm_rotate (glm_radians rz) (glm.Vec3 float_0 float_0 float_1)
          *m glm_rotate (glm_radians ry) (glm.Vec3 float_0 float_1 float_0)
          *m glm_rotate (glm_radians rx) (glm.Vec3 float_1 float_0 float_0)
          *m glm_scale scaleXYZ) p
       = transform (glm_translate positionXYZ)
           (transform (glm_rotate (glm_radians rz) (glm.Vec3 float_0 float_0 float_1))
              (transform (glm_rotate (glm_radians ry) (glm.Vec3 float_0 float_1 float_0))
                 (transform (glm_rotate (glm_radians rx) (glm.Vec3 float_1 float_0 float_0))
                    (transform (glm_scale scaleXYZ) p))))) /\
  (forall identity : mat4,
     glm_scale (glm.Vec3 float_1 float_1 float_1) = identity ->
     glm_rotate (glm_radians float_0) (glm.Vec3 float_1 float_0 float_0) = identity ->
     glm_rotate (glm_radians float_0) (glm.Vec3 float_0 float_1 float_0) = identity ->
     glm_rotate (glm_radians float_0) (glm.Vec3 float_0 float_0 float_1) = identity ->
     glm_translate (glm.Vec3 float_0 float_0 float_0) = identity ->
     identity *m identity = identity ->
     exists sh',
       m_pShaderManager
         (scene (SetTransformations (glm.Vec3 float_1 float_1 float_1)
                   float_0 float_0 float_0 (glm.Vec3 float_0 float_0 float_0) w))
       = Some sh' /\
       sh' !! g_ModelName = Some (UMat4 identity)).
Proof.
  intros Hsh. split; [| split].
  - intros scaleXYZ rx ry rz positionXYZ modelView.
    unfold SetTransformations. rewrite Hsh. fold modelView.
    eexists. split; [reflexivity |]. unfold setMat4Value.
    split; [apply lookup_insert_eq |]. split; [| reflexivity].
    intros name Hne. apply lookup_insert_ne. congruence.
  - intros point transform Hcomp scaleXYZ rx ry rz positionXYZ p.
    now rewrite !Hcomp.
  - intros identity Hs Hx Hy Hz Ht Hmul.
    unfold SetTransformations. rewrite Hsh, Hs, Hx, Hy, Hz, Ht, !Hmul.
    eexists. split; [reflexivity |]. apply lookup_insert_eq.
Qed.

(** * Further properties of the registries and of the shader binding *)

(** ** Vocabulary *)

(** The file decodes to an image with one of the two supported layouts. *)
Definition decodes_supported (filename : string) : bool :=
  match stbi_load true filename with
  | Some img => (img_channels img =? 3) || (img_channels img =? 4)
  | None => false
  end.

(** The four parameters [CreateGLTexture] sets, most recent first. *)
Definition texture_params : list (GLenum * GLenum) :=
  [ (GL_TEXTURE_MAG_FILTER, GL_LINEAR);
    (GL_TEXTURE_MIN_FILTER, GL_LINEAR_MIPMAP_LINEAR);
    (GL_TEXTURE_WRAP_T, GL_REPEAT);
    (GL_TEXTURE_WRAP_S, GL_REPEAT) ].

(** The texture object a successful [CreateGLTexture] leaves behind. *)
Definition texture_uploaded (img : Image) : TexObj :=
  {| tex_params := texture_params;
     tex_image :=
       Some {| ti_internal := if img_channels img =? 3 then GL_RGB8 else GL_RGBA8;
               ti_width := img_width img;
               ti_height := img_height img;
               ti_format := if img_channels img =? 3 then GL_RGB else GL_RGBA;
               ti_type := GL_UNSIGNED_BYTE;
               ti_pixels := img_pixels img |};
     tex_mipmaps := true |}.

(** The texture object left behind when the channel count is rejected. *)
Definition texture_rejected : TexObj :=
  {| tex_params := texture_params; tex_image := None; tex_mipmaps := false |}.

(** ** The GL context after the calls of CreateGLTexture *)

Lemma gl_binding_glBindTexture (id : Z) (g : GLState) :
  gl_binding (glBindTexture id g) = id.
Proof.
  unfold gl_binding, glBindTexture. cbn [gl_bound gl_active].
  now rewrite lookup_insert_eq.
Qed.

Lemma glBindTexture_generated (id : Z) (o : TexObj) (g : GLState) :
  glBindTexture id (with_textures g (<[id := o]> (gl_textures g)))
  = {| gl_textures := <[id := o]> (gl_textures g);
       gl_active := gl_active g;
       gl_bound := <[gl_active g := id]> (gl_bound g) |}.
Proof.
  unfold glBindTexture, with_textures. cbn [gl_textures gl_active gl_bound].
  rewrite lookup_insert_eq. destruct (decide (id = 0)); reflexivity.
Qed.

Lemma glBindTexture_zero (g : GLState) :
  glBindTexture 0 g
  = {| gl_textures := gl_textures g;
       gl_active := gl_active g;
       gl_bound := <[gl_active g := 0]> (gl_bound g) |}.
Proof. reflexivity. Qed.

Lemma on_bound_texture (f : TexObj -> TexObj) (id : Z) (o : TexObj)
      (T : gmap Z TexObj) (a : Z) (B : gmap Z Z) :
  with_textures {| gl_textures := <[id := o]> T; gl_active := a;
                   gl_bound := <[a := id]> B |}
    (alter f
       (gl_binding {| gl_textures := <[id := o]> T; gl_active := a;
                      gl_bound := <[a := id]> B |})
       (<[id := o]> T))
  = {| gl_textures := <[id := f o]> T; gl_active := a; gl_bound := <[a := id]> B |}.
Proof.
  unfold with_textures, gl_binding. cbn [gl_textures gl_active gl_bound].
  rewrite lookup_insert_eq. cbn [default]. now rewrite alter_insert_eq.
Qed.

(** The GL context after the calls of the error branch. *)
Lemma gl_after_rejected (id : Z) (g : GLState) :
  glBindTexture 0
    (glTexParameteri GL_TEXTURE_MAG_FILTER GL_LINEAR
       (glTexParameteri GL_TEXTURE_MIN_FILTER GL_LINEAR_MIPMAP_LINEAR
          (glTexParameteri GL_TEXTURE_WRAP_T GL_REPEAT
             (glTexParameteri GL_TEXTURE_WRAP_S GL_REPEAT
                (glBindTexture id
                   (with_textures g (<[id := TexObj_new]> (gl_textures g))))))))
  = {| gl_textures := <[id := texture_rejected]> (gl_textures g);
       gl_active := gl_active g;
       gl_bound := <[gl_active g := 0]> (gl_bound g) |}.
Proof.
  rewrite glBindTexture_generated.
  unfold glTexParameteri. rewrite !on_bound_texture.
  rewrite glBindTexture_zero. cbn [gl_textures gl_active gl_bound TexObj_new
                                   tex_params tex_image tex_mipmaps].
  now rewrite insert_insert_eq.
Qed.

(** The GL context after the calls of a successful upload. *)
Lemma gl_after_upload (id : Z) (internal format : GLenum) (img : Image) (g : GLState) :
  glBindTexture 0
    (glGenerateMipmap
       (glTexImage2D internal (img_width img) (img_height img) format GL_UNSIGNED_BYTE
          (img_pixels img)
          (glTexParameteri GL_TEXTURE_MAG_FILTER GL_LINEAR
             (glTexParameteri GL_TEXTURE_MIN_FILTER GL_LINEAR_MIPMAP_LINEAR
                (glTexParameteri GL_TEXTURE_WRAP_T GL_REPEAT
                   (glTexParameteri GL_TEXTURE_WRAP_S GL_REPEAT
                      (glBindTexture id
                         (with_textures g (<[id := TexObj_new]> (gl_textures g))))))))))
  = {| gl_textures :=
         <[id := {| tex_params := texture_params;
                    tex_image :=
                      Some {| ti_internal := internal; ti_width := img_width img;
                              ti_height := img_height img; ti_format := format;
                              ti_type := GL_UNSIGNED_BYTE; ti_pixels := img_pixels img |};
                    tex_mipmaps := true |}]> (gl_textures g);
       gl_active := gl_active g;
       gl_bound := <[gl_active g := 0]> (gl_bound g) |}.
Proof.
  rewrite glBindTexture_generated.
  unfold glTexParameteri, glTexImage2D, glGenerateMipmap. rewrite !on_bound_texture.
  rewrite glBindTexture_zero. cbn [gl_textures gl_active gl_bound TexObj_new
                                   tex_params tex_image tex_mipmaps].
  now rewrite insert_insert_eq.
Qed.

(** ** CreateGLTexture, exactly *)

(** The line printed after a successful decode. *)
Definition loaded_line (filename : string) (img : Image) : string :=
  "[TextureLoader] Successfully loaded image: "
  +:+ filename
  +:+ ", width: " +:+ pretty (img_width img)
  +:+ ", height: " +:+ pretty (img_height img)
  +:+ ", channels: " +:+ pretty (img_channels img)
  +:+ endl.

(** The world once the decoded image has been dealt with: the generated
    name holds [o], unit bindings are as before but for the active unit,
    which is back at 0, and the decoded buffer has been freed. *)
Definition world_after_decode (o : TexObj) (out : string) (w : W) : W :=
  {| scene := scene w;
     gl := {| gl_textures := <[glGenName (gl_textures (gl w)) := o]> (gl_textures (gl w));
              gl_active := gl_active (gl w);
              gl_bound := <[gl_active (gl w) := 0]> (gl_bound (gl w)) |};
     stbi_flip := true;
     stbi_buffers := stbi_buffers w + 1 - 1;
     cout := out;
     cerr := cerr w |}.

Lemma world_ext (w1 w2 : W) :
  scene w1 = scene w2 -> gl w1 = gl w2 -> stbi_flip w1 = stbi_flip w2 ->
  stbi_buffers w1 = stbi_buffers w2 -> cout w1 = cout w2 -> cerr w1 = cerr w2 ->
  w1 = w2.
Proof. destruct w1, w2. cbn. congruence. Qed.

Lemma CreateGLTexture_rejected_exact (filename tag : string) (w : W) (img : Image) :
  stbi_load true filename = Some img ->
  img_channels img <> 3 -> img_channels img <> 4 ->
  CreateGLTexture filename tag w
  = Ok (false,
        world_after_decode texture_rejected
          ((cout w +:+ loaded_line filename img)
           +:+ ("[TextureLoader] ERROR: Not implemented to handle image with "
                +:+ pretty (img_channels img) +:+ " channels" +:+ endl)) w).
Proof.
  intros Hload H3 H4. unfold CreateGLTexture, stbi_load_w.
  cbn [stbi_set_flip_vertically_on_load stbi_flip]. rewrite Hload.
  destruct (Z.eqb_spec (img_channels img) 3); [contradiction |].
  destruct (Z.eqb_spec (img_channels img) 4); [contradiction |].
  cbn [glGenTextures]. f_equal. f_equal.
  apply world_ext; unfold world_after_decode, loaded_line; world_simpl; try reflexivity.
  apply gl_after_rejected.
Qed.

Lemma CreateGLTexture_supported_exact (filename tag : string) (w : W) (img : Image) :
  stbi_load true filename = Some img ->
  img_channels img = 3 \/ img_channels img = 4 ->
  CreateGLTexture filename tag w
  = (let* w' := register_texture (glGenName (gl_textures (gl w))) tag
                  (world_after_decode (texture_uploaded img)
                     (cout w +:+ loaded_line filename img) w) in
     Ok (true, w')).
Proof.
  intros Hload Hch. unfold CreateGLTexture, stbi_load_w.
  cbn [stbi_set_flip_vertically_on_load stbi_flip]. rewrite Hload.
  unfold texture_uploaded.
  assert (Hreg : forall w1 w2 : W, w1 = w2 ->
            (let* w' := register_texture (glGenName (gl_textures (gl w))) tag w1 in
             Ok (true, w'))
            = (let* w' := register_texture (glGenName (gl_textures (gl w))) tag w2 in
               Ok (true, w'))) by (intros w1 w2 ->; reflexivity).
  destruct (Z.eqb_spec (img_channels img) 3) as [H3 | H3];
    [| destruct (Z.eqb_spec (img_channels img) 4) as [H4 | H4]; [| lia]];
    cbn [glGenTextures]; apply Hreg; apply world_ext;
    unfold world_after_decode, loaded_line; world_simpl; try reflexivity;
    apply gl_after_upload.
Qed.

Lemma register_texture_frame (textureID : Z) (tag : string) (w : W) :
  registry_inv (scene w) ->
  exists w', register_texture textureID tag w = Ok w' /\
    registry_inv (scene w') /\
    gl w' = gl w /\ stbi_flip w' = stbi_flip w /\ stbi_buffers w' = stbi_buffers w /\
    cerr w' = cerr w /\
    m_objectMaterials (scene w') = m_objectMaterials (scene w) /\
    m_pShaderManager (scene w') = m_pShaderManager (scene w).
Proof.
  intros Hinv.
  destruct (Z.lt_ge_cases (m_loadedTextures (scene w)) (Z.pos MAX_TEXTURES)) as [Hroom | Hfull].
  - rewrite register_texture_room by assumption. eexists. split; [reflexivity |].
    split; [world_simpl; now apply registry_inv_after_store |]. repeat split.
  - rewrite register_texture_full by assumption. eexists. split; [reflexivity |].
    split; [exact Hinv |]. repeat split.
Qed.

Lemma decodes_supported_true (filename : string) :
  decodes_supported filename = true <->
  exists img, stbi_load true filename = Some img /\
              (img_channels img = 3 \/ img_channels img = 4).
Proof.
  unfold decodes_supported. destruct (stbi_load true filename) as [img |].
  - rewrite orb_true_iff, !Z.eqb_eq. split.
    + intros H. exists img. auto.
    + intros (img' & [= <-] & H). exact H.
  - split; [discriminate | intros (img & [=] & _)].
Qed.

(** ** Properties of CreateGLTexture *)

(** X1: Whether [CreateGLTexture] returns true is decided by the file alone:
    true exactly when it decodes to 3 or 4 channels, whatever the tag, the
    registry and the GL context hold; when it returns false the scene object
    is as before. *)
Theorem CreateGLTexture_result (filename tag : string) (w : W) :
  registry_inv (scene w) ->
  exists w', CreateGLTexture filename tag w = Ok (decodes_supported filename, w') /\
             (decodes_supported filename = false -> scene w' = scene w).
Proof.
  drop_unused.
  intros Hinv. unfold decodes_supported.
  destruct (stbi_load true filename) as [img |] eqn:Hload.
  - destruct (Z.eqb_spec (img_channels img) 3) as [H3 | H3];
      [| destruct (Z.eqb_spec (img_channels img) 4) as [H4 | H4]]; cbn [orb].
    1, 2: rewrite (CreateGLTexture_supported_exact filename tag w img Hload) by tauto;
          destruct (register_texture_frame (glGenName (gl_textures (gl w))) tag
                      (world_after_decode (texture_uploaded img)
                         (cout w +:+ loaded_line filename img) w) Hinv)
            as (w' & Hreg & _);
          rewrite Hreg; exists w'; split; [reflexivity | discriminate].
    rewrite (CreateGLTexture_rejected_exact filename tag w img Hload H3 H4).
    eexists. split; [reflexivity |]. reflexivity.
  - destruct (CreateGLTexture_not_decoded filename tag w Hload) as (w' & Hrun & Hs & _).
    exists w'. split; [exact Hrun | intros _; exact Hs].
Qed.

(** X2: Whatever the outcome, [CreateGLTexture] leaves the materials, the shader
    manager and [cerr] alone, frees every buffer it decoded, leaves flipping
    on load switched on, keeps the active texture unit and the bindings of
    the other units, and changes the state of no texture other than the one
    whose name it generated. *)
Theorem CreateGLTexture_frame (filename tag : string) (w : W) :
  registry_inv (scene w) ->
  exists b w', CreateGLTexture filename tag w = Ok (b, w') /\
    m_objectMaterials (scene w') = m_objectMaterials (scene w) /\
    m_pShaderManager (scene w') = m_pShaderManager (scene w) /\
    cerr w' = cerr w /\
    stbi_buffers w' = stbi_buffers w /\
    stbi_flip w' = true /\
    gl_active (gl w') = gl_active (gl w) /\
    (forall unit, unit <> gl_active (gl w) ->
       gl_bound (gl w') !! unit = gl_bound (gl w) !! unit) /\
    (forall name, name <> glGenName (gl_textures (gl w)) ->
       gl_textures (gl w') !! name = gl_textures (gl w) !! name).
Proof.
  drop_unused.
  intros Hinv.
  destruct (stbi_load true filename) as [img |] eqn:Hload.
  - assert (Hframe : forall o out (w' : W),
              gl w' = gl (world_after_decode o out w) ->
              gl_active (gl w') = gl_active (gl w) /\
              (forall unit, unit <> gl_active (gl w) ->
                 gl_bound (gl w') !! unit = gl_bound (gl w) !! unit) /\
              (forall name, name <> glGenName (gl_textures (gl w)) ->
                 gl_textures (gl w') !! name = gl_textures (gl w) !! name)).
    { intros o out w' ->. cbn [world_after_decode gl gl_active gl_bound gl_textures].
      split; [reflexivity |].
      split; intros k Hk; apply lookup_insert_ne; congruence. }
    destruct (Z.eq_dec (img_channels img) 3) as [H3 | H3];
      [| destruct (Z.eq_dec (img_channels img) 4) as [H4 | H4]].
    1, 2: rewrite (CreateGLTexture_supported_exact filename tag w img Hload) by tauto;
          destruct (register_texture_frame (glGenName (gl_textures (gl w))) tag
                      (world_after_decode (texture_uploaded img)
                         (cout w +:+ loaded_line filename img) w) Hinv)
            as (w' & Hreg & _ & Hgl & Hflip & Hbuf & Hcerr & Hmat & Hsh);
          rewrite Hreg; exists true, w'; split; [reflexivity |];
          split; [exact Hmat |]; split; [exact Hsh |]; split; [exact Hcerr |];
          split; [rewrite Hbuf; cbn [world_after_decode stbi_buffers]; lia |];
          split; [rewrite Hflip; reflexivity |];
          exact (Hframe _ _ w' Hgl).
    rewrite (CreateGLTexture_rejected_exact filename tag w img Hload H3 H4).
    eexists false, _. split; [reflexivity |].
    split; [reflexivity |]. split; [reflexivity |]. split; [reflexivity |].
    split; [cbn [world_after_decode stbi_buffers]; lia |]. split; [reflexivity |].
    exact (Hframe _ _ _ eq_refl).
  - unfold CreateGLTexture, stbi_load_w.
    cbn [stbi_set_flip_vertically_on_load stbi_flip]. rewrite Hload.
    eexists false, _. split; [reflexivity |]. repeat split.
Qed.


Lemma lookup_same_registered (s s' : Scene) (t : string) :
  m_loadedTextures s <= Z.of_nat (length (m_textureIDs s)) ->
  m_loadedTextures s' <= Z.of_nat (length (m_textureIDs s')) ->
  list_find (fun e => tag_hits t e = true) (registered s')
  = list_find (fun e => tag_hits t e = true) (registered s) ->
  FindTextureID s' t = FindTextureID s t /\ FindTextureSlot s' t = FindTextureSlot s t.
Proof.
  intros Hs Hs' Heq.
  rewrite !FindTextureID_scan, !FindTextureSlot_scan by assumption.
  now rewrite Heq.
Qed.

(** X4: A registration that succeeds with room left changes what the lookups
    return for no tag other than the new one, and not for the new one either
    when it was registered already: the earlier entry keeps answering and
    the new texture cannot be reached by its tag. *)
Theorem CreateGLTexture_keeps_lookups (filename tag : string) (w w' : W) (t : string) :
  registry_inv (scene w) ->
  m_loadedTextures (scene w) < Z.pos MAX_TEXTURES ->
  CreateGLTexture filename tag w = Ok (true, w') ->
  t <> tag \/ tag_registered (scene w) t ->
  FindTextureID (scene w') t = FindTextureID (scene w) t /\
  FindTextureSlot (scene w') t = FindTextureSlot (scene w) t.
Proof.
  intros Hinv Hroom Hrun Ht.
  destruct (CreateGLTexture_registers filename tag w w' Hinv Hroom Hrun) as [Happ Hinv'].
  destruct Hinv as [[Hlo Hhi] Harr]. destruct Hinv' as [[Hlo' Hhi'] Harr'].
  unfold array_inv in *.
  apply lookup_same_registered; [lia | lia |]. rewrite Happ.
  destruct (list_find (fun e => tag_hits t e = true) (registered (scene w)))
    as [[i e] |] eqn:Hf.
  - now apply list_find_app_l.
  - rewrite list_find_app_r by exact Hf.
    destruct Ht as [Hne | Hreg].
    + cbn [list_find]. rewrite decide_False; [reflexivity |].
      unfold tag_hits. cbn [TEXTURE_INFO.tag]. rewrite std_string_compare_eq. congruence.
    + apply find_not_registered in Hf. contradiction.
Qed.

(** X5: What [FindTextureSlot] returns is sound: -1 exactly when no registered
    entry carries the tag; otherwise the index of a registered entry that
    carries it, with no such entry before it, whose handle is what
    [FindTextureID] returns. *)
Theorem FindTextureSlot_sound (s : Scene) (t : string) :
  registry_inv s ->
  exists slot, FindTextureSlot s t = Ok slot /\
    (slot = -1 <-> ~ tag_registered s t) /\
    (slot <> -1 ->
     exists e, first_registered s t (Z.to_nat slot) e /\
               0 <= slot < m_loadedTextures s /\
               FindTextureID s t = Ok (int_of_GLuint (TEXTURE_INFO.ID e))).
Proof.
  drop_unused.
  intros Hinv. pose proof Hinv as [[Hlo Hhi] Harr]. unfold array_inv in Harr.
  rewrite FindTextureSlot_scan, FindTextureID_scan by lia.
  destruct (list_find (fun e => tag_hits t e = true) (registered s)) as [[i e] |] eqn:Hf.
  - exists (Z.of_nat i). split; [reflexivity |].
    apply find_first_registered in Hf.
    pose proof (first_registered_bound s t i e Hf) as Hb.
    split.
    + split; [lia |]. intros Hno. exfalso. apply Hno.
      destruct Hf as (Hl & Ht & _). exists e. split; [| exact Ht].
      eapply list_elem_of_lookup_2. exact Hl.
    + intros _. exists e. rewrite Nat2Z.id. auto.
  - exists (-1). split; [reflexivity |]. apply find_not_registered in Hf.
    split; [tauto | congruence].
Qed.

(** X6: A texture created while the registry is at capacity is never released:
    [DestroyGLTextures] afterwards empties the registry and leaves that
    texture in use, where no lookup reaches it. *)
Theorem overflow_texture_outlives_registry (filename tag : string) (w : W) (img : Image) :
  registry_inv (scene w) ->
  m_loadedTextures (scene w) = Z.pos MAX_TEXTURES ->
  stbi_load true filename = Some img ->
  img_channels img = 3 \/ img_channels img = 4 ->
  glGenName (gl_textures (gl w)) ∉ live w ->
  (forall e, e ∈ registered (scene w) -> TEXTURE_INFO.ID e ∈ live w) ->
  exists w' w'',
    CreateGLTexture filename tag w = Ok (true, w') /\
    DestroyGLTextures w' = Ok w'' /\
    m_loadedTextures (scene w'') = 0 /\
    glGenName (gl_textures (gl w)) ∈ live w'' /\
    (forall t, FindTextureID (scene w'') t = Ok (-1)).
Proof.
  drop_unused.
  intros Hinv Hfull Hload Hch Hfresh Hlive.
  pose proof Hinv as [[Hlo Hhi] Harr]. unfold array_inv in Harr.
  rewrite (CreateGLTexture_supported_exact filename tag w img Hload Hch).
  rewrite register_texture_full by (cbn [world_after_decode scene]; lia). cbn [obind].
  eexists _, _. split; [reflexivity |].
  rewrite DestroyGLTextures_Ok by (cbn [world_after_decode scene print_cout]; lia).
  split; [reflexivity |]. split; [reflexivity |]. split; [| intros t; reflexivity].
  unfold live. world_simpl. cbn [world_after_decode scene gl].
  apply gl_live_delete_all. split.
  - unfold gl_live. cbn [gl_textures]. rewrite dom_insert_L. set_solver.
  - intros e He Heq. apply Hfresh. rewrite <- Heq. now apply Hlive.
Qed.

(** ** Properties of BindGLTextures and DestroyGLTextures *)

Lemma bind_each_bound_outside (es : list TEXTURE_INFO.t) (i : Z) (g : GLState) (unit : Z) :
  unit < i \/ i + Z.of_nat (length es) <= unit ->
  gl_bound (gl_each (fun i e g => glBindTexture (TEXTURE_INFO.ID e) (glActiveTexture i g))
                    i es g) !! unit
  = gl_bound g !! unit.
Proof.
  revert i g. induction es as [| e es IH]; intros i g Hu; cbn [gl_each]; [reflexivity |].
  cbn [length] in Hu. rewrite IH by lia.
  unfold glBindTexture, glActiveTexture. cbn [gl_bound gl_active].
  apply lookup_insert_ne. lia.
Qed.

Lemma bind_each_bound_inside (es : list TEXTURE_INFO.t) (i : Z) (g : GLState)
      (j : nat) (e : TEXTURE_INFO.t) :
  es !! j = Some e ->
  gl_bound (gl_each (fun i e g => glBindTexture (TEXTURE_INFO.ID e) (glActiveTexture i g))
                    i es g) !! (i + Z.of_nat j)
  = Some (TEXTURE_INFO.ID e).
Proof.
  revert i g j. induction es as [| e0 es IH]; intros i g j Hj; [discriminate |].
  cbn [gl_each]. destruct j as [| j].
  - injection Hj as ->. rewrite bind_each_bound_outside by lia.
    unfold glBindTexture, glActiveTexture. cbn [gl_bound gl_active].
    rewrite Z.add_0_r. apply lookup_insert_eq.
  - replace (i + Z.of_nat (S j)) with (i + 1 + Z.of_nat j) by lia.
    apply IH. exact Hj.
Qed.

Lemma bind_each_keeps_textures (es : list TEXTURE_INFO.t) (i : Z) (g : GLState)
      (name : Z) (o : TexObj) :
  gl_textures g !! name = Some o ->
  gl_textures (gl_each (fun i e g => glBindTexture (TEXTURE_INFO.ID e) (glActiveTexture i g))
                       i es g) !! name
  = Some o.
Proof.
  revert i g. induction es as [| e es IH]; intros i g Ho; cbn [gl_each]; [exact Ho |].
  apply IH. unfold glBindTexture, glActiveTexture. cbn [gl_textures].
  destruct (decide (TEXTURE_INFO.ID e = 0)); [exact Ho |].
  destruct (gl_textures g !! TEXTURE_INFO.ID e) eqn:Hid; [exact Ho |].
  rewrite lookup_insert_ne; [exact Ho | congruence].
Qed.

(** X7: [BindGLTextures] binds the entry of slot [i] on texture unit [i] and
    leaves the other units, the state of every existing texture and the
    scene object alone; so the slot [FindTextureSlot] returns for a tag is
    the unit that holds the texture whose handle [FindTextureID] returns. *)
Theorem BindGLTextures_binds_slot_to_unit (w : W) :
  registry_inv (scene w) ->
  exists w', BindGLTextures w = Ok w' /\
    scene w' = scene w /\
    (forall i e, registered (scene w) !! i = Some e ->
       gl_bound (gl w') !! Z.of_nat i = Some (TEXTURE_INFO.ID e)) /\
    (forall unit, unit < 0 \/ m_loadedTextures (scene w) <= unit ->
       gl_bound (gl w') !! unit = gl_bound (gl w) !! unit) /\
    (forall name o, gl_textures (gl w) !! name = Some o ->
       gl_textures (gl w') !! name = Some o) /\
    (forall t i e, first_registered (scene w) t i e ->
       FindTextureSlot (scene w') t = Ok (Z.of_nat i) /\
       FindTextureID (scene w') t = Ok (int_of_GLuint (TEXTURE_INFO.ID e)) /\
       gl_bound (gl w') !! Z.of_nat i = Some (TEXTURE_INFO.ID e)).
Proof.
  intros Hinv. pose proof Hinv as [[Hlo Hhi] Harr]. unfold array_inv in Harr.
  rewrite BindGLTextures_Ok by lia. eexists. split; [reflexivity |].
  split; [reflexivity |]. unfold bind_all. world_simpl.
  assert (Hin : forall i e, registered (scene w) !! i = Some e ->
            gl_bound (gl_each (fun i e g => glBindTexture (TEXTURE_INFO.ID e)
                                              (glActiveTexture i g))
                              0 (registered (scene w)) (gl w)) !! Z.of_nat i
            = Some (TEXTURE_INFO.ID e)).
  { intros i e Hi.
    exact (bind_each_bound_inside (registered (scene w)) 0 (gl w) i e Hi). }
  split; [exact Hin |]. split; [| split].
  - intros unit Hu. apply bind_each_bound_outside.
    unfold registered. rewrite length_take. lia.
  - intros name o. apply bind_each_keeps_textures.
  - intros t i e Hfirst.
    destruct (lookup_first_registered (scene w) t i e Hinv Hfirst) as [Hid Hslot].
    split; [exact Hslot |]. split; [exact Hid |]. apply Hin. apply Hfirst.
Qed.

Lemma delete_each_textures (es : list TEXTURE_INFO.t) (i : Z) (g : GLState) (name : Z) :
  (forall e, e ∈ es -> TEXTURE_INFO.ID e <> name) ->
  gl_textures (gl_each (fun _ e => glDeleteTextures (TEXTURE_INFO.ID e)) i es g) !! name
  = gl_textures g !! name.
Proof.
  drop_unused.
  revert i g. induction es as [| e es IH]; intros i g Hne; cbn [gl_each]; [reflexivity |].
  rewrite IH by (intros e' He'; apply Hne; set_solver).
  unfold glDeleteTextures. cbn [gl_textures].
  apply lookup_delete_ne. apply Hne. set_solver.
Qed.

Lemma delete_each_bound_kept (es : list TEXTURE_INFO.t) (i : Z) (g : GLState)
      (unit tex : Z) :
  gl_bound g !! unit = Some tex ->
  (forall e, e ∈ es -> TEXTURE_INFO.ID e <> tex) ->
  gl_bound (gl_each (fun _ e => glDeleteTextures (TEXTURE_INFO.ID e)) i es g) !! unit
  = Some tex.
Proof.
  drop_unused.
  revert i g. induction es as [| e es IH]; intros i g Hu Hne; cbn [gl_each]; [exact Hu |].
  apply IH; [| intros e' He'; apply Hne; set_solver].
  unfold glDeleteTextures. cbn [gl_bound]. rewrite lookup_fmap, Hu. cbn.
  rewrite decide_False; [reflexivity |]. intros ->. apply (Hne e); set_solver.
Qed.

Lemma delete_each_bound_zero (es : list TEXTURE_INFO.t) (i : Z) (g : GLState)
      (unit tex : Z) :
  gl_bound g !! unit = Some tex ->
  (exists e, e ∈ es /\ TEXTURE_INFO.ID e = tex) ->
  gl_bound (gl_each (fun _ e => glDeleteTextures (TEXTURE_INFO.ID e)) i es g) !! unit
  = Some 0.
Proof.
  drop_unused.
  revert i g tex. induction es as [| e es IH]; intros i g tex Hu (e' & He' & Hid).
  - set_solver.
  - cbn [gl_each].
    assert (Hstep : gl_bound (glDeleteTextures (TEXTURE_INFO.ID e) g) !! unit
                    = Some (if decide (tex = TEXTURE_INFO.ID e) then 0 else tex)).
    { unfold glDeleteTextures. cbn [gl_bound]. now rewrite lookup_fmap, Hu. }
    destruct (decide (tex = TEXTURE_INFO.ID e)) as [Heq | Hne].
    + destruct (decide (Exists (fun e2 => TEXTURE_INFO.ID e2 = 0) es)) as [Hz | Hz].
      * apply (IH (i + 1) _ 0); [exact Hstep |]. now apply Exists_exists.
      * apply delete_each_bound_kept; [exact Hstep |].
        intros e2 He2 Hid2. apply Hz. apply Exists_exists. eauto.
    + apply (IH (i + 1) _ tex); [exact Hstep |].
      exists e'. split; [| exact Hid]. set_solver.
Qed.

(** X8: [DestroyGLTextures] deletes the registered textures and nothing else: a
    texture whose name no registered entry holds keeps its state, a unit
    bound to such a texture stays bound, a unit bound to a deleted texture
    falls back to 0, and the slots (now stale), the materials, the shader
    manager and both output streams are as before. *)
Theorem DestroyGLTextures_frame (w : W) :
  registry_inv (scene w) ->
  exists w', DestroyGLTextures w = Ok w' /\
    m_textureIDs (scene w') = m_textureIDs (scene w) /\
    m_objectMaterials (scene w') = m_objectMaterials (scene w) /\
    m_pShaderManager (scene w') = m_pShaderManager (scene w) /\
    cout w' = cout w /\ cerr w' = cerr w /\
    (forall name, (forall e, e ∈ registered (scene w) -> TEXTURE_INFO.ID e <> name) ->
       gl_textures (gl w') !! name = gl_textures (gl w) !! name) /\
    (forall unit tex, gl_bound (gl w) !! unit = Some tex ->
       (forall e, e ∈ registered (scene w) -> TEXTURE_INFO.ID e <> tex) ->
       gl_bound (gl w') !! unit = Some tex) /\
    (forall unit tex, gl_bound (gl w) !! unit = Some tex ->
       (exists e, e ∈ registered (scene w) /\ TEXTURE_INFO.ID e = tex) ->
       gl_bound (gl w') !! unit = Some 0).
Proof.
  intros [[Hlo Hhi] Harr]. unfold array_inv in Harr.
  rewrite DestroyGLTextures_Ok by lia. eexists. split; [reflexivity |].
  repeat (split; [reflexivity |]). unfold delete_all. world_simpl.
  split; [| split].
  - intros name Hne. now apply delete_each_textures.
  - intros unit tex Hu Hne. now apply delete_each_bound_kept.
  - intros unit tex Hu Hex. now apply delete_each_bound_zero with tex.
Qed.

(** X9: Running [DestroyGLTextures] again changes nothing: once it has returned,
    a second call (the destructor's, say) deletes no texture a second time. *)
Theorem DestroyGLTextures_idempotent (w w' : W) :
  DestroyGLTextures w = Ok w' -> DestroyGLTextures w' = Ok w'.
Proof.
  intros Hrun. unfold DestroyGLTextures in Hrun.
  destruct (while _ _ _ _) as [[i wl] | |] in Hrun; cbn [obind] in Hrun; try discriminate.
  injection Hrun as <-.
  rewrite DestroyGLTextures_Ok by (world_simpl; lia). reflexivity.
Qed.

(** X10: After [DestroyGLTextures] the registry fills again from slot 0: the next
    successful registration is the only registered entry, found in slot 0,
    and the tags registered before are answered with -1. *)
Theorem CreateGLTexture_after_destroy (filename tag : string) (w w1 w2 : W) :
  registry_inv (scene w) ->
  DestroyGLTextures w = Ok w1 ->
  CreateGLTexture filename tag w1 = Ok (true, w2) ->
  registered (scene w2) = [TEXTURE_INFO.mk (glGenName (gl_textures (gl w1))) tag] /\
  FindTextureSlot (scene w2) tag = Ok 0 /\
  FindTextureID (scene w2) tag = Ok (int_of_GLuint (glGenName (gl_textures (gl w1)))) /\
  (forall t, t <> tag ->
     FindTextureSlot (scene w2) t = Ok (-1) /\ FindTextureID (scene w2) t = Ok (-1)).
Proof.
  intros Hinv Hdestroy Hrun.
  pose proof Hinv as [[Hlo Hhi] Harr]. unfold array_inv in Harr.
  rewrite DestroyGLTextures_Ok in Hdestroy by lia. injection Hdestroy as Hw1.
  assert (Hempty : registered (scene w1) = []) by (rewrite <- Hw1; reflexivity).
  assert (Hinv1 : registry_inv (scene w1))
    by (rewrite <- Hw1; unfold registry_inv, count_inv, array_inv; world_simpl; lia).
  assert (Hroom : m_loadedTextures (scene w1) < Z.pos MAX_TEXTURES)
    by (rewrite <- Hw1; world_simpl; lia).
  destruct (CreateGLTexture_registers filename tag w1 w2 Hinv1 Hroom Hrun) as [Happ Hinv2].
  rewrite Hempty in Happ. cbn [app] in Happ.
  pose proof Hinv2 as [[Hlo2 Hhi2] Harr2]. unfold array_inv in Harr2.
  rewrite !FindTextureSlot_scan, !FindTextureID_scan by lia.
  split; [exact Happ |]. rewrite Happ. cbn [list_find].
  split; [| split].
  - rewrite decide_True; [reflexivity |].
    unfold tag_hits. cbn [TEXTURE_INFO.tag]. now apply std_string_compare_eq.
  - rewrite decide_True; [reflexivity |].
    unfold tag_hits. cbn [TEXTURE_INFO.tag]. now apply std_string_compare_eq.
  - intros t Hne. rewrite !FindTextureSlot_scan, !FindTextureID_scan by lia.
    rewrite Happ. cbn [list_find]. rewrite decide_False; [split; reflexivity |].
    unfold tag_hits. cbn [TEXTURE_INFO.tag]. rewrite std_string_compare_eq. congruence.
Qed.

(** ** Properties of the shader-binding calls *)

(** X11: [SetShaderColor] switches texturing off and writes the colour, and
    [SetTextureUVScale] writes the scale; with a shader manager in place
    that is all either does: every other uniform and the rest of the world
    are as before. *)
Theorem SetShaderColor_and_UVScale_write_only_their_uniforms (w : W) (sh : Shader) :
  m_pShaderManager (scene w) = Some sh ->
  (forall red green blue alpha,
     exists sh',
       SetShaderColor red green blue alpha w = set_shader w sh' /\
       sh' !! g_UseTextureName = Some (UInt 0) /\
       sh' !! g_ColorValueName = Some (UVec4 (glm.Vec4 red green blue alpha)) /\
       (forall name, name <> g_UseTextureName -> name <> g_ColorValueName ->
                     sh' !! name = sh !! name)) /\
  (forall u v,
     exists sh',
       SetTextureUVScale u v w = set_shader w sh' /\
       sh' !! "UVscale" = Some (UVec2 (glm.Vec2 u v)) /\
       (forall name, name <> "UVscale" -> sh' !! name = sh !! name)).
Proof.
  intros Hsh. split.
  - intros red green blue alpha. unfold SetShaderColor. rewrite Hsh.
    eexists. split; [reflexivity |]. unfold setVec4Value, setIntValue. split; [| split].
    + rewrite lookup_insert_ne by discriminate. apply lookup_insert_eq.
    + apply lookup_insert_eq.
    + intros name H1 H2. rewrite !lookup_insert_ne by congruence. reflexivity.
  - intros u v. unfold SetTextureUVScale. rewrite Hsh.
    eexists. split; [reflexivity |]. unfold setVec2Value. split.
    + apply lookup_insert_eq.
    + intros name H1. rewrite lookup_insert_ne by congruence. reflexivity.
Qed.

(** X12: Colour and texture exclude each other through the one use-texture
    uniform, and the later call wins: [SetShaderTexture] after
    [SetShaderColor] leaves texturing on with the colour still written;
    [SetShaderColor] after [SetShaderTexture] leaves texturing off with the
    sampler as [SetShaderTexture] left it. *)
Theorem texturing_follows_the_last_call (w : W) (sh : Shader) (t : string)
        (red green blue alpha : float) :
  m_pShaderManager (scene w) = Some sh ->
  registry_inv (scene w) ->
  (exists w' sh',
     SetShaderTexture t (SetShaderColor red green blue alpha w) = Ok w' /\
     m_pShaderManager (scene w') = Some sh' /\
     sh' !! g_UseTextureName = Some (UInt 1) /\
     sh' !! g_ColorValueName = Some (UVec4 (glm.Vec4 red green blue alpha))) /\
  (exists w1 sh1 sh2,
     SetShaderTexture t w = Ok w1 /\
     m_pShaderManager (scene w1) = Some sh1 /\
     m_pShaderManager (scene (SetShaderColor red green blue alpha w1)) = Some sh2 /\
     sh2 !! g_UseTextureName = Some (UInt 0) /\
     sh2 !! g_ColorValueName = Some (UVec4 (glm.Vec4 red green blue alpha)) /\
     sh2 !! g_TextureValueName = sh1 !! g_TextureValueName).
Proof.
  intros Hsh Hinv. pose proof Hinv as [[Hlo Hhi] Harr]. unfold array_inv in Harr. split.
  - unfold SetShaderColor. rewrite Hsh. unfold SetShaderTexture.
    cbn [set_shader set_scene scene set_pShaderManager m_pShaderManager].
    rewrite FindTextureSlot_scan by (world_simpl; lia). cbn [obind].
    match goal with |- context [if ?c then _ else _] => destruct c end;
      eexists _, _; (split; [reflexivity |]); (split; [reflexivity |]);
      unfold setSampler2DValue, setIntValue, setVec4Value;
      (split; [rewrite ?(lookup_insert_ne _ g_TextureValueName) by discriminate;
               apply lookup_insert_eq |]);
      rewrite !lookup_insert_ne by discriminate; apply lookup_insert_eq.
  - unfold SetShaderTexture. rewrite Hsh.
    rewrite FindTextureSlot_scan by (world_simpl; lia). cbn [obind].
    match goal with |- context [if ?c then _ else _] => destruct c end;
      eexists _, _, _; (split; [reflexivity |]); (split; [reflexivity |]);
      unfold SetShaderColor; world_simpl; (split; [reflexivity |]);
      unfold setSampler2DValue, setIntValue, setVec4Value;
      (split; [rewrite lookup_insert_ne by discriminate; apply lookup_insert_eq |]);
      (split; [apply lookup_insert_eq |]);
      rewrite !(lookup_insert_ne _ _ g_TextureValueName) by discriminate; reflexivity.
Qed.

(** X13: The setters of a draw's transform, colour and tiling write disjoint
    uniforms, so they may be issued in any order. *)
Theorem draw_setters_commute (w : W) (scaleXYZ positionXYZ : glm.vec3 float)
        (rx ry rz red green blue alpha u v : float) :
  SetShaderColor red green blue alpha (SetTextureUVScale u v w)
  = SetTextureUVScale u v (SetShaderColor red green blue alpha w) /\
  SetTransformations scaleXYZ rx ry rz positionXYZ (SetTextureUVScale u v w)
  = SetTextureUVScale u v (SetTransformations scaleXYZ rx ry rz positionXYZ w) /\
  SetTransformations scaleXYZ rx ry rz positionXYZ (SetShaderColor red green blue alpha w)
  = SetShaderColor red green blue alpha (SetTransformations scaleXYZ rx ry rz positionXYZ w).
Proof.
  unfold SetShaderColor, SetTextureUVScale, SetTransformations.
  destruct (m_pShaderManager (scene w)) as [sh |] eqn:Hsh.
  - world_simpl. unfold set_shader, set_scene, set_pShaderManager. world_simpl.
    unfold setVec2Value, setVec4Value, setIntValue, setMat4Value.
    unfold g_ModelName, g_ColorValueName, g_UseTextureName.
    repeat split; do 3 f_equal; apply map_eq; intros k; rewrite !lookup_insert;
      repeat case_decide; simplify_eq; reflexivity.
  - rewrite !Hsh. repeat split.
Qed.

(** * The rest of the class: materials in the shader, the mesh object,
      construction and destruction, and the scene itself *)

(** [float_lit m d] is the value of the literal with digits [m] and [d]
    decimals: [float_lit (-745) 2] is [-7.45f].  The literals 0 and 1 are
    [float_0] and [float_1], also where the source writes the integer. *)
Variable float_lit : Z -> nat -> float.

Definition setVec3Value (name : string) (v : glm.vec3 float) (sh : Shader) : Shader :=
  <[name := UVec3 v]> sh.
Definition setFloatValue (name : string) (f : float) (sh : Shader) : Shader :=
  <[name := UFloat f]> sh.
Definition setBoolValue (name : string) (b : bool) (sh : Shader) : Shader :=
  <[name := UBool b]> sh.

(** [m_pShaderManager->f(...)] without a null check. *)
Definition shader_call (f : Shader -> Shader) (w : W) : outcome W :=
  match m_pShaderManager (scene w) with
  | Some sh => Ok (set_shader w (f sh))
  | None => Undefined
  end.

(** *** SetShaderMaterial() *)

(** [indeterminate] is what the local [material] holds before
    [FindMaterial] is called on it: the variable is not initialised. *)
Definition SetShaderMaterial (materialTag : string) (indeterminate : Material) (w : W)
  : outcome W :=
  if Z.of_nat (length (m_objectMaterials (scene w))) >? 0 then
    let material := indeterminate in
    let* (bReturn, material) := FindMaterial (scene w) materialTag material in
    if Bool.eqb bReturn true then
      let* w := shader_call (setVec3Value "material.diffuseColor"
                               (OBJECT_MATERIAL.diffuseColor material)) w in
      let* w := shader_call (setVec3Value "material.specularColor"
                               (OBJECT_MATERIAL.specularColor material)) w in
      let* w := shader_call (setFloatValue "material.shininess"
                               (OBJECT_MATERIAL.shininess material)) w in
      Ok w
    else Ok w
  else Ok w.

(** *** The mesh object, SceneManager() and ~SceneManager() *)

Inductive Mesh : Type := PlaneMesh | BoxMesh | CylinderMesh | TorusMesh | SphereMesh.

(** A call on [m_basicMeshes]; a draw is logged with the uniforms in force
    when it is issued. *)
Inductive MeshCall : Type :=
| LoadMesh (m : Mesh)
| DrawMesh (m : Mesh) (uniforms : option Shader).

(** The scene manager with its mesh object: the calls the object has
    received, oldest first, or [None] once the pointer is null. *)
Record Program : Type := {
  world : W;
  m_basicMeshes : option (list MeshCall)
}.

Definition with_world (p : Program) (w : W) : Program :=
  {| world := w; m_basicMeshes := m_basicMeshes p |}.

(** [m_basicMeshes->...()] *)
Definition mesh_call (c : MeshCall) (p : Program) : outcome Program :=
  match m_basicMeshes p with
  | Some calls => Ok {| world := world p; m_basicMeshes := Some (calls ++ [c])%list |}
  | None => Undefined
  end.

Definition draw (m : Mesh) (p : Program) : outcome Program :=
  mesh_call (DrawMesh m (m_pShaderManager (scene (world p)))) p.

(** The constructor, in the world [w] it is run in. *)
Definition SceneManager_new (pShaderManager : option Shader) (junk : nat -> Z) (w : W)
  : Program :=
  {| world := set_scene w (SceneManager_ctor pShaderManager junk);
     m_basicMeshes := Some [] |}.

(** The destructor. *)
Definition SceneManager_delete (p : Program) : outcome Program :=
  (* Free any GPU texture objects before shutting down *)
  let* w := DestroyGLTextures (world p) in
  let w := set_scene w (set_pShaderManager (scene w) None) in
  Ok {| world := w; m_basicMeshes := None |}.

(** *** PrepareScene() *)

Definition push_back (material : Material) (w : W) : W :=
  set_scene w
    {| m_pShaderManager := m_pShaderManager (scene w);
       m_textureIDs := m_textureIDs (scene w);
       m_loadedTextures := m_loadedTextures (scene w);
       m_objectMaterials := (m_objectMaterials (scene w) ++ [material])%list |}.

(** [glm::vec3(c)]: the same value three times. *)
Definition vec3_of (c : float) : glm.vec3 float := glm.Vec3 c c c.

Definition PrepareScene (p : Program) : outcome Program :=
  (* Load basic meshes (plane, box, cylinder, torus) *)
  let* p := mesh_call (LoadMesh PlaneMesh) p in
  let* p := mesh_call (LoadMesh BoxMesh) p in
  let* p := mesh_call (LoadMesh CylinderMesh) p in
  let* p := mesh_call (LoadMesh TorusMesh) p in
  let* p := mesh_call (LoadMesh SphereMesh) p in
  let w := world p in
  (* Load all textures *)
  let* (loadedTent, w) := CreateGLTexture "textures/tent.jpg" "tent" w in
  let* (loadedGround, w) := CreateGLTexture "textures/ground.jpg" "ground" w in
  let* (loadedCampfire, w) := CreateGLTexture "textures/campfire.jpg" "campfire" w in
  let* (loadedSky, w) := CreateGLTexture "textures/sky.jpg" "sky" w in
  let* (loadedBark, w) := CreateGLTexture "textures/bark.jpg" "bark" w in
  let* (loadedMetal, w) := CreateGLTexture "textures/metal.jpg" "metal" w in
  let* (loadedRock, w) := CreateGLTexture "textures/rock.jpg" "rock" w in
  (* Report any missing textures *)
  let w := if negb loadedTent
           then print_cerr ("[PrepareScene] ERROR: Failed to load textures/tent.jpg" +:+ endl) w
           else w in
  let w := if negb loadedGround
           then print_cerr ("[PrepareScene] ERROR: Failed to load textures/ground.jpg" +:+ endl) w
           else w in
  let w := if negb loadedCampfire
           then print_cerr ("[PrepareScene] ERROR: Failed to load textures/campfire.jpg" +:+ endl) w
           else w in
  let w := if negb loadedSky
           then print_cerr ("[PrepareScene] ERROR: Failed to load textures/sky.jpg" +:+ endl) w
           else w in
  let w := if negb loadedBark
           then print_cerr ("[PrepareScene] ERROR: Failed to load textures/bark.jpg" +:+ endl) w
           else w in
  let w := if negb loadedMetal
           then print_cerr ("[PrepareScene] ERROR: Failed to load textures/metal.jpg" +:+ endl) w
           else w in
  (* MATERIAL: Floor *)
  let floorMat :=
    OBJECT_MATERIAL.mk "floor"
      (glm.Vec3 (float_lit 44 2) (float_lit 26 2) (float_lit 8 2))
      (vec3_of (float_lit 3 1)) (float_lit 32 0) in
  let w := push_back floorMat w in
  (* MATERIAL: Tent *)
  let tentMat :=
    OBJECT_MATERIAL.mk "tent"
      (glm.Vec3 (float_lit 2 1) (float_lit 4 1) (float_lit 1 1))
      (vec3_of (float_lit 2 1)) (float_lit 16 0) in
  let w := push_back tentMat w in
  (* MATERIAL: Campfire *)
  let fireMat :=
    OBJECT_MATERIAL.mk "campfire"
      (glm.Vec3 float_1 (float_lit 5 1) float_0)
      (vec3_of (float_lit 3 1)) (float_lit 8 0) in
  let w := push_back fireMat w in
  (* MATERIAL: Logs (bark) *)
  let barkMat :=
    OBJECT_MATERIAL.mk "bark"
      (glm.Vec3 (float_lit 35 2) (float_lit 2 1) (float_lit 1 1))
      (vec3_of (float_lit 1 1)) (float_lit 12 0) in
  let w := push_back barkMat w in
  (* MATERIAL: Mug (metal) *)
  let metalMat :=
    OBJECT_MATERIAL.mk "metal"
      (vec3_of (float_lit 6 1)) (vec3_of (float_lit 9 1)) (float_lit 64 0) in
  let w := push_back metalMat w in
  (* MATERIAL: Sky *)
  let skyMat :=
    OBJECT_MATERIAL.mk "sky" (vec3_of float_1) (vec3_of float_0) float_1 in
  let w := push_back skyMat w in
  Ok (with_world p w).

(** *** SetupLighting() *)

Definition SetupLighting (w : W) : outcome W :=
  let* w := shader_call (setIntValue "bUseLighting" 1) w in
  let* w := shader_call (setVec3Value "viewPosition"
                           (glm.Vec3 float_0 (float_lit 5 0) (float_lit 15 0))) w in
  (* Directional light *)
  let* w := shader_call (setVec3Value "dirLight.direction"
                           (glm.Vec3 (float_lit (-5) 1) (float_lit (-5) 1)
                                     (float_lit (-1) 0))) w in
  let* w := shader_call (setVec3Value "dirLight.diffuse"
                           (glm.Vec3 (float_lit 9 1) (float_lit 9 1) (float_lit 9 1))) w in
  let* w := shader_call (setVec3Value "dirLight.specular"
                           (glm.Vec3 float_1 float_1 float_1)) w in
  let* w := shader_call (setBoolValue "dirLight.bActive" true) w in
  (* Point light (white overhead) *)
  let* w := shader_call (setVec3Value "pointLights[0].position"
                           (glm.Vec3 (float_lit 14 0) (float_lit 6 0)
                                     (float_lit (-14) 0))) w in
  let* w := shader_call (setVec3Value "pointLights[0].ambient"
                           (glm.Vec3 (float_lit 4 1) (float_lit 4 1) (float_lit 4 1))) w in
  let* w := shader_call (setVec3Value "pointLights[0].diffuse"
                           (glm.Vec3 (float_lit 8 1) (float_lit 8 1) (float_lit 8 1))) w in
  let* w := shader_call (setVec3Value "pointLights[0].specular"
                           (glm.Vec3 float_1 float_1 float_1)) w in
  let* w := shader_call (setFloatValue "pointLights[0].constant" float_1) w in
  let* w := shader_call (setFloatValue "pointLights[0].linear" (float_lit 9 2)) w in
  let* w := shader_call (setFloatValue "pointLights[0].quadratic" (float_lit 32 3)) w in
  let* w := shader_call (setBoolValue "pointLights[0].bActive" true) w in
  (* Point light (warm campfire glow) *)
  let* w := shader_call (setVec3Value "pointLights[1].position"
                           (glm.Vec3 (float_lit 15 1) float_1 (float_lit (-2) 0))) w in
  let* w := shader_call (setVec3Value "pointLights[1].ambient"
                           (glm.Vec3 (float_lit 6 1) (float_lit 3 1) (float_lit 1 1))) w in
  let* w := shader_call (setVec3Value "pointLights[1].diffuse"
                           (glm.Vec3 (float_lit 9 1) (float_lit 4 1) (float_lit 1 1))) w in
  let* w := shader_call (setVec3Value "pointLights[1].specular"
                           (glm.Vec3 (float_lit 8 1) (float_lit 3 1) (float_lit 2 1))) w in
  let* w := shader_call (setFloatValue "pointLights[1].constant" float_1) w in
  let* w := shader_call (setFloatValue "pointLights[1].linear" (float_lit 14 2)) w in
  let* w := shader_call (setFloatValue "pointLights[1].quadratic" (float_lit 7 2)) w in
  let* w := shader_call (setBoolValue "pointLights[1].bActive" true) w in
  Ok w.

(** *** RenderScene() *)

(** A call of a member function that works on the scene manager alone. *)
Definition on_world (f : W -> W) (p : Program) : outcome Program :=
  Ok (with_world p (f (world p))).

Definition on_world_o (f : W -> outcome W) (p : Program) : outcome Program :=
  let* w := f (world p) in Ok (with_world p w).

(** [stack n] is what the uninitialised local of the [n]-th call of
    [SetShaderMaterial] holds. *)
Definition RenderScene (stack : nat -> Material) (p : Program) : outcome Program :=
  let* p := on_world_o BindGLTextures p in
  let* p := on_world_o SetupLighting p in
  let XrotationDegrees := float_lit (-45) 0 in
  (***** GROUND PLANE *****)
  let scaleXYZ := glm.Vec3 (float_lit 300 0) float_1 (float_lit 200 0) in
  let positionXYZ := glm.Vec3 float_0 float_0 float_0 in
  let* p := on_world (SetTransformations scaleXYZ float_0 float_0 float_0 positionXYZ) p in
  let* p := on_world_o (SetShaderMaterial "floor" (stack 0%nat)) p in
  let* p := on_world_o (SetShaderTexture "ground") p in
  let* p := on_world (SetTextureUVScale (float_lit 10 0) (float_lit 10 0)) p in
  let* p := draw PlaneMesh p in
  (* SKY BACKDROP FIX - ROTATE INTO VIEW *)
  let* p := on_world_o (shader_call (setIntValue "bUseLighting" 0)) p in
  let scaleXYZ := glm.Vec3 (float_lit 1000 0) float_1 (float_lit 500 0) in
  let positionXYZ := glm.Vec3 float_0 (float_lit 300 0) float_0 in
  let* p := on_world (SetTransformations scaleXYZ XrotationDegrees float_0 float_0
                                         positionXYZ) p in
  let* p := on_world_o (SetShaderMaterial "sky" (stack 1%nat)) p in
  let* p := on_world_o (SetShaderTexture "sky") p in
  let* p := on_world (SetTextureUVScale float_1 float_1) p in
  let XrotationDegrees := glm_radians (float_lit 360 0) in
  let* p := draw PlaneMesh p in
  let* p := on_world_o (shader_call (setIntValue "bUseLighting" 1)) p in
  (***** TENT BASE *****)
  let scaleXYZ := glm.Vec3 (float_lit 9 0) (float_lit 1 1) (float_lit (-5) 0) in
  let positionXYZ := glm.Vec3 (float_lit (-745) 2) (float_lit 1 1) (float_lit (-45) 1) in
  let* p := on_world (SetTransformations scaleXYZ (float_lit (-1) 0) float_0 float_0
                                         positionXYZ) p in
  let* p := on_world_o (SetShaderMaterial "tent" (stack 2%nat)) p in
  let* p := on_world_o (SetShaderTexture "tent") p in
  let* p := draw BoxMesh p in
  (***** TENT ROOF *****)
  let scaleXYZ := glm.Vec3 (float_lit 8 0) (float_lit 1 1) (float_lit (-5) 0) in
  let positionXYZ := glm.Vec3 (float_lit (-105) 1) (float_lit 2 0) (float_lit (-5) 0) in
  let* p := on_world (SetTransformations scaleXYZ float_0 float_0 (float_lit 45 0)
                                         positionXYZ) p in
  let* p := on_world_o (SetShaderMaterial "tent" (stack 3%nat)) p in
  let* p := on_world_o (SetShaderTexture "tent") p in
  let* p := draw BoxMesh p in
  let positionXYZ := glm.Vec3 (float_lit (-5) 0) (float_lit 2 0) (float_lit (-5) 0) in
  let* p := on_world (SetTransformations scaleXYZ float_0 float_0 (float_lit (-45) 0)
                                         positionXYZ) p in
  let* p := draw BoxMesh p in
  (***** CAMPFIRE RING *****)
  let scaleXYZ := glm.Vec3 (float_lit 2 0) (float_lit 1 1) (float_lit 25 1) in
  let positionXYZ := glm.Vec3 (float_lit 15 1) (float_lit 5 1) (float_lit (-2) 0) in
  let* p := on_world (SetTransformations scaleXYZ float_0 float_0 float_0 positionXYZ) p in
  let* p := on_world_o (SetShaderMaterial "campfire" (stack 4%nat)) p in
  let* p := on_world_o (SetShaderTexture "campfire") p in
  let* p := draw CylinderMesh p in
  (***** FIRE LOGS - Simple 3-Log Teepee *****)
  (* Log 1 - leaning back *)
  let scaleXYZ := glm.Vec3 (float_lit 4 1) (float_lit 3 0) (float_lit 5 1) in
  let positionXYZ := glm.Vec3 (float_lit (-25) 2) (float_lit 5 1) (float_lit (-125) 2) in
  let* p := on_world (SetTransformations scaleXYZ XrotationDegrees float_0 float_0
                                         positionXYZ) p in
  let* p := on_world_o (SetShaderMaterial "bark" (stack 5%nat)) p in
  let* p := on_world_o (SetShaderTexture "bark") p in
  let XrotationDegrees := float_lit 45 0 in
  let* p := draw CylinderMesh p in
  (* Log 2 - leaning left *)
  let scaleXYZ := glm.Vec3 (float_lit 4 1) (float_lit 3 0) (float_lit 5 1) in
  let positionXYZ := glm.Vec3 float_1 (float_lit 5 1) (float_lit 5 1) in
  let* p := on_world (SetTransformations scaleXYZ (glm_radians (float_lit 90 0))
                        (glm_radians (float_lit 60 0)) (glm_radians (float_lit 30 0))
                        positionXYZ) p in
  let* p := draw CylinderMesh p in
  (* Log 3 - leaning right *)
  let scaleXYZ := glm.Vec3 (float_lit 4 1) (float_lit 3 0) (float_lit 5 1) in
  let positionXYZ := glm.Vec3 (float_lit 15 1) (float_lit 5 1) (float_lit (-4) 0) in
  let* p := on_world (SetTransformations scaleXYZ (glm_radians (float_lit 90 0))
                        (glm_radians (float_lit (-60) 0)) (glm_radians (float_lit 30 0))
                        positionXYZ) p in
  let* p := draw CylinderMesh p in
  (* Log 4 - leaning left *)
  let scaleXYZ := glm.Vec3 (float_lit 4 1) (float_lit 3 0) (float_lit 5 1) in
  let positionXYZ := glm.Vec3 (float_lit 3 0) (float_lit 5 1) (float_lit (-1) 0) in
  let* p := on_world (SetTransformations scaleXYZ (glm_radians (float_lit 90 0))
                        (glm_radians (float_lit 60 0)) (glm_radians (float_lit 30 0))
                        positionXYZ) p in
  let* p := draw CylinderMesh p in
  (* Log 5 - leaning left *)
  let scaleXYZ := glm.Vec3 (float_lit 4 1) (float_lit 3 0) (float_lit 5 1) in
  let positionXYZ := glm.Vec3 (float_lit 1 1) (float_lit 5 1) (float_lit (-1) 1) in
  let* p := on_world (SetTransformations scaleXYZ (glm_radians (float_lit 90 0))
                        (glm_radians (float_lit 60 0)) (glm_radians (float_lit 30 0))
                        positionXYZ) p in
  let* p := draw CylinderMesh p in
  (* Log 6 - leaning left *)
  let scaleXYZ := glm.Vec3 (float_lit 4 1) (float_lit 3 0) (float_lit 5 1) in
  let positionXYZ := glm.Vec3 (float_lit 2 0) (float_lit 5 1) (float_lit 5 1) in
  let* p := on_world (SetTransformations scaleXYZ (glm_radians (float_lit 90 0))
                        (glm_radians (float_lit 60 0)) (glm_radians (float_lit 30 0))
                        positionXYZ) p in
  let* p := draw CylinderMesh p in
  (* Log 7 - leaning left *)
  let scaleXYZ := glm.Vec3 (float_lit 4 1) (float_lit 3 0) (float_lit 5 1) in
  let positionXYZ := glm.Vec3 (float_lit 25 2) (float_lit 5 1) (float_lit (-375) 2) in
  let* p := on_world (SetTransformations scaleXYZ (glm_radians (float_lit 90 0))
                        (glm_radians (float_lit 60 0)) (glm_radians (float_lit 30 0))
                        positionXYZ) p in
  let* p := draw CylinderMesh p in
  (* Log 8 - leaning left *)
  let scaleXYZ := glm.Vec3 (float_lit 24 1) (float_lit 5 0) (float_lit 5 1) in
  let positionXYZ := glm.Vec3 (float_lit 25 1) (float_lit 5 1) (float_lit (-375) 2) in
  let* p := on_world (SetTransformations scaleXYZ (glm_radians (float_lit 90 0))
                        (glm_radians (float_lit 60 0)) (glm_radians (float_lit 30 0))
                        positionXYZ) p in
  let* p := draw CylinderMesh p in
  (***** MUG BODY *****)
  let scaleXYZ := glm.Vec3 (float_lit 4 1) (float_lit 6 1) (float_lit 4 1) in
  let positionXYZ := glm.Vec3 (float_lit 6 0) (float_lit 3 1) (float_lit (-15) 1) in
  let* p := on_world (SetTransformations scaleXYZ float_0 float_0 float_0 positionXYZ) p in
  let* p := on_world_o (SetShaderMaterial "metal" (stack 6%nat)) p in
  let* p := on_world_o (SetShaderTexture "metal") p in
  let* p := draw CylinderMesh p in
  (***** MUG HANDLE *****)
  let scaleXYZ := vec3_of (float_lit 15 2) in
  let positionXYZ := glm.Vec3 (float_lit 55 1) (float_lit 6 1) (float_lit (-15) 1) in
  let* p := on_world (SetTransformations scaleXYZ float_0 float_0 float_0 positionXYZ) p in
  let* p := draw TorusMesh p in
  (***** ROCKS GROUP *****)
  (* Big main rock *)
  let* p := on_world_o (shader_call (setIntValue "bUseLighting" 0)) p in
  let scaleXYZ := glm.Vec3 (float_lit 103 1) (float_lit 52 1) (float_lit 87 1) in
  let positionXYZ := glm.Vec3 (float_lit 15 0) (float_lit 5 1) (float_lit (-15) 0) in
  let* p := on_world (SetTransformations scaleXYZ (glm_radians (float_lit 15 0))
                        (glm_radians (float_lit 20 0)) (glm_radians (float_lit 5 0))
                        positionXYZ) p in
  let* p := on_world_o (SetShaderMaterial "rock" (stack 7%nat)) p in
  let* p := on_world_o (SetShaderTexture "rock") p in
  let* p := draw SphereMesh p in
  (* the source comments this call "Re-enable lighting" *)
  let* p := on_world_o (shader_call (setIntValue "bUseLighting" 0)) p in
  (* Smaller rock *)
  let scaleXYZ := glm.Vec3 (float_lit 12 1) (float_lit 6 1) float_1 in
  let positionXYZ := glm.Vec3 (float_lit 12 0) (float_lit 3 1) (float_lit (-45) 1) in
  let* p := on_world (SetTransformations scaleXYZ (glm_radians (float_lit 12 0))
                        (glm_radians (float_lit 8 0)) (glm_radians (float_lit 3 0))
                        positionXYZ) p in
  let* p := on_world_o (SetShaderMaterial "rock" (stack 8%nat)) p in
  let* p := on_world_o (SetShaderTexture "rock") p in
  let* p := draw SphereMesh p in
  (* Another boulder *)
  let scaleXYZ := glm.Vec3 (float_lit 18 1) (float_lit 12 1) (float_lit 14 1) in
  let positionXYZ := glm.Vec3 (float_lit 7 0) (float_lit 4 1) (float_lit (-7) 0) in
  let* p := on_world (SetTransformations scaleXYZ (glm_radians (float_lit 25 0))
                        (glm_radians (float_lit 18 0)) (glm_radians (float_lit 12 0))
                        positionXYZ) p in
  let* p := on_world_o (SetShaderMaterial "rock" (stack 9%nat)) p in
  let* p := on_world_o (SetShaderTexture "rock") p in
  let* p := draw SphereMesh p in
  Ok p.

(** ** Vocabulary for the rest of the class *)

(** The material [SetShaderMaterial] ends up with for tag [t]: the local,
    overwritten by the first material tagged [t] if there is one. *)
Definition material_found (s : Scene) (t : string) (indeterminate : Material) : Material :=
  match list_find (fun e => material_hits t e = true) (m_objectMaterials s) with
  | Some (_, e) => copy_material indeterminate e
  | None => indeterminate
  end.

(** The three uniforms [SetShaderMaterial] writes, for material [m]. *)
Definition push_material (m : Material) (sh : Shader) : Shader :=
  setFloatValue "material.shininess" (OBJECT_MATERIAL.shininess m)
    (setVec3Value "material.specularColor" (OBJECT_MATERIAL.specularColor m)
       (setVec3Value "material.diffuseColor" (OBJECT_MATERIAL.diffuseColor m) sh)).

(** [c] returns normally with a result that satisfies [Q]. *)
Definition post {A : Type} (c : outcome A) (Q : A -> Prop) : Prop :=
  exists a, c = Ok a /\ Q a.

(** ** SetShaderMaterial *)

Lemma post_Ok {A : Type} (a : A) (Q : A -> Prop) : Q a -> post (Ok a) Q.
Proof. intros H. exists a. auto. Qed.

Lemma post_bind {A B : Type} (c : outcome A) (k : A -> outcome B)
      (Q : A -> Prop) (R : B -> Prop) :
  post c Q -> (forall a, Q a -> post (k a) R) -> post (obind c k) R.
Proof. intros (a & -> & Ha) Hk. cbn [obind]. now apply Hk. Qed.

Lemma post_weaken {A : Type} (c : outcome A) (Q R : A -> Prop) :
  post c Q -> (forall a, Q a -> R a) -> post c R.
Proof. intros (a & Hc & Ha) H. exists a. auto. Qed.

Lemma SetShaderMaterial_exact (t : string) (indeterminate : Material) (w : W) :
  SetShaderMaterial t indeterminate w
  = match m_objectMaterials (scene w) with
    | [] => Ok w
    | _ :: _ =>
        match m_pShaderManager (scene w) with
        | Some sh =>
            Ok (set_shader w (push_material (material_found (scene w) t indeterminate) sh))
        | None => Undefined
        end
    end.
Proof.
  unfold SetShaderMaterial. rewrite FindMaterial_scan. unfold material_found.
  destruct (m_objectMaterials (scene w)) as [| e0 mats]; [reflexivity |].
  destruct (Z.gtb_spec (Z.of_nat (length (e0 :: mats))) 0) as [_ | Hz];
    [| cbn [length] in Hz; lia].
  cbn [obind Bool.eqb]. unfold shader_call.
  destruct (m_pShaderManager (scene w)) as [sh |]; [| reflexivity].
  cbn [obind]. world_simpl. reflexivity.
Qed.

(** X14: [SetShaderMaterial] does not check the shader manager pointer: with a
    null pointer it is a no-op only while no material is defined, and is
    undefined behaviour, for every tag, as soon as one is. *)
Theorem SetShaderMaterial_null_shader (t : string) (indeterminate : Material) (w : W) :
  m_pShaderManager (scene w) = None ->
  (m_objectMaterials (scene w) = [] -> SetShaderMaterial t indeterminate w = Ok w) /\
  (m_objectMaterials (scene w) <> [] -> SetShaderMaterial t indeterminate w = Undefined).
Proof.
  intros Hnull. rewrite SetShaderMaterial_exact, Hnull.
  destruct (m_objectMaterials (scene w)); split; congruence.
Qed.

(** X15: With a shader manager in place, [SetShaderMaterial] for a tag that some
    material carries writes the diffuse colour, specular colour and
    shininess of the first such material, and nothing else. *)
Theorem SetShaderMaterial_pushes_first_match (t : string) (indeterminate : Material)
        (w : W) (sh : Shader) (i : nat) (e : Material) :
  m_pShaderManager (scene w) = Some sh ->
  first_material (scene w) t i e ->
  exists sh',
    SetShaderMaterial t indeterminate w = Ok (set_shader w sh') /\
    sh' !! "material.diffuseColor" = Some (UVec3 (OBJECT_MATERIAL.diffuseColor e)) /\
    sh' !! "material.specularColor" = Some (UVec3 (OBJECT_MATERIAL.specularColor e)) /\
    sh' !! "material.shininess" = Some (UFloat (OBJECT_MATERIAL.shininess e)) /\
    (forall name, name <> "material.diffuseColor" -> name <> "material.specularColor" ->
                  name <> "material.shininess" -> sh' !! name = sh !! name).
Proof.
  intros Hsh Hfirst. rewrite SetShaderMaterial_exact, Hsh. unfold material_found.
  pose proof Hfirst as (Hl & _). apply find_first_material in Hfirst. rewrite Hfirst.
  destruct (m_objectMaterials (scene w)) as [| e0 mats]; [discriminate |].
  eexists. split; [reflexivity |].
  unfold push_material, setFloatValue, setVec3Value. cbn.
  split; [rewrite !lookup_insert_ne by discriminate; apply lookup_insert_eq |].
  split; [rewrite lookup_insert_ne by discriminate; apply lookup_insert_eq |].
  split; [apply lookup_insert_eq |].
  intros name H1 H2 H3. rewrite !lookup_insert_ne by congruence. reflexivity.
Qed.

(** X16: A miss is not a no-op: when materials are defined but none carries the
    tag, [SetShaderMaterial] still writes the three uniforms, from the local
    variable it never initialised. *)
Theorem SetShaderMaterial_miss_pushes_local (t : string) (indeterminate : Material)
        (w : W) (sh : Shader) :
  m_pShaderManager (scene w) = Some sh ->
  m_objectMaterials (scene w) <> [] ->
  ~ material_defined (scene w) t ->
  exists sh',
    SetShaderMaterial t indeterminate w = Ok (set_shader w sh') /\
    sh' !! "material.diffuseColor"
    = Some (UVec3 (OBJECT_MATERIAL.diffuseColor indeterminate)) /\
    sh' !! "material.specularColor"
    = Some (UVec3 (OBJECT_MATERIAL.specularColor indeterminate)) /\
    sh' !! "material.shininess" = Some (UFloat (OBJECT_MATERIAL.shininess indeterminate)).
Proof.
  intros Hsh Hne Hno. rewrite SetShaderMaterial_exact, Hsh. unfold material_found.
  apply find_no_material in Hno. rewrite Hno.
  destruct (m_objectMaterials (scene w)) as [| e0 mats]; [congruence |].
  eexists. split; [reflexivity |].
  unfold push_material, setFloatValue, setVec3Value.
  split; [rewrite !lookup_insert_ne by discriminate; apply lookup_insert_eq |].
  split; [rewrite lookup_insert_ne by discriminate; apply lookup_insert_eq |].
  apply lookup_insert_eq.
Qed.

(** ** Construction and destruction *)

(** X17: The destructor returns normally on any object that satisfies the
    invariant, with the count at zero and both pointers null; every
    registered handle has been released, and a texture that no registered
    entry holds has not. *)
Theorem SceneManager_delete_releases (p : Program) :
  registry_inv (scene (world p)) ->
  exists p', SceneManager_delete p = Ok p' /\
    m_loadedTextures (scene (world p')) = 0 /\
    m_pShaderManager (scene (world p')) = None /\
    m_basicMeshes p' = None /\
    (forall e, e ∈ registered (scene (world p)) -> TEXTURE_INFO.ID e ∉ live (world p')) /\
    (forall name,
       (forall e, e ∈ registered (scene (world p)) -> TEXTURE_INFO.ID e <> name) ->
       gl_textures (gl (world p')) !! name = gl_textures (gl (world p)) !! name).
Proof.
  intros [[Hlo Hhi] Harr]. unfold array_inv in Harr. unfold SceneManager_delete.
  rewrite DestroyGLTextures_Ok by lia. cbn [obind].
  eexists. split; [reflexivity |]. cbn [world m_basicMeshes]. world_simpl.
  repeat (split; [reflexivity |]). split.
  - intros e He Hin. unfold live in Hin. world_simpl.
    apply gl_live_delete_all in Hin as [_ Hne]. now apply (Hne e).
  - intros name Hne. unfold delete_all. now apply delete_each_textures.
Qed.

(** X18: An object that is constructed and destroyed right away has touched
    nothing: the GL context and both output streams are as they were. *)
Theorem SceneManager_new_delete (pShaderManager : option Shader) (junk : nat -> Z) (w : W) :
  exists p', SceneManager_delete (SceneManager_new pShaderManager junk w) = Ok p' /\
    gl (world p') = gl w /\ cout (world p') = cout w /\ cerr (world p') = cerr w /\
    stbi_buffers (world p') = stbi_buffers w.
Proof.
  unfold SceneManager_delete, SceneManager_new. cbn [world].
  rewrite DestroyGLTextures_Ok
    by (unfold SceneManager_ctor; world_simpl; lia).
  cbn [obind]. eexists. split; [reflexivity |]. cbn [world]. world_simpl.
  repeat split.
Qed.

(** X19: Once destroyed, the object cannot prepare or render a scene: both calls
    are undefined behaviour, on the null mesh and shader pointers. *)
Theorem use_after_delete_is_undefined (p p' : Program) (stack : nat -> Material) :
  SceneManager_delete p = Ok p' ->
  PrepareScene p' = Undefined /\ RenderScene stack p' = Undefined.
Proof.
  intros Hdel. unfold SceneManager_delete in Hdel.
  destruct (DestroyGLTextures (world p)) as [w1 | |] eqn:Hd; cbn [obind] in Hdel;
    try discriminate.
  injection Hdel as <-. split; [reflexivity |].
  unfold RenderScene, on_world_o at 1. cbn [world].
  unfold DestroyGLTextures in Hd.
  destruct (while _ _ _ _) as [[i wl] | |] in Hd; cbn [obind] in Hd; try discriminate.
  injection Hd as <-.
  rewrite BindGLTextures_Ok by (world_simpl; lia). cbn [obind].
  unfold on_world_o at 1, with_world. cbn [world obind].
  unfold SetupLighting, shader_call at 1. world_simpl. reflexivity.
Qed.

(** ** PrepareScene *)

(** The files [PrepareScene] loads, with their tags, in source order. *)
Definition scene_files : list (string * string) :=
  [ ("textures/tent.jpg", "tent"); ("textures/ground.jpg", "ground");
    ("textures/campfire.jpg", "campfire"); ("textures/sky.jpg", "sky");
    ("textures/bark.jpg", "bark"); ("textures/metal.jpg", "metal");
    ("textures/rock.jpg", "rock") ].

(** The tags of those of [files] that decode to a supported layout. *)
Definition supported_tags (files : list (string * string)) : list string :=
  flat_map (fun ft => if decodes_supported (fst ft) then [snd ft] else []) files.

(** [cerr] after the report on each of [files] that did not load. *)
Definition reports (files : list string) (err : string) : string :=
  fold_left
    (fun acc f =>
       if decodes_supported f then acc
       else acc +:+ ("[PrepareScene] ERROR: Failed to load " +:+ f +:+ endl))
    files err.

(** The six materials [PrepareScene] defines, in source order. *)
Definition scene_materials : list Material :=
  [ OBJECT_MATERIAL.mk "floor"
      (glm.Vec3 (float_lit 44 2) (float_lit 26 2) (float_lit 8 2))
      (glm.Vec3 (float_lit 3 1) (float_lit 3 1) (float_lit 3 1)) (float_lit 32 0);
    OBJECT_MATERIAL.mk "tent"
      (glm.Vec3 (float_lit 2 1) (float_lit 4 1) (float_lit 1 1))
      (glm.Vec3 (float_lit 2 1) (float_lit 2 1) (float_lit 2 1)) (float_lit 16 0);
    OBJECT_MATERIAL.mk "campfire"
      (glm.Vec3 float_1 (float_lit 5 1) float_0)
      (glm.Vec3 (float_lit 3 1) (float_lit 3 1) (float_lit 3 1)) (float_lit 8 0);
    OBJECT_MATERIAL.mk "bark"
      (glm.Vec3 (float_lit 35 2) (float_lit 2 1) (float_lit 1 1))
      (glm.Vec3 (float_lit 1 1) (float_lit 1 1) (float_lit 1 1)) (float_lit 12 0);
    OBJECT_MATERIAL.mk "metal"
      (glm.Vec3 (float_lit 6 1) (float_lit 6 1) (float_lit 6 1))
      (glm.Vec3 (float_lit 9 1) (float_lit 9 1) (float_lit 9 1)) (float_lit 64 0);
    OBJECT_MATERIAL.mk "sky"
      (glm.Vec3 float_1 float_1 float_1) (glm.Vec3 float_0 float_0 float_0) float_1 ].

Definition mesh_loads : list MeshCall :=
  [ LoadMesh PlaneMesh; LoadMesh BoxMesh; LoadMesh CylinderMesh;
    LoadMesh TorusMesh; LoadMesh SphereMesh ].

Lemma take_take_app {A : Type} (n : nat) (l k : list A) :
  take n (take n l ++ k) = take n (l ++ k).
Proof.
  destruct (Nat.le_gt_cases (length l) n) as [Hle | Hgt].
  - now rewrite (take_ge l n) by lia.
  - rewrite (take_app_le l k) by lia.
    rewrite take_app_le by (rewrite length_take; lia).
    rewrite take_take, Nat.min_id. reflexivity.
Qed.

Lemma CreateGLTexture_step (filename tag : string) (w : W) :
  registry_inv (scene w) ->
  post (CreateGLTexture filename tag w)
    (fun r =>
       fst r = decodes_supported filename /\
       registry_inv (scene (snd r)) /\
       map TEXTURE_INFO.tag (registered (scene (snd r)))
       = take (Pos.to_nat MAX_TEXTURES)
           (map TEXTURE_INFO.tag (registered (scene w))
            ++ (if decodes_supported filename then [tag] else []))%list /\
       m_objectMaterials (scene (snd r)) = m_objectMaterials (scene w) /\
       m_pShaderManager (scene (snd r)) = m_pShaderManager (scene w) /\
       cerr (snd r) = cerr w /\
       stbi_buffers (snd r) = stbi_buffers w /\
       live w ⊆ live (snd r)).
Proof.
  drop_unused.
  intros Hinv. pose proof Hinv as [[Hlo Hhi] Harr]. unfold array_inv in Harr.
  assert (Hlen : length (map TEXTURE_INFO.tag (registered (scene w)))
                 = Z.to_nat (m_loadedTextures (scene w)))
    by (rewrite length_map; unfold registered; rewrite length_take; lia).
  unfold decodes_supported.
  destruct (stbi_load true filename) as [img |] eqn:Hload.
  - assert (Hcase : (img_channels img = 3 \/ img_channels img = 4) \/
                    (img_channels img <> 3 /\ img_channels img <> 4)) by lia.
    destruct Hcase as [Hch | [H3 H4]].
    + replace ((img_channels img =? 3) || (img_channels img =? 4)) with true
        by (symmetry; apply orb_true_iff; rewrite !Z.eqb_eq; exact Hch).
      rewrite (CreateGLTexture_supported_exact filename tag w img Hload Hch).
      destruct (Z.lt_ge_cases (m_loadedTextures (scene w)) (Z.pos MAX_TEXTURES))
        as [Hroom | Hfull].
      * rewrite register_texture_room by assumption. cbn [obind].
        apply post_Ok. cbn [fst snd]. world_simpl. cbn [world_after_decode scene].
        split; [reflexivity |].
        split; [now apply registry_inv_after_store |].
        split; [| repeat split].
        -- rewrite registered_after_store by assumption.
           rewrite map_app. cbn [map TEXTURE_INFO.tag].
           rewrite take_ge; [reflexivity |]. rewrite length_app, Hlen. cbn [length]. lia.
        -- cbn; lia.
        -- unfold live, gl_live. world_simpl. cbn [world_after_decode gl gl_textures].
           rewrite dom_insert_L. set_solver.
      * rewrite register_texture_full by assumption. cbn [obind].
        apply post_Ok. cbn [fst snd]. world_simpl. cbn [world_after_decode scene].
        split; [reflexivity |]. split; [exact Hinv |].
        split; [| repeat split].
        -- rewrite take_app_le by lia. rewrite take_ge by lia. reflexivity.
        -- cbn; lia.
        -- unfold live, gl_live. world_simpl. cbn [world_after_decode gl gl_textures].
           rewrite dom_insert_L. set_solver.
    + replace ((img_channels img =? 3) || (img_channels img =? 4)) with false
        by (symmetry; apply orb_false_iff; rewrite !Z.eqb_neq; auto).
      rewrite (CreateGLTexture_rejected_exact filename tag w img Hload H3 H4).
      apply post_Ok. cbn [fst snd world_after_decode scene cerr stbi_buffers].
      split; [reflexivity |]. split; [exact Hinv |].
      split; [rewrite app_nil_r, take_ge by lia; reflexivity |].
      repeat split; [lia |].
      unfold live, gl_live. cbn [world_after_decode gl gl_textures].
      rewrite dom_insert_L. set_solver.
  - unfold CreateGLTexture, stbi_load_w.
    cbn [stbi_set_flip_vertically_on_load stbi_flip]. rewrite Hload.
    apply post_Ok. cbn [fst snd]. world_simpl.
    split; [reflexivity |]. split; [exact Hinv |].
    split; [rewrite app_nil_r, take_ge by lia; reflexivity |].
    repeat split. set_solver.
Qed.

(** The six files whose failure [PrepareScene] reports. *)
Definition reported_files : list string :=
  [ "textures/tent.jpg"; "textures/ground.jpg"; "textures/campfire.jpg";
    "textures/sky.jpg"; "textures/bark.jpg"; "textures/metal.jpg" ].

(** World [w] is what the texture loads of [files] make of [w0]. *)
Definition textures_loaded (files : list (string * string)) (w0 w : W) : Prop :=
  registry_inv (scene w) /\
  map TEXTURE_INFO.tag (registered (scene w))
  = take (Pos.to_nat MAX_TEXTURES)
      (map TEXTURE_INFO.tag (registered (scene w0)) ++ supported_tags files)%list /\
  m_objectMaterials (scene w) = m_objectMaterials (scene w0) /\
  m_pShaderManager (scene w) = m_pShaderManager (scene w0) /\
  cerr w = cerr w0 /\
  stbi_buffers w = stbi_buffers w0 /\
  live w0 ⊆ live w.

Lemma textures_loaded_nil (w : W) : registry_inv (scene w) -> textures_loaded [] w w.
Proof.
  drop_unused.
  intros Hinv. pose proof Hinv as [[Hlo Hhi] Harr]. unfold array_inv in Harr.
  unfold textures_loaded. cbn [supported_tags flat_map]. rewrite app_nil_r.
  split; [exact Hinv |]. split; [| repeat split; set_solver].
  rewrite take_ge; [reflexivity |].
  rewrite length_map. unfold registered. rewrite length_take. lia.
Qed.

Lemma textures_loaded_snoc (files : list (string * string)) (f t : string) (w0 w : W) :
  textures_loaded files w0 w ->
  post (CreateGLTexture f t w)
    (fun r => fst r = decodes_supported f /\
              textures_loaded (files ++ [(f, t)]) w0 (snd r)).
Proof.
  drop_unused.
  intros (Hinv & Htags & Hmat & Hsh & Hcerr & Hbuf & Hlive).
  eapply post_weaken; [apply (CreateGLTexture_step f t w Hinv) |].
  intros [b w'] (Hb & Hinv' & Htags' & Hmat' & Hsh' & Hcerr' & Hbuf' & Hlive').
  cbn [fst snd] in *. split; [exact Hb |].
  split; [exact Hinv' |].
  split; [| repeat split; try congruence; set_solver].
  rewrite Htags', Htags, take_take_app. unfold supported_tags.
  rewrite flat_map_app. cbn [flat_map fst snd]. rewrite app_nil_r, app_assoc.
  reflexivity.
Qed.

Lemma report_scene (loaded : bool) (line : string) (w : W) :
  scene (if negb loaded then print_cerr line w else w) = scene w.
Proof. now destruct loaded. Qed.

Lemma report_gl (loaded : bool) (line : string) (w : W) :
  gl (if negb loaded then print_cerr line w else w) = gl w.
Proof. now destruct loaded. Qed.

Lemma report_stbi_buffers (loaded : bool) (line : string) (w : W) :
  stbi_buffers (if negb loaded then print_cerr line w else w) = stbi_buffers w.
Proof. now destruct loaded. Qed.

Lemma report_cerr (loaded : bool) (line : string) (w : W) :
  cerr (if negb loaded then print_cerr line w else w)
  = if loaded then cerr w else cerr w +:+ line.
Proof. now destruct loaded. Qed.

(** The reports and the material definitions at the end of
    [PrepareScene]: [w] is [w0] with [mats] appended and [cerr] at [err]. *)
Definition tail_state (w0 w : W) (mats : list Material) (err : string) : Prop :=
  m_textureIDs (scene w) = m_textureIDs (scene w0) /\
  m_loadedTextures (scene w) = m_loadedTextures (scene w0) /\
  m_pShaderManager (scene w) = m_pShaderManager (scene w0) /\
  m_objectMaterials (scene w) = (m_objectMaterials (scene w0) ++ mats)%list /\
  gl w = gl w0 /\
  stbi_buffers w = stbi_buffers w0 /\
  cerr w = err.

Lemma tail_state_refl (w : W) : tail_state w w [] (cerr w).
Proof. unfold tail_state. rewrite app_nil_r. repeat split. Qed.

Lemma tail_state_report (w0 w : W) (mats : list Material) (err : string)
      (loaded : bool) (line : string) :
  tail_state w0 w mats err ->
  tail_state w0 (if negb loaded then print_cerr line w else w) mats
    (if loaded then err else err +:+ line).
Proof.
  intros (H1 & H2 & H3 & H4 & H5 & H6 & H7). unfold tail_state.
  rewrite report_scene, report_gl, report_stbi_buffers, report_cerr, H7.
  repeat split; assumption.
Qed.

Lemma tail_state_push_back (w0 w : W) (mats : list Material) (err : string)
      (m : Material) :
  tail_state w0 w mats err -> tail_state w0 (push_back m w) (mats ++ [m]) err.
Proof.
  intros (H1 & H2 & H3 & H4 & H5 & H6 & H7). unfold tail_state, push_back.
  world_simpl. rewrite H4, app_assoc. repeat split; assumption.
Qed.

Lemma registry_inv_ext (s s' : Scene) :
  m_textureIDs s' = m_textureIDs s -> m_loadedTextures s' = m_loadedTextures s ->
  (registry_inv s -> registry_inv s') /\ registered s' = registered s.
Proof.
  intros H1 H2. unfold registry_inv, count_inv, array_inv, registered.
  rewrite H1, H2. auto.
Qed.

Lemma post_let {A B : Type} (e : A) (k : A -> outcome B) (Q : B -> Prop) :
  (forall x, x = e -> post (k x) Q) -> post (let x := e in k x) Q.
Proof. intros H. cbv zeta. now apply H. Qed.

Lemma mesh_call_post (c : MeshCall) (p : Program) (w : W) (calls : list MeshCall) :
  world p = w -> m_basicMeshes p = Some calls ->
  post (mesh_call c p)
    (fun p' => world p' = w /\ m_basicMeshes p' = Some (calls ++ [c])%list).
Proof. intros Hw Hm. unfold mesh_call. rewrite Hm. apply post_Ok. auto. Qed.

Ltac let_step w E :=
  match goal with
  | |- post (let x := ?e in @?k x) ?Q =>
      refine (post_let e k Q _); intros w E; cbv beta
  end.

Ltac mesh_step Hw Hm :=
  eapply post_bind; [exact (mesh_call_post _ _ _ _ Hw Hm) |];
  clear Hw Hm; intros ? [Hw Hm]; cbv beta.

Ltac texture_step H :=
  eapply post_bind; [exact (textures_loaded_snoc _ _ _ _ _ H) |];
  clear H;
  let b := fresh "loaded" in let w := fresh "w" in let Hb := fresh "Hloaded" in
  intros [b w] [Hb H]; cbn [fst snd] in Hb, H; cbv beta iota; subst b.

Ltac report_step T :=
  let w := fresh "w" in let E := fresh "E" in
  let_step w E;
  match type of E with
  | _ = (if negb ?b then print_cerr ?l _ else _) =>
      apply (tail_state_report _ _ _ _ b l) in T
  end;
  rewrite <- E in T; clear E.

Ltac material_step T :=
  let m := fresh "m" in let Em := fresh "Em" in let_step m Em;
  let w := fresh "w" in let E := fresh "E" in let_step w E;
  apply (tail_state_push_back _ _ _ _ m) in T;
  rewrite <- E in T; clear E; subst m.

Lemma PrepareScene_post (p : Program) (calls : list MeshCall) :
  registry_inv (scene (world p)) ->
  m_basicMeshes p = Some calls ->
  post (PrepareScene p)
    (fun p' =>
       registry_inv (scene (world p')) /\
       map TEXTURE_INFO.tag (registered (scene (world p')))
       = take (Pos.to_nat MAX_TEXTURES)
           (map TEXTURE_INFO.tag (registered (scene (world p)))
            ++ supported_tags scene_files)%list /\
       m_objectMaterials (scene (world p'))
       = (m_objectMaterials (scene (world p)) ++ scene_materials)%list /\
       m_pShaderManager (scene (world p')) = m_pShaderManager (scene (world p)) /\
       cerr (world p') = reports reported_files (cerr (world p)) /\
       stbi_buffers (world p') = stbi_buffers (world p) /\
       live (world p) ⊆ live (world p') /\
       m_basicMeshes p' = Some (calls ++ mesh_loads)%list).
Proof.
  drop_unused.
  intros Hinv Hm. remember (world p) as w0 eqn:Hw. symmetry in Hw.
  cbv beta delta [PrepareScene].
  do 5 mesh_step Hw Hm.
  let_step w Ew. rewrite Hw in Ew. subst w.
  pose proof (textures_loaded_nil w0 Hinv) as H.
  do 7 texture_step H.
  destruct H as (Hinv7 & Htags & Hmat & Hsh & Hcerr & Hbuf & Hlive).
  match goal with
  | |- post (let w := if _ then print_cerr _ ?w7 else _ in _) _ =>
      pose proof (tail_state_refl w7) as T
  end.
  do 6 report_step T.
  do 6 material_step T.
  destruct T as (T1 & T2 & T3 & T4 & T5 & T6 & T7).
  apply post_Ok. unfold with_world, live. cbn [world m_basicMeshes].
  destruct (registry_inv_ext _ _ T1 T2) as [Hinv' Hreg].
  split; [exact (Hinv' Hinv7) |].
  split; [rewrite Hreg; exact Htags |].
  split; [rewrite T4, Hmat; reflexivity |].
  split; [congruence |].
  split; [rewrite T7, Hcerr; reflexivity |].
  split; [congruence |].
  split; [rewrite T5; exact Hlive |].
  rewrite Hm, <- !app_assoc. reflexivity.
Qed.

Lemma supported_tags_elem (files : list (string * string)) (t : string) :
  t ∈ supported_tags files ->
  exists f, (f, t) ∈ files /\ decodes_supported f = true.
Proof.
  unfold supported_tags. induction files as [| [f t'] files IH]; cbn [flat_map fst snd].
  - intros H. inversion H.
  - rewrite elem_of_app. intros [H | H].
    + destruct (decodes_supported f) eqn:Hf; [| inversion H].
      apply list_elem_of_singleton in H. subst t'. exists f. split; [left | exact Hf].
    + destruct (IH H) as (f' & Hin & Hf'). exists f'. split; [now right | exact Hf'].
Qed.

Lemma tag_registered_tags (s : Scene) (t : string) :
  tag_registered s t <-> t ∈ map TEXTURE_INFO.tag (registered s).
Proof.
  unfold tag_registered. rewrite list_elem_of_fmap. split.
  - intros (e & He & Ht). exists e. auto.
  - intros (e & Ht & He). exists e. auto.
Qed.

(** X20: [PrepareScene] on an object that satisfies the invariant and still has
    its mesh object returns normally.  It asks the mesh object for the five
    meshes, and registers the tags of the files that decode to a supported
    layout, in the order of the source, behind the tags that were there,
    until the table is full; the invariant holds again, and every decoded
    buffer has been freed. *)
Theorem PrepareScene_registers_in_source_order (p : Program) (calls : list MeshCall) :
  registry_inv (scene (world p)) ->
  m_basicMeshes p = Some calls ->
  exists p',
    PrepareScene p = Ok p' /\
    registry_inv (scene (world p')) /\
    map TEXTURE_INFO.tag (registered (scene (world p')))
    = take (Pos.to_nat MAX_TEXTURES)
        (map TEXTURE_INFO.tag (registered (scene (world p)))
         ++ supported_tags scene_files)%list /\
    stbi_buffers (world p') = stbi_buffers (world p) /\
    m_basicMeshes p' = Some (calls ++ mesh_loads)%list.
Proof.
  drop_unused.
  intros Hinv Hm. destruct (PrepareScene_post p calls Hinv Hm) as (p' & Hp & H).
  exists p'. split; [exact Hp |]. tauto.
Qed.

(** X21: [PrepareScene] appends exactly its six materials, in source order, to
    those defined before, and leaves the shader manager alone.  None of the
    six is tagged "rock", the material [RenderScene] asks for three times:
    that tag is defined afterwards only if it was before. *)
Theorem PrepareScene_defines_six_materials (p : Program) (calls : list MeshCall) :
  registry_inv (scene (world p)) ->
  m_basicMeshes p = Some calls ->
  exists p',
    PrepareScene p = Ok p' /\
    m_objectMaterials (scene (world p'))
    = (m_objectMaterials (scene (world p)) ++ scene_materials)%list /\
    m_pShaderManager (scene (world p')) = m_pShaderManager (scene (world p)) /\
    (material_defined (scene (world p')) "rock"
     <-> material_defined (scene (world p)) "rock").
Proof.
  intros Hinv Hm.
  destruct (PrepareScene_post p calls Hinv Hm)
    as (p' & Hp & _ & _ & Hmat & Hsh & _).
  exists p'. split; [exact Hp |]. split; [exact Hmat |]. split; [exact Hsh |].
  unfold material_defined. rewrite Hmat. split.
  - intros (e & He & Ht). apply elem_of_app in He. destruct He as [He | He].
    + exists e. auto.
    + exfalso. unfold scene_materials in He.
      repeat (apply elem_of_cons in He; destruct He as [-> | He];
              [cbn in Ht; discriminate |]).
      inversion He.
  - intros (e & He & Ht). exists e. split; [apply elem_of_app; now left | exact Ht].
Qed.

(** X22: Of the seven files it loads, [PrepareScene] reports the failure of six:
    [cerr] gets one line for each of them that did not load, in source
    order, and nothing else.  The result of loading "textures/rock.jpg" is
    never looked at: when that file does not load and the other six do,
    [cerr] is as before, and the tag "rock", unless it was registered
    already, is not in the table afterwards, so that both lookups of it
    return -1. *)
Theorem PrepareScene_rock_failure_is_silent (p : Program) (calls : list MeshCall) :
  registry_inv (scene (world p)) ->
  m_basicMeshes p = Some calls ->
  exists p',
    PrepareScene p = Ok p' /\
    cerr (world p') = reports reported_files (cerr (world p)) /\
    ((forall f, f ∈ reported_files -> decodes_supported f = true) ->
     cerr (world p') = cerr (world p)) /\
    (decodes_supported "textures/rock.jpg" = false ->
     ~ tag_registered (scene (world p)) "rock" ->
     FindTextureID (scene (world p')) "rock" = Ok (-1) /\
     FindTextureSlot (scene (world p')) "rock" = Ok (-1)).
Proof.
  intros Hinv Hm.
  destruct (PrepareScene_post p calls Hinv Hm)
    as (p' & Hp & Hinv' & Htags & _ & _ & Hcerr & _).
  exists p'. split; [exact Hp |]. split; [exact Hcerr |]. split.
  - intros Hall. rewrite Hcerr. unfold reports, reported_files in *.
    cbn [fold_left].
    rewrite !Hall by (repeat first [now left | right]). reflexivity.
  - intros Hrock Hno. apply lookup_not_registered; [exact Hinv' |].
    rewrite tag_registered_tags in *. rewrite Htags. intros Hin.
    apply elem_of_take in Hin. destruct Hin as (i & Hin & _).
    apply list_elem_of_lookup_2 in Hin. apply elem_of_app in Hin.
    destruct Hin as [Hin | Hin]; [exact (Hno Hin) |].
    apply supported_tags_elem in Hin. destruct Hin as (f & Hf & Hdec).
    unfold scene_files in Hf.
    repeat (apply elem_of_cons in Hf; destruct Hf as [Hf | Hf];
            [first [discriminate Hf | inversion Hf; subst; congruence] |]).
    inversion Hf.
Qed.

(** X23: [PrepareScene] is not idempotent: a second call loads the five meshes
    again, registers every supported file a second time, as far as the
    table has room, and defines the six materials a second time. *)
Theorem PrepareScene_twice (p : Program) (calls : list MeshCall) :
  registry_inv (scene (world p)) ->
  m_basicMeshes p = Some calls ->
  exists p' p'',
    PrepareScene p = Ok p' /\ PrepareScene p' = Ok p'' /\
    registry_inv (scene (world p'')) /\
    map TEXTURE_INFO.tag (registered (scene (world p'')))
    = take (Pos.to_nat MAX_TEXTURES)
        (map TEXTURE_INFO.tag (registered (scene (world p)))
         ++ supported_tags scene_files ++ supported_tags scene_files)%list /\
    m_objectMaterials (scene (world p''))
    = (m_objectMaterials (scene (world p)) ++ scene_materials ++ scene_materials)%list /\
    m_basicMeshes p'' = Some (calls ++ mesh_loads ++ mesh_loads)%list.
Proof.
  intros Hinv Hm.
  destruct (PrepareScene_post p calls Hinv Hm)
    as (p' & Hp & Hinv' & Htags & Hmat & _ & _ & _ & _ & Hm').
  destruct (PrepareScene_post p' _ Hinv' Hm')
    as (p'' & Hp' & Hinv'' & Htags' & Hmat' & _ & _ & _ & _ & Hm'').
  exists p', p''. split; [exact Hp |]. split; [exact Hp' |]. split; [exact Hinv'' |].
  split; [| split].
  - rewrite Htags', Htags, take_take_app, app_assoc. reflexivity.
  - rewrite Hmat', Hmat, app_assoc. reflexivity.
  - rewrite Hm'', app_assoc. reflexivity.
Qed.

(** ** RenderScene *)

(** The uniforms that the statements about a frame follow. *)
Record View : Type := {
  v_lighting : option (Uniform float mat4);
  v_diffuse : option (Uniform float mat4);
  v_specular : option (Uniform float mat4);
  v_shininess : option (Uniform float mat4);
  v_useTexture : option (Uniform float mat4);
  v_sampler : option (Uniform float mat4)
}.

Definition view (sh : Shader) : View :=
  {| v_lighting := sh !! "bUseLighting";
     v_diffuse := sh !! "material.diffuseColor";
     v_specular := sh !! "material.specularColor";
     v_shininess := sh !! "material.shininess";
     v_useTexture := sh !! g_UseTextureName;
     v_sampler := sh !! g_TextureValueName |}.

(** The view after [setIntValue("bUseLighting", n)]. *)
Definition with_lighting (n : Z) (V : View) : View :=
  {| v_lighting := Some (UInt n);
     v_diffuse := v_diffuse V; v_specular := v_specular V;
     v_shininess := v_shininess V;
     v_useTexture := v_useTexture V; v_sampler := v_sampler V |}.

(** The view after [SetShaderMaterial(t)] in scene [s]. *)
Definition material_view (s : Scene) (t : string) (indeterminate : Material) (V : View)
  : View :=
  let m := material_found s t indeterminate in
  {| v_lighting := v_lighting V;
     v_diffuse := match m_objectMaterials s with
                  | [] => v_diffuse V
                  | _ :: _ => Some (UVec3 (OBJECT_MATERIAL.diffuseColor m))
                  end;
     v_specular := match m_objectMaterials s with
                   | [] => v_specular V
                   | _ :: _ => Some (UVec3 (OBJECT_MATERIAL.specularColor m))
                   end;
     v_shininess := match m_objectMaterials s with
                    | [] => v_shininess V
                    | _ :: _ => Some (UFloat (OBJECT_MATERIAL.shininess m))
                    end;
     v_useTexture := v_useTexture V; v_sampler := v_sampler V |}.

(** The slot of the first registered entry tagged [t]. *)
Definition slot_of (s : Scene) (t : string) : option nat :=
  match list_find (fun e => tag_hits t e = true) (registered s) with
  | Some (i, _) => Some i
  | None => None
  end.

(** The sampler after [SetShaderTexture(t)]: the slot of [t], or what it
    was when [t] is not registered. *)
Definition sampler_after (s : Scene) (t : string) (prev : option (Uniform float mat4))
  : option (Uniform float mat4) :=
  match slot_of s t with
  | Some i => Some (USampler2D (Z.of_nat i))
  | None => prev
  end.

(** The view after [SetShaderTexture(t)] in scene [s]. *)
Definition texture_view (s : Scene) (t : string) (V : View) : View :=
  {| v_lighting := v_lighting V;
     v_diffuse := v_diffuse V; v_specular := v_specular V;
     v_shininess := v_shininess V;
     v_useTexture := Some (UInt 1);
     v_sampler := sampler_after s t (v_sampler V) |}.

(** [cerr] after [SetShaderTexture(t)] in scene [s]. *)
Definition texture_err (s : Scene) (err : string) (t : string) : string :=
  match slot_of s t with
  | Some _ => err
  | None => err +:+ ("[SceneManager] ERROR: Texture tag '" +:+ t +:+ "' not found."
                     +:+ endl)
  end.

(** The samplers in force over a run of draws with the tags [ts]. *)
Fixpoint sampler_trace (s : Scene) (prev : option (Uniform float mat4)) (ts : list string)
  : list (option (Uniform float mat4)) :=
  match ts with
  | [] => []
  | t :: ts => sampler_after s t prev :: sampler_trace s (sampler_after s t prev) ts
  end.

(** The table and the materials of [s] are those of [s0]. *)
Definition scene_kept (s0 s : Scene) : Prop :=
  m_textureIDs s = m_textureIDs s0 /\
  m_loadedTextures s = m_loadedTextures s0 /\
  m_objectMaterials s = m_objectMaterials s0.

(** The draw calls for the meshes [ms] with the uniforms [us]. *)
Definition draw_calls (ms : list Mesh) (us : list Shader) : list MeshCall :=
  zip_with (fun m u => DrawMesh m (Some u)) ms us.

(** The point [p] of a frame started in [p0] with the mesh object at
    [calls]: the table and the materials are as in [p0], [cerr] is at
    [err], the uniforms have the view [V], and the draws issued so far
    are those of [D], each with its view. *)
Definition at_state (p0 : Program) (calls : list MeshCall) (p : Program)
           (V : View) (err : string) (D : list (Mesh * View)) : Prop :=
  scene_kept (scene (world p0)) (scene (world p)) /\
  cout (world p) = cout (world p0) /\
  cerr (world p) = err /\
  (exists sh, m_pShaderManager (scene (world p)) = Some sh /\ view sh = V) /\
  (exists us, m_basicMeshes p = Some (calls ++ draw_calls (map fst D) us)%list /\
              map view us = map snd D).

(** The frame of [RenderScene], draw by draw: the mesh, the value of
    [bUseLighting], the material tag with the call of [SetShaderMaterial]
    that set it, and the texture tag in force. *)
Definition render_meshes : list Mesh :=
  ([PlaneMesh; PlaneMesh; BoxMesh; BoxMesh; BoxMesh] ++ replicate 10 CylinderMesh
   ++ [TorusMesh; SphereMesh; SphereMesh; SphereMesh])%list.

Definition render_lighting : list Z :=
  ([1; 0] ++ replicate 14 1 ++ [0; 0; 0])%list.

Definition render_materials : list (string * nat) :=
  ([("floor", 0); ("sky", 1); ("tent", 2); ("tent", 3); ("tent", 3); ("campfire", 4)]
   ++ replicate 8 ("bark", 5)
   ++ [("metal", 6); ("metal", 6); ("rock", 7); ("rock", 8); ("rock", 9)])%nat%list.

Definition render_textures : list string :=
  (["ground"; "sky"; "tent"; "tent"; "tent"; "campfire"] ++ replicate 8 "bark"
   ++ ["metal"; "metal"; "rock"; "rock"; "rock"])%list.

(** The calls of [SetShaderTexture] in a frame, in order. *)
Definition texture_calls : list string :=
  ["ground"; "sky"; "tent"; "tent"; "campfire"; "bark"; "metal"; "rock"; "rock"; "rock"].

(** The three material uniforms of a view. *)
Definition material_of (V : View) :=
  (v_diffuse V, v_specular V, v_shininess V).

(** The three material uniforms for the material [m]. *)
Definition material_uniforms (m : Material) :=
  (Some (UVec3 (float:=float) (mat4:=mat4) (OBJECT_MATERIAL.diffuseColor m)),
   Some (UVec3 (float:=float) (mat4:=mat4) (OBJECT_MATERIAL.specularColor m)),
   Some (UFloat (float:=float) (mat4:=mat4) (OBJECT_MATERIAL.shininess m))).

Lemma shader_call_Some (f : Shader -> Shader) (w : W) (sh : Shader) :
  m_pShaderManager (scene w) = Some sh -> shader_call f w = Ok (set_shader w (f sh)).
Proof. intros H. unfold shader_call. now rewrite H. Qed.

Lemma shader_call_set (f : Shader -> Shader) (w : W) (sh : Shader) :
  shader_call f (set_shader w sh) = Ok (set_shader w (f sh)).
Proof. reflexivity. Qed.

Lemma scene_kept_registered (s0 s : Scene) :
  scene_kept s0 s -> registered s = registered s0.
Proof. intros (H1 & H2 & _). unfold registered. now rewrite H1, H2. Qed.

Lemma at_state_init (p : Program) (calls : list MeshCall) (sh0 : Shader) :
  m_pShaderManager (scene (world p)) = Some sh0 ->
  m_basicMeshes p = Some calls ->
  at_state p calls p (view sh0) (cerr (world p)) [].
Proof.
  intros Hsh Hm. unfold at_state, scene_kept.
  split; [auto |]. split; [reflexivity |]. split; [reflexivity |]. split.
  - exists sh0. auto.
  - exists nil. cbn. rewrite app_nil_r. auto.
Qed.

Lemma at_state_world (p0 : Program) (calls : list MeshCall) (p : Program)
      (V : View) (err : string) (D : list (Mesh * View))
      (w' : W) (V' : View) (err' : string) (sh' : Shader) :
  at_state p0 calls p V err D ->
  scene_kept (scene (world p)) (scene w') ->
  cout w' = cout (world p) ->
  cerr w' = err' ->
  m_pShaderManager (scene w') = Some sh' ->
  view sh' = V' ->
  at_state p0 calls (with_world p w') V' err' D.
Proof.
  intros ((K1 & K2 & K3) & Hout & _ & _ & Hlog) (K1' & K2' & K3') Hout' Herr' Hsh' Hv'.
  unfold at_state, scene_kept, with_world. cbn [world m_basicMeshes].
  split; [repeat split; congruence |].
  split; [congruence |]. split; [exact Herr' |].
  split; [exists sh'; auto | exact Hlog].
Qed.

Lemma step_bind (p0 : Program) (calls : list MeshCall) (p : Program)
      (V : View) (err : string) (D : list (Mesh * View)) :
  registry_inv (scene (world p0)) ->
  at_state p0 calls p V err D ->
  post (on_world_o BindGLTextures p) (fun p' => at_state p0 calls p' V err D).
Proof.
  drop_unused.
  intros [[Hlo Hhi] Harr] H.
  pose proof H as ((K1 & K2 & K3) & Hout & Herr & (sh & Hsh & Hv) & Hlog).
  unfold array_inv in Harr. unfold on_world_o.
  rewrite BindGLTextures_Ok by (rewrite K1, K2; lia). cbn [obind].
  apply post_Ok. eapply at_state_world; [exact H | ..]; world_simpl;
    first [reflexivity | eassumption | (repeat split)].
Qed.

Lemma step_lighting (p0 : Program) (calls : list MeshCall) (p : Program)
      (V : View) (err : string) (D : list (Mesh * View)) :
  at_state p0 calls p V err D ->
  post (on_world_o SetupLighting p)
       (fun p' => at_state p0 calls p' (with_lighting 1 V) err D).
Proof.
  intros H.
  pose proof H as (_ & Hout & Herr & (sh & Hsh & Hv) & Hlog).
  unfold on_world_o, SetupLighting.
  rewrite (shader_call_Some _ _ _ Hsh). cbn [obind].
  repeat (rewrite shader_call_set; cbn [obind]).
  apply post_Ok. eapply at_state_world; [exact H | ..]; world_simpl;
    try first [reflexivity | eassumption | (repeat split; reflexivity)].
  subst V. unfold view, with_lighting, setIntValue, setVec3Value, setFloatValue,
             setBoolValue.
  rewrite !lookup_insert. reflexivity.
Qed.

Lemma step_flag (n : Z) (p0 : Program) (calls : list MeshCall) (p : Program)
      (V : View) (err : string) (D : list (Mesh * View)) :
  at_state p0 calls p V err D ->
  post (on_world_o (shader_call (setIntValue "bUseLighting" n)) p)
       (fun p' => at_state p0 calls p' (with_lighting n V) err D).
Proof.
  intros H.
  pose proof H as (_ & Hout & Herr & (sh & Hsh & Hv) & Hlog).
  unfold on_world_o.
  rewrite (shader_call_Some _ _ _ Hsh). cbn [obind].
  apply post_Ok. eapply at_state_world; [exact H | ..]; world_simpl;
    try first [reflexivity | eassumption | (repeat split; reflexivity)].
  subst V. unfold view, with_lighting, setIntValue.
  rewrite !lookup_insert. reflexivity.
Qed.

Lemma step_transform (scaleXYZ : glm.vec3 float) (rx ry rz : float)
      (positionXYZ : glm.vec3 float)
      (p0 : Program) (calls : list MeshCall) (p : Program)
      (V : View) (err : string) (D : list (Mesh * View)) :
  at_state p0 calls p V err D ->
  post (on_world (SetTransformations scaleXYZ rx ry rz positionXYZ) p)
       (fun p' => at_state p0 calls p' V err D).
Proof.
  intros H.
  pose proof H as (_ & Hout & Herr & (sh & Hsh & Hv) & Hlog).
  unfold on_world, SetTransformations. rewrite Hsh.
  apply post_Ok. eapply at_state_world; [exact H | ..]; world_simpl;
    try first [reflexivity | eassumption | (repeat split; reflexivity)].
  subst V. unfold view, setMat4Value, g_ModelName.
  rewrite !lookup_insert. reflexivity.
Qed.

Lemma step_uv (u v : float)
      (p0 : Program) (calls : list MeshCall) (p : Program)
      (V : View) (err : string) (D : list (Mesh * View)) :
  at_state p0 calls p V err D ->
  post (on_world (SetTextureUVScale u v) p)
       (fun p' => at_state p0 calls p' V err D).
Proof.
  intros H.
  pose proof H as (_ & Hout & Herr & (sh & Hsh & Hv) & Hlog).
  unfold on_world, SetTextureUVScale. rewrite Hsh.
  apply post_Ok. eapply at_state_world; [exact H | ..]; world_simpl;
    try first [reflexivity | eassumption | (repeat split; reflexivity)].
  subst V. unfold view, setVec2Value.
  rewrite !lookup_insert. reflexivity.
Qed.

Lemma step_material (t : string) (indeterminate : Material)
      (p0 : Program) (calls : list MeshCall) (p : Program)
      (V : View) (err : string) (D : list (Mesh * View)) :
  at_state p0 calls p V err D ->
  post (on_world_o (SetShaderMaterial t indeterminate) p)
       (fun p' => at_state p0 calls p'
                    (material_view (scene (world p0)) t indeterminate V) err D).
Proof.
  intros H.
  pose proof H as ((K1 & K2 & K3) & Hout & Herr & (sh & Hsh & Hv) & Hlog).
  unfold on_world_o. rewrite SetShaderMaterial_exact, Hsh.
  unfold material_view, material_found. rewrite K3.
  destruct (m_objectMaterials (scene (world p0))) as [| e0 mats] eqn:Hmats;
    cbn [obind]; apply post_Ok.
  - replace (with_world p (world p)) with p by (now destruct p).
    destruct H as (HK & Hc & He & _ & Hl).
    split; [exact HK |]. split; [exact Hc |]. split; [exact He |].
    split; [| exact Hl]. exists sh. split; [exact Hsh |].
    subst V. reflexivity.
  - eapply at_state_world; [exact H | ..]; world_simpl;
      try first [reflexivity | eassumption | (repeat split; reflexivity)].
    subst V. unfold view, push_material, setFloatValue, setVec3Value.
    rewrite !lookup_insert. reflexivity.
Qed.

Lemma step_texture (t : string)
      (p0 : Program) (calls : list MeshCall) (p : Program)
      (V : View) (err : string) (D : list (Mesh * View)) :
  registry_inv (scene (world p0)) ->
  at_state p0 calls p V err D ->
  post (on_world_o (SetShaderTexture t) p)
       (fun p' => at_state p0 calls p'
                    (texture_view (scene (world p0)) t V)
                    (texture_err (scene (world p0)) err t) D).
Proof.
  drop_unused.
  intros [[Hlo Hhi] Harr] H.
  pose proof H as (HK & Hout & Herr & (sh & Hsh & Hv) & Hlog).
  pose proof (scene_kept_registered _ _ HK) as Hreg.
  destruct HK as (K1 & K2 & K3).
  unfold array_inv in Harr. unfold on_world_o, SetShaderTexture. rewrite Hsh.
  rewrite FindTextureSlot_scan by (world_simpl; rewrite K1, K2; lia).
  replace (registered (scene (set_shader (world p) (setIntValue g_UseTextureName 1 sh))))
    with (registered (scene (world p0)))
    by (rewrite <- Hreg; reflexivity).
  unfold texture_view, texture_err, sampler_after, slot_of.
  destruct (list_find _ (registered (scene (world p0)))) as [[i e] |];
    cbn [obind].
  - destruct (Z.geb_spec (Z.of_nat i) 0) as [_ | Hneg]; [| lia].
    cbn [obind]. apply post_Ok.
    eapply at_state_world; [exact H | ..]; world_simpl;
      try first [reflexivity | eassumption | (repeat split; reflexivity)].
    subst V. unfold view, setSampler2DValue, setIntValue,
               g_UseTextureName, g_TextureValueName.
    rewrite !lookup_insert. reflexivity.
  - cbn [obind Z.geb Z.compare]. apply post_Ok.
    eapply at_state_world; [exact H | ..]; world_simpl;
      try first [reflexivity | eassumption | (repeat split; reflexivity)].
    + rewrite Herr. reflexivity.
    + subst V. unfold view, setIntValue, g_UseTextureName, g_TextureValueName.
      rewrite !lookup_insert. reflexivity.
Qed.

Lemma step_draw (m : Mesh)
      (p0 : Program) (calls : list MeshCall) (p : Program)
      (V : View) (err : string) (D : list (Mesh * View)) :
  at_state p0 calls p V err D ->
  post (draw m p) (fun p' => at_state p0 calls p' V err (D ++ [(m, V)])%list).
Proof.
  intros (HK & Hout & Herr & (sh & Hsh & Hv) & (us & Hlog & Hus)).
  unfold draw, mesh_call. rewrite Hlog, Hsh. apply post_Ok.
  unfold at_state. cbn [world m_basicMeshes].
  split; [exact HK |]. split; [exact Hout |]. split; [exact Herr |].
  split; [exists sh; auto |].
  exists (us ++ [sh])%list. split.
  - rewrite map_app. unfold draw_calls. rewrite zip_with_app.
    + cbn [map fst zip_with]. rewrite app_assoc. reflexivity.
    + apply (f_equal (@length _)) in Hus. rewrite !length_map in *. lia.
  - rewrite !map_app, Hus. cbn [map snd]. rewrite Hv. reflexivity.
Qed.

Ltac render_step Hinv H :=
  eapply post_bind;
  [ first [ eapply step_bind; [exact Hinv | exact H]
          | eapply step_lighting; exact H
          | eapply step_flag; exact H
          | eapply step_transform; exact H
          | eapply step_material; exact H
          | eapply step_texture; [exact Hinv | exact H]
          | eapply step_uv; exact H
          | eapply step_draw; exact H ]
  | clear H; intros ? H; cbv beta ].

Lemma RenderScene_post (stack : nat -> Material) (p : Program) (sh0 : Shader)
      (calls : list MeshCall) :
  registry_inv (scene (world p)) ->
  m_pShaderManager (scene (world p)) = Some sh0 ->
  m_basicMeshes p = Some calls ->
  exists V D,
    post (RenderScene stack p)
         (fun p' => at_state p calls p' V
                      (fold_left (texture_err (scene (world p))) texture_calls
                                 (cerr (world p))) D) /\
    map fst D = render_meshes /\
    map v_lighting (map snd D) = map (fun n => Some (UInt n)) render_lighting /\
    v_lighting V = Some (UInt 0) /\
    map v_useTexture (map snd D) = replicate 19 (Some (UInt 1)) /\
    map v_sampler (map snd D)
    = sampler_trace (scene (world p)) (sh0 !! g_TextureValueName) render_textures /\
    (m_objectMaterials (scene (world p)) <> [] ->
     map material_of (map snd D)
     = map (fun tn => material_uniforms
                        (material_found (scene (world p)) (fst tn) (stack (snd tn))))
           render_materials).
Proof.
  intros Hinv Hsh Hm.
  pose proof (at_state_init p calls sh0 Hsh Hm) as H.
  do 2 eexists. split.
  - unfold RenderScene. cbv zeta.
    repeat render_step Hinv H.
    apply post_Ok. exact H.
  - split; [reflexivity |]. split; [reflexivity |]. split; [reflexivity |].
    split; [reflexivity |]. split.
    + unfold render_textures. cbn [app replicate sampler_trace map snd fst v_sampler
                                    texture_view material_view with_lighting view].
      unfold sampler_after.
      destruct (slot_of (scene (world p)) "ground"),
               (slot_of (scene (world p)) "sky"),
               (slot_of (scene (world p)) "tent"),
               (slot_of (scene (world p)) "campfire"),
               (slot_of (scene (world p)) "bark"),
               (slot_of (scene (world p)) "metal"),
               (slot_of (scene (world p)) "rock"); reflexivity.
    + intros Hne.
      destruct (m_objectMaterials (scene (world p))) as [| e0 mats] eqn:Hmats;
        [congruence |].
      unfold material_of, material_uniforms, render_materials.
      cbn [app replicate map snd fst v_diffuse v_specular v_shininess
           texture_view material_view with_lighting view].
      rewrite Hmats. reflexivity.
Qed.

Lemma registry_inv_kept (s0 s : Scene) :
  scene_kept s0 s -> registry_inv s0 -> registry_inv s.
Proof.
  intros (H1 & H2 & _). unfold registry_inv, count_inv, array_inv.
  now rewrite H1, H2.
Qed.

Lemma map_view_length (us : list Shader) (D : list (Mesh * View)) :
  map view us = map snd D -> length us = length (map fst D).
Proof.
  intros H. apply (f_equal (@length _)) in H. rewrite !length_map in *. exact H.
Qed.

Lemma map_view_proj {A : Type} (f : View -> A) (us : list Shader) (D : list (Mesh * View)) :
  map view us = map snd D -> map (fun u => f (view u)) us = map f (map snd D).
Proof. intros H. rewrite <- H, map_map. reflexivity. Qed.

Lemma sampler_trace_hit (s : Scene) (ts : list string) (prev : option (Uniform float mat4))
      (k : nat) (t : string) (i : nat) :
  ts !! k = Some t -> slot_of s t = Some i ->
  sampler_trace s prev ts !! k = Some (Some (USampler2D (Z.of_nat i))).
Proof.
  revert prev k. induction ts as [| t0 ts IH]; intros prev k Hk Hslot; [discriminate |].
  destruct k as [| k]; cbn [sampler_trace].
  - injection Hk as ->. cbn. unfold sampler_after. now rewrite Hslot.
  - apply IH; assumption.
Qed.

Lemma slot_of_None (s : Scene) (t : string) :
  slot_of s t = None <-> ~ tag_registered s t.
Proof.
  rewrite <- find_not_registered. unfold slot_of.
  destruct (list_find _ _) as [[i e] |]; split; congruence.
Qed.

Lemma slot_of_Some (s : Scene) (t : string) (i : nat) :
  slot_of s t = Some i <-> exists e, first_registered s t i e.
Proof.
  unfold slot_of. split.
  - destruct (list_find _ _) as [[j e] |] eqn:Hfind; [| discriminate].
    intros [= ->]. exists e. now apply find_first_registered.
  - intros (e & He). apply find_first_registered in He. now rewrite He.
Qed.

(** X24: [RenderScene] calls through the shader manager pointer without the
    check the setters make: on an object whose shader manager is null it
    is undefined behaviour. *)
Theorem RenderScene_null_shader_is_undefined (stack : nat -> Material) (p : Program) :
  registry_inv (scene (world p)) ->
  m_pShaderManager (scene (world p)) = None ->
  RenderScene stack p = Undefined.
Proof.
  drop_unused.
  intros [[Hlo Hhi] Harr] Hnull. unfold array_inv in Harr.
  unfold RenderScene, on_world_o at 1.
  rewrite BindGLTextures_Ok by lia. cbn [obind].
  unfold on_world_o at 1, with_world. cbn [world obind].
  unfold SetupLighting, shader_call at 1. world_simpl. rewrite Hnull. reflexivity.
Qed.

(** X25: With the invariant, a shader manager and the mesh object in place,
    [RenderScene] returns normally.  It issues nineteen draws and no other
    call on the mesh object: two planes, three boxes, ten cylinders, a torus
    and three spheres, in that order.  The texture table, the count and the
    materials are as before, the invariant holds again, and nothing is
    written to [cout]. *)
Theorem RenderScene_draws (stack : nat -> Material) (p : Program) (sh0 : Shader)
        (calls : list MeshCall) :
  registry_inv (scene (world p)) ->
  m_pShaderManager (scene (world p)) = Some sh0 ->
  m_basicMeshes p = Some calls ->
  exists p' us,
    RenderScene stack p = Ok p' /\
    m_basicMeshes p' = Some (calls ++ draw_calls render_meshes us)%list /\
    length us = 19%nat /\
    scene_kept (scene (world p)) (scene (world p')) /\
    registry_inv (scene (world p')) /\
    cout (world p') = cout (world p).
Proof.
  intros Hinv Hsh Hm.
  destruct (RenderScene_post stack p sh0 calls Hinv Hsh Hm)
    as (V & D & (p' & Hp & HK & Hout & _ & _ & (us & Hlog & Hus)) & Hmeshes & _).
  exists p', us. split; [exact Hp |].
  split; [rewrite Hlog, Hmeshes; reflexivity |].
  split; [rewrite (map_view_length us D Hus), Hmeshes; reflexivity |].
  split; [exact HK |]. split; [exact (registry_inv_kept _ _ HK Hinv) | exact Hout].
Qed.

(** X26: The value of [bUseLighting] at each of the nineteen draws: on for the
    ground, off for the sky, on for the tent, the fire and the mug, and off
    for the three rocks.  The call after the first rock, which the source
    comments as re-enabling lighting, sets it to 0: the frame ends with
    lighting off. *)
Theorem RenderScene_lighting (stack : nat -> Material) (p : Program) (sh0 : Shader)
        (calls : list MeshCall) :
  registry_inv (scene (world p)) ->
  m_pShaderManager (scene (world p)) = Some sh0 ->
  m_basicMeshes p = Some calls ->
  exists p' us sh',
    RenderScene stack p = Ok p' /\
    m_basicMeshes p' = Some (calls ++ draw_calls render_meshes us)%list /\
    map (fun u : Shader => u !! "bUseLighting") us
    = map (fun n => Some (UInt n)) render_lighting /\
    m_pShaderManager (scene (world p')) = Some sh' /\
    sh' !! "bUseLighting" = Some (UInt 0).
Proof.
  intros Hinv Hsh Hm.
  destruct (RenderScene_post stack p sh0 calls Hinv Hsh Hm)
    as (V & D & (p' & Hp & _ & _ & _ & (sh' & Hsh' & Hv) & (us & Hlog & Hus))
        & Hmeshes & Hlight & Hlast & _).
  exists p', us, sh'. split; [exact Hp |].
  split; [rewrite Hlog, Hmeshes; reflexivity |].
  split; [rewrite <- Hlight; exact (map_view_proj v_lighting us D Hus) |].
  split; [exact Hsh' |]. rewrite <- Hlast, <- Hv. reflexivity.
Qed.

(** X27: The material uniforms at each draw, when materials are defined: those
    of the material found for the tag that [RenderScene] asked for last.
    For a tag that no material carries they come from the local variable
    that [SetShaderMaterial] never initialises; with no material tagged
    "rock", which [PrepareScene] does not define, the three spheres are
    drawn with what that variable held in the eighth, ninth and tenth
    call. *)
Theorem RenderScene_materials (stack : nat -> Material) (p : Program) (sh0 : Shader)
        (calls : list MeshCall) :
  registry_inv (scene (world p)) ->
  m_pShaderManager (scene (world p)) = Some sh0 ->
  m_basicMeshes p = Some calls ->
  m_objectMaterials (scene (world p)) <> [] ->
  exists p' us,
    RenderScene stack p = Ok p' /\
    m_basicMeshes p' = Some (calls ++ draw_calls render_meshes us)%list /\
    map (fun u : Shader => (u !! "material.diffuseColor", u !! "material.specularColor",
                            u !! "material.shininess")) us
    = map (fun tn => material_uniforms
                       (material_found (scene (world p)) (fst tn) (stack (snd tn))))
          render_materials /\
    (~ material_defined (scene (world p)) "rock" ->
     map (fun u : Shader => (u !! "material.diffuseColor", u !! "material.specularColor",
                             u !! "material.shininess")) (drop 16 us)
     = [material_uniforms (stack 7%nat); material_uniforms (stack 8%nat);
        material_uniforms (stack 9%nat)]).
Proof.
  intros Hinv Hsh Hm Hne.
  destruct (RenderScene_post stack p sh0 calls Hinv Hsh Hm)
    as (V & D & (p' & Hp & _ & _ & _ & _ & (us & Hlog & Hus))
        & Hmeshes & _ & _ & _ & _ & Hmat).
  specialize (Hmat Hne).
  pose proof (map_view_proj material_of us D Hus) as Hproj. rewrite Hmat in Hproj.
  exists p', us. split; [exact Hp |].
  split; [rewrite Hlog, Hmeshes; reflexivity |].
  split; [exact Hproj |].
  intros Hrock. rewrite <- skipn_map.
  change (fun u : Shader => (u !! "material.diffuseColor", u !! "material.specularColor",
                             u !! "material.shininess"))
    with (fun u : Shader => material_of (view u)).
  rewrite Hproj. unfold render_materials. cbn [app replicate map drop fst snd].
  unfold material_found. apply find_no_material in Hrock. rewrite Hrock. reflexivity.
Qed.

(** X28: Texturing is on at every draw, found or not.  The sampler at each draw
    is the slot of the last tag [RenderScene] asked for that is
    registered: a draw whose tag is registered samples the unit of the
    first entry with that tag.  [cerr] gets one line for each of the ten
    calls of [SetShaderTexture] whose tag is not registered, and is as
    before when all seven tags are. *)
Theorem RenderScene_textures (stack : nat -> Material) (p : Program) (sh0 : Shader)
        (calls : list MeshCall) :
  registry_inv (scene (world p)) ->
  m_pShaderManager (scene (world p)) = Some sh0 ->
  m_basicMeshes p = Some calls ->
  exists p' us,
    RenderScene stack p = Ok p' /\
    m_basicMeshes p' = Some (calls ++ draw_calls render_meshes us)%list /\
    map (fun u : Shader => u !! g_UseTextureName) us = replicate 19 (Some (UInt 1)) /\
    map (fun u : Shader => u !! g_TextureValueName) us
    = sampler_trace (scene (world p)) (sh0 !! g_TextureValueName) render_textures /\
    (forall k t i e u,
       render_textures !! k = Some t -> first_registered (scene (world p)) t i e ->
       us !! k = Some u ->
       u !! g_TextureValueName = Some (USampler2D (Z.of_nat i))) /\
    cerr (world p')
    = fold_left (texture_err (scene (world p))) texture_calls (cerr (world p)) /\
    ((forall t, t ∈ texture_calls -> tag_registered (scene (world p)) t) ->
     cerr (world p') = cerr (world p)).
Proof.
  intros Hinv Hsh Hm.
  destruct (RenderScene_post stack p sh0 calls Hinv Hsh Hm)
    as (V & D & (p' & Hp & _ & _ & Herr & _ & (us & Hlog & Hus))
        & Hmeshes & _ & _ & Huse & Hsam & _).
  pose proof (map_view_proj v_sampler us D Hus) as Hproj. rewrite Hsam in Hproj.
  exists p', us. split; [exact Hp |].
  split; [rewrite Hlog, Hmeshes; reflexivity |].
  split; [rewrite <- Huse; exact (map_view_proj v_useTexture us D Hus) |].
  split; [exact Hproj |].
  split; [| split; [exact Herr |]].
  - intros k t i e u Hk Hfirst Hu.
    assert (Hslot : slot_of (scene (world p)) t = Some i)
      by (apply slot_of_Some; now exists e).
    pose proof (sampler_trace_hit (scene (world p)) render_textures
                  (sh0 !! g_TextureValueName) k t i Hk Hslot) as Hhit.
    rewrite <- Hproj in Hhit.
    change (map ?f us) with (f <$> us) in Hhit.
    rewrite list_lookup_fmap, Hu in Hhit.
    cbn in Hhit. now injection Hhit.
  - intros Hall. rewrite Herr. unfold texture_calls in *. cbn [fold_left].
    unfold texture_err.
    repeat match goal with
    | |- context [slot_of ?s ?t] =>
        let E := fresh "E" in
        destruct (slot_of s t) eqn:E;
        [| exfalso; apply slot_of_None in E; apply E, Hall;
           repeat first [now left | right]]
    end.
    reflexivity.
Qed.

(** X29: When no texture is registered under "rock", which is what a missing or
    unsupported "textures/rock.jpg" leads to without a report, the three
    spheres are still drawn with texturing on: they sample the unit that
    the mug's handle was drawn with, and [cerr] ends with the line for
    "rock" three times. *)
Theorem RenderScene_rock_without_texture (stack : nat -> Material) (p : Program)
        (sh0 : Shader) (calls : list MeshCall) :
  registry_inv (scene (world p)) ->
  m_pShaderManager (scene (world p)) = Some sh0 ->
  m_basicMeshes p = Some calls ->
  ~ tag_registered (scene (world p)) "rock" ->
  exists p' us handle err,
    RenderScene stack p = Ok p' /\
    m_basicMeshes p' = Some (calls ++ draw_calls render_meshes us)%list /\
    us !! 15%nat = Some handle /\
    map (fun u : Shader => (u !! g_UseTextureName, u !! g_TextureValueName)) (drop 16 us)
    = replicate 3 (Some (UInt 1), handle !! g_TextureValueName) /\
    cerr (world p')
    = ((err +:+ ("[SceneManager] ERROR: Texture tag 'rock' not found." +:+ endl))
       +:+ ("[SceneManager] ERROR: Texture tag 'rock' not found." +:+ endl))
      +:+ ("[SceneManager] ERROR: Texture tag 'rock' not found." +:+ endl).
Proof.
  intros Hinv Hsh Hm Hrock.
  destruct (RenderScene_post stack p sh0 calls Hinv Hsh Hm)
    as (V & D & (p' & Hp & _ & _ & Herr & _ & (us & Hlog & Hus))
        & Hmeshes & _ & _ & Huse & Hsam & _).
  pose proof (map_view_proj v_sampler us D Hus) as Hs. rewrite Hsam in Hs.
  pose proof (map_view_proj v_useTexture us D Hus) as Hu. rewrite Huse in Hu.
  pose proof (map_view_length us D Hus) as Hlen. rewrite Hmeshes in Hlen.
  cbn in Hlen.
  apply slot_of_None in Hrock.
  do 19 (destruct us as [| ? us]; [discriminate Hlen |]).
  destruct us; [| discriminate Hlen].
  unfold render_textures in Hs.
  cbn [app replicate map sampler_trace v_sampler v_useTexture view] in Hs, Hu.
  assert (Hmiss : forall prev, sampler_after (scene (world p)) "rock" prev = prev)
    by (intros prev; unfold sampler_after; now rewrite Hrock).
  rewrite !Hmiss in Hs.
  eexists p', _, _, _. split; [exact Hp |].
  split; [rewrite Hlog, Hmeshes; reflexivity |].
  split; [reflexivity |].
  split.
  - cbn [drop map replicate].
    injection Hs as _ _ _ _ _ _ _ _ _ _ _ _ _ _ _ Hs15 Hs16 Hs17 Hs18.
    injection Hu as _ _ _ _ _ _ _ _ _ _ _ _ _ _ _ _ Hu16 Hu17 Hu18.
    rewrite Hu16, Hu17, Hu18, Hs16, Hs17, Hs18, Hs15. reflexivity.
  - rewrite Herr. unfold texture_calls. cbn [fold_left].
    unfold texture_err at 1 2 3. rewrite Hrock. reflexivity.
Qed.

(** ** PrepareScene, then RenderScene *)

(** The position of [t] in the list of tags [ts]. *)
Fixpoint tag_index (t : string) (ts : list string) : option nat :=
  match ts with
  | [] => None
  | t0 :: ts => if std_string_compare t0 t =? 0 then Some 0%nat
                else S <$> tag_index t ts
  end.

(** The texture unit each draw of a frame samples once [PrepareScene] has
    registered all seven textures in an empty table. *)
Definition render_units : list Z :=
  ([1; 3; 0; 0; 0; 2] ++ replicate 8 4 ++ [5; 5; 6; 6; 6])%list.

Lemma list_find_tag_index (t : string) (es : list TEXTURE_INFO.t) :
  match list_find (fun e => tag_hits t e = true) es with
  | Some (i, _) => Some i
  | None => None
  end = tag_index t (map TEXTURE_INFO.tag es).
Proof.
  induction es as [| e es IH]; [reflexivity |].
  cbn [list_find map tag_index]. rewrite <- IH.
  destruct (decide (tag_hits t e = true)) as [Hd | Hd]; unfold tag_hits in Hd.
  - rewrite Hd. reflexivity.
  - apply not_true_is_false in Hd. rewrite Hd.
    destruct (list_find _ es) as [[i e'] |]; reflexivity.
Qed.

Lemma slot_of_tags (s : Scene) (t : string) :
  slot_of s t = tag_index t (map TEXTURE_INFO.tag (registered s)).
Proof. unfold slot_of. apply list_find_tag_index. Qed.

Lemma SceneManager_new_inv (pShaderManager : option Shader) (junk : nat -> Z) (w : W) :
  registry_inv (scene (world (SceneManager_new pShaderManager junk w))) /\
  registered (scene (world (SceneManager_new pShaderManager junk w))) = [].
Proof.
  drop_unused.
  unfold SceneManager_new, registry_inv, count_inv, array_inv, registered,
    SceneManager_ctor. cbn [world]. world_simpl.
  rewrite length_map, length_seq. repeat split; lia.
Qed.

(** X30: From construction to the first frame.  On a new object with a shader
    manager, when all seven texture files decode to a supported layout and
    the table has room for seven, [PrepareScene] followed by [RenderScene]
    returns normally and writes nothing to [cerr].  The seven tags are
    registered in source order, the mesh object has received the five
    loads and then the nineteen draws, and every draw samples the unit of
    its own texture.  Even so the three rocks are drawn with a material
    read from the uninitialised local of [SetShaderMaterial]: no material
    tagged "rock" is ever defined. *)
Theorem first_frame (sh : Shader) (junk : nat -> Z) (w : W) (stack : nat -> Material) :
  (7 <= Pos.to_nat MAX_TEXTURES)%nat ->
  (forall ft, ft ∈ scene_files -> decodes_supported (fst ft) = true) ->
  exists p1 p2 us,
    PrepareScene (SceneManager_new (Some sh) junk w) = Ok p1 /\
    RenderScene stack p1 = Ok p2 /\
    map TEXTURE_INFO.tag (registered (scene (world p2))) = map snd scene_files /\
    m_basicMeshes p2 = Some (mesh_loads ++ draw_calls render_meshes us)%list /\
    map (fun u : Shader => u !! g_TextureValueName) us
    = map (fun n => Some (USampler2D n)) render_units /\
    cerr (world p2) = cerr w /\
    map (fun u : Shader => (u !! "material.diffuseColor", u !! "material.specularColor",
                            u !! "material.shininess")) (drop 16 us)
    = [material_uniforms (stack 7%nat); material_uniforms (stack 8%nat);
       material_uniforms (stack 9%nat)].
Proof.
  intros Hroom Hall.
  destruct (SceneManager_new_inv (Some sh) junk w) as [Hinv0 Hreg0].
  destruct (PrepareScene_post (SceneManager_new (Some sh) junk w) [] Hinv0 eq_refl)
    as (p1 & Hp1 & Hinv1 & Htags1 & Hmat1 & Hsh1 & Hcerr1 & _ & _ & Hm1).
  assert (Hdec : Forall (fun ft => decodes_supported (fst ft) = true) scene_files)
    by (apply Forall_forall; exact Hall).
  unfold scene_files in Hdec.
  apply Forall_cons in Hdec as [D1 Hdec]. apply Forall_cons in Hdec as [D2 Hdec].
  apply Forall_cons in Hdec as [D3 Hdec]. apply Forall_cons in Hdec as [D4 Hdec].
  apply Forall_cons in Hdec as [D5 Hdec]. apply Forall_cons in Hdec as [D6 Hdec].
  apply Forall_cons in Hdec as [D7 _]. cbn [fst] in D1, D2, D3, D4, D5, D6, D7.
  assert (Hsup : supported_tags scene_files = map snd scene_files).
  { unfold supported_tags, scene_files. cbn [flat_map map fst snd app].
    rewrite D1, D2, D3, D4, D5, D6, D7. reflexivity. }
  rewrite Hreg0, Hsup in Htags1. cbn [map app] in Htags1.
  rewrite take_ge in Htags1 by (cbn [scene_files map length]; lia).
  assert (Hquiet : cerr (world p1) = cerr w).
  { rewrite Hcerr1. unfold reports, reported_files. cbn [fold_left].
    rewrite D1, D2, D3, D4, D5, D6. reflexivity. }
  cbn [SceneManager_new world] in Hsh1, Hmat1. world_simpl.
  unfold SceneManager_ctor in Hsh1, Hmat1. cbn in Hsh1, Hmat1.
  destruct (RenderScene_post stack p1 sh _ Hinv1 Hsh1 Hm1)
    as (V & D & (p2 & Hp2 & HK & _ & Herr & _ & (us & Hlog & Hus))
        & Hmeshes & _ & _ & _ & Hsam & Hmat).
  assert (Hslot : forall t, slot_of (scene (world p1)) t = tag_index t (map snd scene_files))
    by (intros t; rewrite slot_of_tags, Htags1; reflexivity).
  exists p1, p2, us. split; [exact Hp1 |]. split; [exact Hp2 |].
  split; [rewrite (scene_kept_registered _ _ HK); exact Htags1 |].
  split; [rewrite Hlog, Hmeshes; reflexivity |].
  split; [| split].
  - etransitivity; [exact (map_view_proj v_sampler us D Hus) |]. rewrite Hsam.
    unfold render_textures. cbn [app replicate sampler_trace].
    unfold sampler_after. rewrite !Hslot. reflexivity.
  - rewrite Herr, Hquiet. unfold texture_calls. cbn [fold_left].
    unfold texture_err. rewrite !Hslot. reflexivity.
  - rewrite <- skipn_map.
    change (fun u : Shader => (u !! "material.diffuseColor", u !! "material.specularColor",
                               u !! "material.shininess"))
      with (fun u : Shader => material_of (view u)).
    rewrite (map_view_proj material_of us D Hus), Hmat
      by (rewrite Hmat1; discriminate).
    unfold render_materials. cbn [app replicate map drop fst snd].
    unfold material_found. rewrite Hmat1. reflexivity.
Qed.

End SceneManager.

Arguments world {float mat4} _.
Arguments m_basicMeshes {float mat4} _.
Arguments LoadMesh {float mat4} m.
Arguments DrawMesh {float mat4} m uniforms.

(** ** The code run on the concrete platform *)

Lemma Demo_transform_mul (A B : Demo.mat4) (p : glm.vec4 Z) :
  Demo.transform (Demo.mul A B) p = Demo.transform A (Demo.transform B p).
Proof.
  destruct A as [[a00 a01 a02 a03] [a10 a11 a12 a13] [a20 a21 a22 a23] [a30 a31 a32 a33]].
  destruct B as [[b00 b01 b02 b03] [b10 b11 b12 b13] [b20 b21 b22 b23] [b30 b31 b32 b33]].
  destruct p as [px py pz pw].
  cbv [Demo.transform Demo.mul Demo.vadd Demo.vscale
       Demo.col0 Demo.col1 Demo.col2 Demo.col3 glm.r glm.g glm.b glm.a].
  refine (f_equal4 glm.Vec4 _ _ _ _); ring.
Qed.

Lemma Demo_registry_inv (p : option (gmap string (Uniform Z Demo.mat4))) (n : nat) :
  (n <= 16)%nat -> registry_inv Z Demo.mat4 Demo.MAX_TEXTURES (Demo.scene_of p n).
Proof.
  intros Hn. unfold registry_inv, count_inv, array_inv, Demo.scene_of, Demo.slots.
  cbn [m_loadedTextures m_textureIDs].
  rewrite length_app, !length_map, !length_seq. unfold Demo.MAX_TEXTURES.
  change (Pos.to_nat 16) with 16%nat. lia.
Qed.

(** Registering the three files, the two-channel one in the middle. *)
Example run_three_registrations :
  let create := CreateGLTexture Z Demo.mat4 Demo.MAX_TEXTURES Demo.stbi_load Demo.glGenName in
  match create "textures/leaf.png" "A" (Demo.world_of None 0) with
  | Ok (a, w1) =>
      match create "textures/mask.png" "B" w1 with
      | Ok (b, w2) =>
          (a, b, m_loadedTextures (scene w2),
           FindTextureID Z Demo.mat4 (scene w2) "A",
           FindTextureID Z Demo.mat4 (scene w2) "B",
           elements (live Z Demo.mat4 w2))
          = (true, false, 1, Ok 1, Ok (-1), [2; 1])
      | _ => False
      end
  | _ => False
  end.
Proof. vm_compute. reflexivity. Qed.

(** A quarter turn about Y takes the point (1,0,0) to (0,0,-1). *)
Example run_quarter_turn_about_Y :
  Demo.transform (Demo.rotate 90 (glm.Vec3 0 1 0)) (glm.Vec4 1 0 0 1) = glm.Vec4 0 0 (-1) 1.
Proof. reflexivity. Qed.

Example run_destroy_on_empty_registry :
  DestroyGLTextures Z Demo.mat4 (Demo.world_of None 0) = Ok (Demo.world_of None 0).
Proof. reflexivity. Qed.

(** The first of the two materials tagged "tent" is the one copied. *)
Lemma FindMaterial_first_match_run :
  m_objectMaterials (Demo.scene_of None 2) <> [] /\
  FindMaterial Z Demo.mat4 (Demo.scene_of None 2) "tent"
    (OBJECT_MATERIAL.mk "out" (glm.Vec3 0 0 0) (glm.Vec3 0 0 0) 0)
  = Ok (true, OBJECT_MATERIAL.mk "out" (glm.Vec3 2 4 1) (glm.Vec3 2 2 2) 16).
Proof.
  assert (Hne : m_objectMaterials (Demo.scene_of None 2) <> []) by discriminate.
  split; [exact Hne |].
  apply (proj1 (proj2 (FindMaterial_first_match Z Demo.mat4 (Demo.scene_of None 2) "tent"
                         (OBJECT_MATERIAL.mk "out" (glm.Vec3 0 0 0) (glm.Vec3 0 0 0) 0) Hne))
               1%nat (OBJECT_MATERIAL.mk "tent" (glm.Vec3 2 4 1) (glm.Vec3 2 2 2) 16)).
  split; [reflexivity | split; [reflexivity |]].
  intros j e' Hj Hlt. destruct j as [| j]; [| lia].
  injection Hj as <-. discriminate.
Defined.

(** Three registered textures: "tex1" is found in slot 1 with handle 2. *)
Lemma FindTexture_first_match_run :
  registry_inv Z Demo.mat4 Demo.MAX_TEXTURES (Demo.scene_of None 3) /\
  FindTextureID Z Demo.mat4 (Demo.scene_of None 3) "tex1" = Ok 2 /\
  FindTextureSlot Z Demo.mat4 (Demo.scene_of None 3) "tex1" = Ok 1 /\
  FindTextureID Z Demo.mat4 (Demo.scene_of None 3) "tex3" = Ok (-1).
Proof.
  assert (Hinv : registry_inv Z Demo.mat4 Demo.MAX_TEXTURES (Demo.scene_of None 3))
    by (apply Demo_registry_inv; lia).
  split; [exact Hinv |].
  destruct (FindTexture_first_match Z Demo.mat4 Demo.MAX_TEXTURES Demo.stbi_load
              Demo.glGenName (Demo.scene_of None 3) "tex1" Hinv) as (_ & Hsome & _).
  destruct (Hsome 1%nat (Demo.entry 1)) as (Hid & Hslot & _).
  { split; [reflexivity | split; [reflexivity |]].
    intros j e' Hj Hlt. destruct j as [| j]; [| lia].
    injection Hj as <-. discriminate. }
  split; [exact Hid | split; [exact Hslot |]].
  reflexivity.
Defined.

(** A seventeenth registration on a full registry of sixteen. *)
Lemma CreateGLTexture_at_capacity_run :
  registry_inv Z Demo.mat4 Demo.MAX_TEXTURES (scene (Demo.world_of None 16)) /\
  m_loadedTextures (scene (Demo.world_of None 16)) = Z.pos Demo.MAX_TEXTURES /\
  Demo.stbi_load true "textures/leaf.png" = Some (Demo.image 4) /\
  exists w',
    CreateGLTexture Z Demo.mat4 Demo.MAX_TEXTURES Demo.stbi_load Demo.glGenName
      "textures/leaf.png" "leaf" (Demo.world_of None 16) = Ok (true, w') /\
    17 ∈ live Z Demo.mat4 w' /\
    m_loadedTextures (scene w') = 16 /\
    FindTextureID Z Demo.mat4 (scene w') "leaf" = Ok (-1) /\
    FindTextureID Z Demo.mat4 (scene w') "tex15" = Ok 16.
Proof.
  assert (Hinv : registry_inv Z Demo.mat4 Demo.MAX_TEXTURES (scene (Demo.world_of None 16)))
    by (apply Demo_registry_inv; lia).
  split; [exact Hinv |]. split; [reflexivity |]. split; [reflexivity |].
  destruct (CreateGLTexture_at_capacity Z Demo.mat4 Demo.MAX_TEXTURES Demo.stbi_load
              Demo.glGenName "textures/leaf.png" "leaf" (Demo.world_of None 16)
              (Demo.image 4) Hinv eq_refl eq_refl (or_intror eq_refl))
    as (w' & Hrun & Hin & _ & Hscene & Hcount & _ & _).
  exists w'. split; [exact Hrun |]. split; [exact Hin |]. split; [exact Hcount |].
  rewrite Hscene. split; reflexivity.
Defined.

(** A two-channel image: the call fails and texture 3 stays in use. *)
Lemma CreateGLTexture_unsupported_keeps_texture_run :
  Demo.stbi_load true "textures/mask.png" = Some (Demo.image 2) /\
  img_channels (Demo.image 2) <> 3 /\ img_channels (Demo.image 2) <> 4 /\
  (Demo.glGenName (gl_textures (gl (Demo.world_of None 2)))
     ∉ live Z Demo.mat4 (Demo.world_of None 2)) /\
  exists w',
    CreateGLTexture Z Demo.mat4 Demo.MAX_TEXTURES Demo.stbi_load Demo.glGenName
      "textures/mask.png" "mask" (Demo.world_of None 2) = Ok (false, w') /\
    3 ∈ live Z Demo.mat4 w' /\
    live Z Demo.mat4 w' <> live Z Demo.mat4 (Demo.world_of None 2).
Proof.
  assert (H3 : img_channels (Demo.image 2) <> 3) by discriminate.
  assert (H4 : img_channels (Demo.image 2) <> 4) by discriminate.
  assert (Hfresh : Demo.glGenName (gl_textures (gl (Demo.world_of None 2)))
                   ∉ live Z Demo.mat4 (Demo.world_of None 2))
    by (apply not_elem_of_dom; reflexivity).
  split; [reflexivity |]. split; [exact H3 |]. split; [exact H4 |]. split; [exact Hfresh |].
  destruct (CreateGLTexture_unsupported_keeps_texture Z Demo.mat4 Demo.MAX_TEXTURES
              Demo.stbi_load Demo.glGenName "textures/mask.png" "mask"
              (Demo.world_of None 2) (Demo.image 2) eq_refl H3 H4 Hfresh)
    as (w' & Hrun & _ & _ & Hin & _ & Hne & _).
  exists w'. split; [exact Hrun |]. split; [exact Hin | exact Hne].
Defined.

(** A tag that is not registered: texturing is switched on, the sampler
    keeps the unit written before, and the error line is printed. *)
Lemma SetShaderTexture_writes_run :
  m_pShaderManager (scene (Demo.world_of (Some Demo.shader) 3)) = Some Demo.shader /\
  registry_inv Z Demo.mat4 Demo.MAX_TEXTURES (scene (Demo.world_of (Some Demo.shader) 3)) /\
  exists w' sh',
    SetShaderTexture Z Demo.mat4 "rock" (Demo.world_of (Some Demo.shader) 3) = Ok w' /\
    m_pShaderManager (scene w') = Some sh' /\
    sh' !! g_UseTextureName = Some (UInt 1) /\
    sh' !! g_TextureValueName = Some (USampler2D 5) /\
    cerr w' = "[SceneManager] ERROR: Texture tag 'rock' not found." +:+ endl.
Proof.
  assert (Hinv : registry_inv Z Demo.mat4 Demo.MAX_TEXTURES
                   (scene (Demo.world_of (Some Demo.shader) 3)))
    by (apply Demo_registry_inv; lia).
  split; [reflexivity |]. split; [exact Hinv |].
  destruct (SetShaderTexture_writes Z Demo.mat4 Demo.MAX_TEXTURES "rock"
              (Demo.world_of (Some Demo.shader) 3) Demo.shader eq_refl Hinv)
    as (w' & sh' & Hrun & Hsh & Huse & _ & Hmiss).
  exists w', sh'. split; [exact Hrun |]. split; [exact Hsh |]. split; [exact Huse |].
  destruct Hmiss as (_ & Hsampler & Herr).
  { apply find_not_registered. reflexivity. }
  split; [rewrite Hsampler; reflexivity | exact Herr].
Defined.

(** No shader manager: the four calls change nothing. *)
Lemma null_shader_is_noop_run :
  m_pShaderManager (scene (Demo.world_of None 3)) = None /\
  SetTransformations Z Demo.mat4 Demo.mul Demo.scale Demo.rotate Demo.translate
    Demo.radians 0 1 (glm.Vec3 2 2 2) 90 0 0 (glm.Vec3 1 2 3) (Demo.world_of None 3)
  = Demo.world_of None 3 /\
  SetShaderColor Z Demo.mat4 1 0 0 1 (Demo.world_of None 3) = Demo.world_of None 3 /\
  SetShaderTexture Z Demo.mat4 "tex0" (Demo.world_of None 3) = Ok (Demo.world_of None 3) /\
  SetTextureUVScale Z Demo.mat4 10 10 (Demo.world_of None 3) = Demo.world_of None 3.
Proof.
  split; [reflexivity |].
  destruct (null_shader_is_noop Z Demo.mat4 Demo.mul Demo.scale Demo.rotate Demo.translate
              Demo.radians 0 1 (Demo.world_of None 3) eq_refl) as (Ht & Hc & Hx & Hu).
  split; [apply Ht |]. split; [apply Hc |]. split; [apply Hx | apply Hu].
Defined.

(** Unit scale, zero angles and zero offset write the identity; a scale by 2,
    a quarter turn about Y and an offset by (5,0,0) take (1,0,0) to (5,0,-2). *)
Lemma SetTransformations_pushes_composition_run :
  m_pShaderManager (scene (Demo.world_of (Some Demo.shader) 0)) = Some Demo.shader /\
  (exists sh',
     m_pShaderManager
       (scene (SetTransformations Z Demo.mat4 Demo.mul Demo.scale Demo.rotate Demo.translate
                 Demo.radians 0 1 (glm.Vec3 1 1 1) 0 0 0 (glm.Vec3 0 0 0)
                 (Demo.world_of (Some Demo.shader) 0))) = Some sh' /\
     sh' !! g_ModelName = Some (UMat4 Demo.identity)) /\
  (exists sh' M,
     m_pShaderManager
       (scene (SetTransformations Z Demo.mat4 Demo.mul Demo.scale Demo.rotate Demo.translate
                 Demo.radians 0 1 (glm.Vec3 2 2 2) 0 90 0 (glm.Vec3 5 0 0)
                 (Demo.world_of (Some Demo.shader) 0))) = Some sh' /\
     sh' !! g_ModelName = Some (UMat4 M) /\
     Demo.transform M (glm.Vec4 1 0 0 1) = glm.Vec4 5 0 (-2) 1).
Proof.
  split; [reflexivity |].
  destruct (SetTransformations_pushes_composition Z Demo.mat4 Demo.mul Demo.scale
              Demo.rotate Demo.translate Demo.radians 0 1
              (Demo.world_of (Some Demo.shader) 0) Demo.shader eq_refl)
    as (Hpush & Hpoint & Hid).
  split.
  - apply (Hid Demo.identity); reflexivity.
  - destruct (Hpush (glm.Vec3 2 2 2) 0 90 0 (glm.Vec3 5 0 0)) as (sh' & Hsh & Hmodel & _).
    eexists sh', _. split; [exact Hsh |]. split; [exact Hmodel |].
    rewrite (Hpoint (glm.vec4 Z) Demo.transform Demo_transform_mul). reflexivity.
Defined.

(** ** The further properties on the concrete platform *)

(** What the uninitialised local of the [n]-th call of [SetShaderMaterial]
    holds in these runs. *)
Definition Demo_stack (n : nat) : OBJECT_MATERIAL.t Z :=
  OBJECT_MATERIAL.mk "" (glm.Vec3 (Z.of_nat n) 0 0) (glm.Vec3 0 (Z.of_nat n) 0) (Z.of_nat n).

(** A decoder for which every file under "textures/" is a colour image. *)
Definition Demo_stbi_load_colour (flip : bool) (filename : string) : option Image :=
  if String.prefix "textures/" filename then Some (Demo.image 3) else None.

(** A scene manager with [n] textures and its mesh object, before any call. *)
Definition Demo_program (p : option (gmap string (Uniform Z Demo.mat4))) (n : nat)
  : Program Z Demo.mat4 :=
  {| world := Demo.world_of p n; m_basicMeshes := Some [] |}.

(** The same without textures or materials. *)
Definition Demo_blank (p : option (gmap string (Uniform Z Demo.mat4)))
  : Program Z Demo.mat4 :=
  {| world := Demo.world_blank p; m_basicMeshes := Some [] |}.

Local Notation inv := (registry_inv Z Demo.mat4 Demo.MAX_TEXTURES).
Local Notation create :=
  (CreateGLTexture Z Demo.mat4 Demo.MAX_TEXTURES Demo.stbi_load Demo.glGenName).
Local Notation prepare :=
  (PrepareScene Z Demo.mat4 0 1000 Demo.MAX_TEXTURES Demo.stbi_load_scene Demo.glGenName
     Demo.float_lit).
Local Notation render :=
  (RenderScene Z Demo.mat4 Demo.mul Demo.scale Demo.rotate Demo.translate Demo.radians
     0 1000 Demo.float_lit Demo_stack).

Lemma Demo_world_inv (p : option (gmap string (Uniform Z Demo.mat4))) (n : nat) :
  (n <= 16)%nat -> inv (scene (Demo.world_of p n)).
Proof. apply Demo_registry_inv. Qed.

Lemma Demo_blank_inv (p : option (gmap string (Uniform Z Demo.mat4))) :
  inv (scene (Demo.world_blank p)).
Proof.
  unfold registry_inv, count_inv, array_inv. cbn [scene Demo.world_blank
    m_loadedTextures m_textureIDs].
  split; [lia | reflexivity].
Qed.

Lemma Demo_not_registered (p : option (gmap string (Uniform Z Demo.mat4))) (t : string) :
  list_find (fun e => tag_hits t e = true)
            (registered Z Demo.mat4 (scene (Demo.world_of p 3))) = None ->
  ~ tag_registered Z Demo.mat4 (scene (Demo.world_of p 3)) t.
Proof. apply find_not_registered. Qed.

(** The two-channel file: the call returns false and the scene object is
    as it was. *)
Lemma CreateGLTexture_result_run :
  inv (scene (Demo.world_of None 2)) /\
  exists w', create "textures/mask.png" "mask" (Demo.world_of None 2) = Ok (false, w') /\
             scene w' = scene (Demo.world_of None 2).
Proof.
  assert (Hinv : inv (scene (Demo.world_of None 2))) by (apply Demo_world_inv; lia).
  split; [exact Hinv |].
  destruct (CreateGLTexture_result Z Demo.mat4 Demo.MAX_TEXTURES Demo.stbi_load
              Demo.glGenName "textures/mask.png" "mask" (Demo.world_of None 2) Hinv)
    as (w' & Hrun & Hscene).
  exists w'. split; [exact Hrun | apply Hscene; reflexivity].
Defined.

(** A registration with materials and a shader manager in place. *)
Lemma CreateGLTexture_frame_run :
  inv (scene (Demo.world_of (Some Demo.shader) 2)) /\
  exists b w',
    create "textures/leaf.png" "leaf" (Demo.world_of (Some Demo.shader) 2) = Ok (b, w') /\
    m_objectMaterials (scene w') = Demo.materials /\
    m_pShaderManager (scene w') = Some Demo.shader /\
    cerr w' = "" /\ stbi_buffers w' = 0.
Proof.
  assert (Hinv : inv (scene (Demo.world_of (Some Demo.shader) 2)))
    by (apply Demo_world_inv; lia).
  split; [exact Hinv |].
  destruct (CreateGLTexture_frame Z Demo.mat4 Demo.MAX_TEXTURES Demo.stbi_load
              Demo.glGenName "textures/leaf.png" "leaf"
              (Demo.world_of (Some Demo.shader) 2) Hinv)
    as (b & w' & Hrun & Hmat & Hsh & Hcerr & Hbuf & _).
  exists b, w'. split; [exact Hrun |]. split; [exact Hmat |]. split; [exact Hsh |].
  split; [exact Hcerr | exact Hbuf].
Defined.


(** A second texture under the tag "tex0": the lookups still answer with
    the first. *)
Lemma CreateGLTexture_keeps_lookups_run :
  inv (scene (Demo.world_of None 2)) /\
  exists w',
    create "textures/tent.jpg" "tex0" (Demo.world_of None 2) = Ok (true, w') /\
    m_loadedTextures (scene w') = 3 /\
    FindTextureID Z Demo.mat4 (scene w') "tex0" = Ok 1 /\
    FindTextureSlot Z Demo.mat4 (scene w') "tex0" = Ok 0.
Proof.
  assert (Hinv : inv (scene (Demo.world_of None 2))) by (apply Demo_world_inv; lia).
  split; [exact Hinv |].
  assert (Hrun : exists w',
             create "textures/tent.jpg" "tex0" (Demo.world_of None 2) = Ok (true, w') /\
             m_loadedTextures (scene w') = 3)
    by (eexists; split; vm_compute; reflexivity).
  destruct Hrun as (w' & Hrun & Hcount).
  exists w'. split; [exact Hrun |]. split; [exact Hcount |].
  assert (Hreg : "tex0" <> "tex0" \/
                 tag_registered Z Demo.mat4 (scene (Demo.world_of None 2)) "tex0").
  { right. exists (Demo.entry 0). split; [| reflexivity].
    apply list_elem_of_lookup. exists 0%nat. reflexivity. }
  destruct (CreateGLTexture_keeps_lookups Z Demo.mat4 Demo.MAX_TEXTURES Demo.stbi_load
              Demo.glGenName "textures/tent.jpg" "tex0" (Demo.world_of None 2) w' "tex0"
              Hinv eq_refl Hrun Hreg) as [Hid Hslot].
  split; [rewrite Hid | rewrite Hslot]; reflexivity.
Defined.

(** Three registered textures: "tex2" is in slot 2, with handle 3. *)
Lemma FindTextureSlot_sound_run :
  inv (Demo.scene_of None 3) /\
  FindTextureSlot Z Demo.mat4 (Demo.scene_of None 3) "tex2" = Ok 2 /\
  exists e, first_registered Z Demo.mat4 (Demo.scene_of None 3) "tex2" 2 e /\
            FindTextureID Z Demo.mat4 (Demo.scene_of None 3) "tex2"
            = Ok (int_of_GLuint (TEXTURE_INFO.ID e)).
Proof.
  assert (Hinv : inv (Demo.scene_of None 3)) by (apply Demo_registry_inv; lia).
  split; [exact Hinv |]. split; [reflexivity |].
  destruct (FindTextureSlot_sound Z Demo.mat4 Demo.MAX_TEXTURES (Demo.scene_of None 3)
              "tex2" Hinv) as (slot & Hslot & _ & Hfound).
  assert (Hs : slot = 2) by (cbv in Hslot; congruence). subst slot.
  destruct Hfound as (e & Hfirst & _ & Hid); [discriminate |].
  exists e. split; [exact Hfirst | exact Hid].
Defined.

(** A seventeenth texture on a full registry survives the clean-up. *)
Lemma overflow_texture_outlives_registry_run :
  inv (scene (Demo.world_of None 16)) /\
  m_loadedTextures (scene (Demo.world_of None 16)) = Z.pos Demo.MAX_TEXTURES /\
  exists w' w'',
    create "textures/leaf.png" "leaf" (Demo.world_of None 16) = Ok (true, w') /\
    DestroyGLTextures Z Demo.mat4 w' = Ok w'' /\
    m_loadedTextures (scene w'') = 0 /\
    17 ∈ live Z Demo.mat4 w''.
Proof.
  assert (Hinv : inv (scene (Demo.world_of None 16))) by (apply Demo_world_inv; lia).
  split; [exact Hinv |]. split; [reflexivity |].
  assert (Hfresh : Demo.glGenName (gl_textures (gl (Demo.world_of None 16)))
                   ∉ live Z Demo.mat4 (Demo.world_of None 16))
    by (apply not_elem_of_dom; reflexivity).
  assert (Hlive : forall e,
             e ∈ registered Z Demo.mat4 (scene (Demo.world_of None 16)) ->
             TEXTURE_INFO.ID e ∈ live Z Demo.mat4 (Demo.world_of None 16)).
  { intros e He. apply list_elem_of_lookup in He. destruct He as [i Hi].
    repeat (destruct i as [| i];
            [injection Hi as <-; apply elem_of_dom; eexists; reflexivity |]).
    destruct i; discriminate Hi. }
  destruct (overflow_texture_outlives_registry Z Demo.mat4 Demo.MAX_TEXTURES
              Demo.stbi_load Demo.glGenName "textures/leaf.png" "leaf"
              (Demo.world_of None 16) (Demo.image 4) Hinv eq_refl eq_refl
              (or_intror eq_refl) Hfresh Hlive)
    as (w' & w'' & Hrun & Hdel & Hcount & Hin & _).
  exists w', w''. split; [exact Hrun |]. split; [exact Hdel |].
  split; [exact Hcount | exact Hin].
Defined.

(** Three textures: unit 1 is bound to handle 2, the texture of "tex1". *)
Lemma BindGLTextures_binds_slot_to_unit_run :
  inv (scene (Demo.world_of None 3)) /\
  exists w',
    BindGLTextures Z Demo.mat4 (Demo.world_of None 3) = Ok w' /\
    gl_bound (gl w') !! 1 = Some 2 /\
    FindTextureSlot Z Demo.mat4 (scene w') "tex1" = Ok 1.
Proof.
  assert (Hinv : inv (scene (Demo.world_of None 3))) by (apply Demo_world_inv; lia).
  split; [exact Hinv |].
  destruct (BindGLTextures_binds_slot_to_unit Z Demo.mat4 Demo.MAX_TEXTURES
              (Demo.world_of None 3) Hinv)
    as (w' & Hrun & Hscene & Hbound & _).
  exists w'. split; [exact Hrun |].
  split; [exact (Hbound 1%nat (Demo.entry 1) eq_refl) |].
  rewrite Hscene. reflexivity.
Defined.

(** Clean-up with materials and a shader manager in place. *)
Lemma DestroyGLTextures_frame_run :
  inv (scene (Demo.world_of (Some Demo.shader) 3)) /\
  exists w',
    DestroyGLTextures Z Demo.mat4 (Demo.world_of (Some Demo.shader) 3) = Ok w' /\
    m_objectMaterials (scene w') = Demo.materials /\
    m_pShaderManager (scene w') = Some Demo.shader /\
    gl_textures (gl w') !! 9 = None.
Proof.
  assert (Hinv : inv (scene (Demo.world_of (Some Demo.shader) 3)))
    by (apply Demo_world_inv; lia).
  split; [exact Hinv |].
  destruct (DestroyGLTextures_frame Z Demo.mat4 Demo.MAX_TEXTURES
              (Demo.world_of (Some Demo.shader) 3) Hinv)
    as (w' & Hrun & _ & Hmat & Hsh & _ & _ & Hkeep & _).
  exists w'. split; [exact Hrun |]. split; [exact Hmat |]. split; [exact Hsh |].
  rewrite Hkeep; [reflexivity |].
  intros e He. apply list_elem_of_lookup in He. destruct He as [i Hi].
  repeat (destruct i as [| i]; [injection Hi as <-; discriminate |]).
  destruct i; discriminate Hi.
Defined.

(** Two textures, destroyed twice. *)
Lemma DestroyGLTextures_idempotent_run :
  exists w',
    DestroyGLTextures Z Demo.mat4 (Demo.world_of None 2) = Ok w' /\
    DestroyGLTextures Z Demo.mat4 w' = Ok w'.
Proof.
  assert (Hrun : exists w', DestroyGLTextures Z Demo.mat4 (Demo.world_of None 2) = Ok w')
    by (eexists; vm_compute; reflexivity).
  destruct Hrun as (w' & Hrun). exists w'. split; [exact Hrun |].
  exact (DestroyGLTextures_idempotent Z Demo.mat4 (Demo.world_of None 2) w' Hrun).
Defined.

(** Three textures destroyed, then one registered: it is in slot 0. *)
Lemma CreateGLTexture_after_destroy_run :
  inv (scene (Demo.world_of None 3)) /\
  exists w1 w2,
    DestroyGLTextures Z Demo.mat4 (Demo.world_of None 3) = Ok w1 /\
    create "textures/leaf.png" "leaf" w1 = Ok (true, w2) /\
    FindTextureSlot Z Demo.mat4 (scene w2) "leaf" = Ok 0 /\
    FindTextureSlot Z Demo.mat4 (scene w2) "tex1" = Ok (-1).
Proof.
  assert (Hinv : inv (scene (Demo.world_of None 3))) by (apply Demo_world_inv; lia).
  split; [exact Hinv |].
  assert (Hrun : exists w1 w2,
             DestroyGLTextures Z Demo.mat4 (Demo.world_of None 3) = Ok w1 /\
             create "textures/leaf.png" "leaf" w1 = Ok (true, w2))
    by (do 2 eexists; split; vm_compute; reflexivity).
  destruct Hrun as (w1 & w2 & Hdel & Hrun).
  exists w1, w2. split; [exact Hdel |]. split; [exact Hrun |].
  destruct (CreateGLTexture_after_destroy Z Demo.mat4 Demo.MAX_TEXTURES Demo.stbi_load
              Demo.glGenName "textures/leaf.png" "leaf" (Demo.world_of None 3) w1 w2
              Hinv Hdel Hrun) as (_ & Hslot & _ & Hother).
  split; [exact Hslot |]. apply Hother. discriminate.
Defined.

(** A colour after a sampler was written: texturing is off, the sampler
    is still there. *)
Lemma SetShaderColor_and_UVScale_run :
  m_pShaderManager (scene (Demo.world_of (Some Demo.shader) 0)) = Some Demo.shader /\
  exists sh',
    SetShaderColor Z Demo.mat4 1 0 0 1 (Demo.world_of (Some Demo.shader) 0)
    = set_shader Z Demo.mat4 (Demo.world_of (Some Demo.shader) 0) sh' /\
    sh' !! g_UseTextureName = Some (UInt 0) /\
    sh' !! g_TextureValueName = Some (USampler2D 5).
Proof.
  split; [reflexivity |].
  destruct (SetShaderColor_and_UVScale_write_only_their_uniforms Z Demo.mat4
              (Demo.world_of (Some Demo.shader) 0) Demo.shader eq_refl) as [Hcolor _].
  destruct (Hcolor 1 0 0 1) as (sh' & Hrun & Huse & _ & Hother).
  exists sh'. split; [exact Hrun |]. split; [exact Huse |].
  rewrite Hother by discriminate. reflexivity.
Defined.

(** Colour, then the texture "tex1": texturing is on. *)
Lemma texturing_follows_the_last_call_run :
  m_pShaderManager (scene (Demo.world_of (Some Demo.shader) 3)) = Some Demo.shader /\
  inv (scene (Demo.world_of (Some Demo.shader) 3)) /\
  exists w' sh',
    SetShaderTexture Z Demo.mat4 "tex1"
      (SetShaderColor Z Demo.mat4 1 0 0 1 (Demo.world_of (Some Demo.shader) 3)) = Ok w' /\
    m_pShaderManager (scene w') = Some sh' /\
    sh' !! g_UseTextureName = Some (UInt 1) /\
    sh' !! g_ColorValueName = Some (UVec4 (glm.Vec4 1 0 0 1)).
Proof.
  assert (Hinv : inv (scene (Demo.world_of (Some Demo.shader) 3)))
    by (apply Demo_world_inv; lia).
  split; [reflexivity |]. split; [exact Hinv |].
  exact (proj1 (texturing_follows_the_last_call Z Demo.mat4 Demo.MAX_TEXTURES
                  (Demo.world_of (Some Demo.shader) 3) Demo.shader "tex1" 1 0 0 1
                  eq_refl Hinv)).
Defined.

(** Materials defined, no shader manager. *)
Lemma SetShaderMaterial_null_shader_run :
  m_pShaderManager (scene (Demo.world_of None 2)) = None /\
  SetShaderMaterial Z Demo.mat4 "floor" (Demo_stack 0) (Demo.world_of None 2) = Undefined.
Proof.
  split; [reflexivity |].
  apply (proj2 (SetShaderMaterial_null_shader Z Demo.mat4 "floor" (Demo_stack 0)
                  (Demo.world_of None 2) eq_refl)).
  discriminate.
Defined.

(** Of the two materials tagged "tent", the first is pushed. *)
Lemma SetShaderMaterial_pushes_first_match_run :
  m_pShaderManager (scene (Demo.world_of (Some Demo.shader) 0)) = Some Demo.shader /\
  exists sh',
    SetShaderMaterial Z Demo.mat4 "tent" (Demo_stack 0) (Demo.world_of (Some Demo.shader) 0)
    = Ok (set_shader Z Demo.mat4 (Demo.world_of (Some Demo.shader) 0) sh') /\
    sh' !! "material.diffuseColor" = Some (UVec3 (glm.Vec3 2 4 1)) /\
    sh' !! "material.shininess" = Some (UFloat 16) /\
    sh' !! g_TextureValueName = Some (USampler2D 5).
Proof.
  split; [reflexivity |].
  assert (Hfirst : first_material Z Demo.mat4 (scene (Demo.world_of (Some Demo.shader) 0))
                     "tent" 1
                     (OBJECT_MATERIAL.mk "tent" (glm.Vec3 2 4 1) (glm.Vec3 2 2 2) 16)).
  { split; [reflexivity | split; [reflexivity |]].
    intros j e' Hj Hlt. destruct j as [| j]; [| lia].
    injection Hj as <-. discriminate. }
  destruct (SetShaderMaterial_pushes_first_match Z Demo.mat4 "tent" (Demo_stack 0)
              (Demo.world_of (Some Demo.shader) 0) Demo.shader 1%nat _ eq_refl Hfirst)
    as (sh' & Hrun & Hd & _ & Hs & Hother).
  exists sh'. split; [exact Hrun |]. split; [exact Hd |]. split; [exact Hs |].
  rewrite Hother by discriminate. reflexivity.
Defined.

(** No material is tagged "rock": the local's values are pushed. *)
Lemma SetShaderMaterial_miss_pushes_local_run :
  m_pShaderManager (scene (Demo.world_of (Some Demo.shader) 0)) = Some Demo.shader /\
  exists sh',
    SetShaderMaterial Z Demo.mat4 "rock" (Demo_stack 7) (Demo.world_of (Some Demo.shader) 0)
    = Ok (set_shader Z Demo.mat4 (Demo.world_of (Some Demo.shader) 0) sh') /\
    sh' !! "material.diffuseColor" = Some (UVec3 (glm.Vec3 7 0 0)) /\
    sh' !! "material.shininess" = Some (UFloat 7).
Proof.
  split; [reflexivity |].
  assert (Hno : ~ material_defined Z Demo.mat4
                    (scene (Demo.world_of (Some Demo.shader) 0)) "rock")
    by (apply find_no_material; reflexivity).
  destruct (SetShaderMaterial_miss_pushes_local Z Demo.mat4 "rock" (Demo_stack 7)
              (Demo.world_of (Some Demo.shader) 0) Demo.shader eq_refl
              ltac:(discriminate) Hno)
    as (sh' & Hrun & Hd & _ & Hs).
  exists sh'. split; [exact Hrun |]. split; [exact Hd | exact Hs].
Defined.

(** The destructor on an object with three textures. *)
Lemma SceneManager_delete_releases_run :
  inv (scene (world (Demo_program (Some Demo.shader) 3))) /\
  exists p',
    SceneManager_delete Z Demo.mat4 (Demo_program (Some Demo.shader) 3) = Ok p' /\
    m_loadedTextures (scene (world p')) = 0 /\
    m_pShaderManager (scene (world p')) = None /\
    m_basicMeshes p' = None /\
    2 ∉ live Z Demo.mat4 (world p').
Proof.
  assert (Hinv : inv (scene (world (Demo_program (Some Demo.shader) 3))))
    by (apply Demo_world_inv; lia).
  split; [exact Hinv |].
  destruct (SceneManager_delete_releases Z Demo.mat4 Demo.MAX_TEXTURES
              (Demo_program (Some Demo.shader) 3) Hinv)
    as (p' & Hrun & Hcount & Hsh & Hmesh & Hgone & _).
  exists p'. split; [exact Hrun |]. split; [exact Hcount |]. split; [exact Hsh |].
  split; [exact Hmesh |].
  apply (Hgone (Demo.entry 1)). apply list_elem_of_lookup. exists 1%nat. reflexivity.
Defined.

(** Preparing or rendering after the destructor has run. *)
Lemma use_after_delete_is_undefined_run :
  exists p',
    SceneManager_delete Z Demo.mat4 (Demo_program (Some Demo.shader) 3) = Ok p' /\
    prepare p' = Undefined /\ render p' = Undefined.
Proof.
  assert (Hrun : exists p',
             SceneManager_delete Z Demo.mat4 (Demo_program (Some Demo.shader) 3) = Ok p')
    by (eexists; vm_compute; reflexivity).
  destruct Hrun as (p' & Hrun). exists p'. split; [exact Hrun |].
  exact (use_after_delete_is_undefined Z Demo.mat4 Demo.mul Demo.scale Demo.rotate
           Demo.translate Demo.radians 0 1000 Demo.MAX_TEXTURES Demo.stbi_load_scene
           Demo.glGenName Demo.float_lit (Demo_program (Some Demo.shader) 3) p'
           Demo_stack Hrun).
Defined.

(** With a greyscale "textures/rock.jpg", six tags are registered. *)
Lemma PrepareScene_registers_in_source_order_run :
  inv (scene (world (Demo_blank (Some Demo.shader)))) /\
  exists p',
    prepare (Demo_blank (Some Demo.shader)) = Ok p' /\
    map TEXTURE_INFO.tag (registered Z Demo.mat4 (scene (world p')))
    = ["tent"; "ground"; "campfire"; "sky"; "bark"; "metal"] /\
    stbi_buffers (world p') = 0.
Proof.
  assert (Hinv : inv (scene (world (Demo_blank (Some Demo.shader)))))
    by apply Demo_blank_inv.
  split; [exact Hinv |].
  destruct (PrepareScene_registers_in_source_order Z Demo.mat4 0 1000 Demo.MAX_TEXTURES
              Demo.stbi_load_scene Demo.glGenName Demo.float_lit
              (Demo_blank (Some Demo.shader)) [] Hinv eq_refl)
    as (p' & Hrun & _ & Htags & Hbuf & _).
  exists p'. split; [exact Hrun |]. split; [rewrite Htags; reflexivity | exact Hbuf].
Defined.

(** Six materials on a new object, none of them tagged "rock". *)
Lemma PrepareScene_defines_six_materials_run :
  inv (scene (world (Demo_blank (Some Demo.shader)))) /\
  exists p',
    prepare (Demo_blank (Some Demo.shader)) = Ok p' /\
    map OBJECT_MATERIAL.tag (m_objectMaterials (scene (world p')))
    = ["floor"; "tent"; "campfire"; "bark"; "metal"; "sky"] /\
    ~ material_defined Z Demo.mat4 (scene (world p')) "rock".
Proof.
  assert (Hinv : inv (scene (world (Demo_blank (Some Demo.shader)))))
    by apply Demo_blank_inv.
  split; [exact Hinv |].
  destruct (PrepareScene_defines_six_materials Z Demo.mat4 0 1000 Demo.MAX_TEXTURES
              Demo.stbi_load_scene Demo.glGenName Demo.float_lit
              (Demo_blank (Some Demo.shader)) [] Hinv eq_refl)
    as (p' & Hrun & Hmat & _ & Hrock).
  exists p'. split; [exact Hrun |]. split; [rewrite Hmat; reflexivity |].
  intros Hdef. apply Hrock in Hdef. destruct Hdef as (e & He & _). inversion He.
Defined.

(** The greyscale rock is not registered, and nothing is reported. *)
Lemma PrepareScene_rock_failure_is_silent_run :
  inv (scene (world (Demo_blank (Some Demo.shader)))) /\
  exists p',
    prepare (Demo_blank (Some Demo.shader)) = Ok p' /\
    cerr (world p') = "" /\
    FindTextureSlot Z Demo.mat4 (scene (world p')) "rock" = Ok (-1).
Proof.
  assert (Hinv : inv (scene (world (Demo_blank (Some Demo.shader)))))
    by apply Demo_blank_inv.
  split; [exact Hinv |].
  destruct (PrepareScene_rock_failure_is_silent Z Demo.mat4 0 1000 Demo.MAX_TEXTURES
              Demo.stbi_load_scene Demo.glGenName Demo.float_lit
              (Demo_blank (Some Demo.shader)) [] Hinv eq_refl)
    as (p' & Hrun & _ & Hquiet & Hrock).
  exists p'. split; [exact Hrun |]. split.
  - apply Hquiet. intros f Hf. unfold reported_files in Hf.
    repeat (apply elem_of_cons in Hf; destruct Hf as [-> | Hf]; [reflexivity |]).
    inversion Hf.
  - apply Hrock; [reflexivity |]. intros (e & He & _). inversion He.
Defined.

(** Two calls in a row: twelve tags, twelve materials, ten mesh loads. *)
Lemma PrepareScene_twice_run :
  inv (scene (world (Demo_blank (Some Demo.shader)))) /\
  exists p' p'',
    prepare (Demo_blank (Some Demo.shader)) = Ok p' /\ prepare p' = Ok p'' /\
    m_loadedTextures (scene (world p'')) = 12 /\
    length (m_objectMaterials (scene (world p''))) = 12%nat.
Proof.
  assert (Hinv : inv (scene (world (Demo_blank (Some Demo.shader)))))
    by apply Demo_blank_inv.
  split; [exact Hinv |].
  destruct (PrepareScene_twice Z Demo.mat4 0 1000 Demo.MAX_TEXTURES
              Demo.stbi_load_scene Demo.glGenName Demo.float_lit
              (Demo_blank (Some Demo.shader)) [] Hinv eq_refl)
    as (p' & p'' & Hrun & Hrun' & Hinv'' & Htags & Hmat & _).
  exists p', p''. split; [exact Hrun |]. split; [exact Hrun' |].
  split; [| rewrite Hmat; reflexivity].
  apply (f_equal (@length _)) in Htags. rewrite length_map in Htags.
  unfold registered in Htags. rewrite length_take in Htags.
  destruct Hinv'' as [[Hlo Hhi] Harr]. unfold array_inv in Harr.
  change (length (take (Pos.to_nat Demo.MAX_TEXTURES) _)) with 12%nat in Htags.
  change (Z.pos Demo.MAX_TEXTURES) with 16 in Hhi.
  change (Pos.to_nat Demo.MAX_TEXTURES) with 16%nat in Harr. lia.
Defined.

(** A frame on an object without a shader manager. *)
Lemma RenderScene_null_shader_is_undefined_run :
  inv (scene (world (Demo_program None 3))) /\
  render (Demo_program None 3) = Undefined.
Proof.
  assert (Hinv : inv (scene (world (Demo_program None 3))))
    by (apply Demo_world_inv; lia).
  split; [exact Hinv |].
  exact (RenderScene_null_shader_is_undefined Z Demo.mat4 Demo.mul Demo.scale Demo.rotate
           Demo.translate Demo.radians 0 1000 Demo.MAX_TEXTURES Demo.float_lit Demo_stack
           (Demo_program None 3) Hinv eq_refl).
Defined.

(** A frame: nineteen draws, the table as before. *)
Lemma RenderScene_draws_run :
  inv (scene (world (Demo_program (Some Demo.shader) 3))) /\
  exists p' us,
    render (Demo_program (Some Demo.shader) 3) = Ok p' /\
    m_basicMeshes p' = Some (draw_calls Z Demo.mat4 render_meshes us) /\
    length us = 19%nat /\
    m_loadedTextures (scene (world p')) = 3.
Proof.
  assert (Hinv : inv (scene (world (Demo_program (Some Demo.shader) 3))))
    by (apply Demo_world_inv; lia).
  split; [exact Hinv |].
  destruct (RenderScene_draws Z Demo.mat4 Demo.mul Demo.scale Demo.rotate
              Demo.translate Demo.radians 0 1000 Demo.MAX_TEXTURES Demo.float_lit
              Demo_stack (Demo_program (Some Demo.shader) 3) Demo.shader [] Hinv
              eq_refl eq_refl)
    as (p' & us & Hrun & Hlog & Hlen & (_ & Hcount & _) & _).
  exists p', us. split; [exact Hrun |]. split; [exact Hlog |]. split; [exact Hlen |].
  rewrite Hcount. reflexivity.
Defined.

(** A frame ends with lighting off. *)
Lemma RenderScene_lighting_run :
  inv (scene (world (Demo_program (Some Demo.shader) 3))) /\
  exists p' sh',
    render (Demo_program (Some Demo.shader) 3) = Ok p' /\
    m_pShaderManager (scene (world p')) = Some sh' /\
    sh' !! "bUseLighting" = Some (UInt 0).
Proof.
  assert (Hinv : inv (scene (world (Demo_program (Some Demo.shader) 3))))
    by (apply Demo_world_inv; lia).
  split; [exact Hinv |].
  destruct (RenderScene_lighting Z Demo.mat4 Demo.mul Demo.scale Demo.rotate
              Demo.translate Demo.radians 0 1000 Demo.MAX_TEXTURES Demo.float_lit
              Demo_stack (Demo_program (Some Demo.shader) 3) Demo.shader [] Hinv
              eq_refl eq_refl)
    as (p' & us & sh' & Hrun & _ & _ & Hsh & Hlast).
  exists p', sh'. split; [exact Hrun |]. split; [exact Hsh | exact Hlast].
Defined.

(** With floor and tent materials only, the rocks get the local's values. *)
Lemma RenderScene_materials_run :
  inv (scene (world (Demo_program (Some Demo.shader) 3))) /\
  exists p' us,
    render (Demo_program (Some Demo.shader) 3) = Ok p' /\
    map (fun u : gmap string (Uniform Z Demo.mat4) => u !! "material.shininess")
        (drop 16 us)
    = [Some (UFloat 7); Some (UFloat 8); Some (UFloat 9)].
Proof.
  assert (Hinv : inv (scene (world (Demo_program (Some Demo.shader) 3))))
    by (apply Demo_world_inv; lia).
  split; [exact Hinv |].
  assert (Hno : ~ material_defined Z Demo.mat4
                    (scene (world (Demo_program (Some Demo.shader) 3))) "rock")
    by (apply find_no_material; reflexivity).
  destruct (RenderScene_materials Z Demo.mat4 Demo.mul Demo.scale Demo.rotate
              Demo.translate Demo.radians 0 1000 Demo.MAX_TEXTURES Demo.float_lit
              Demo_stack (Demo_program (Some Demo.shader) 3) Demo.shader [] Hinv
              eq_refl eq_refl ltac:(discriminate))
    as (p' & us & Hrun & _ & _ & Hrock).
  exists p', us. split; [exact Hrun |].
  specialize (Hrock Hno).
  apply (f_equal (map snd)) in Hrock. rewrite map_map in Hrock. exact Hrock.
Defined.

(** None of the scene's tags is registered: ten lines on [cerr], and the
    sampler stays where it was. *)
Lemma RenderScene_textures_run :
  inv (scene (world (Demo_program (Some Demo.shader) 3))) /\
  exists p' us,
    render (Demo_program (Some Demo.shader) 3) = Ok p' /\
    map (fun u : gmap string (Uniform Z Demo.mat4) => u !! g_UseTextureName) us
    = replicate 19 (Some (UInt 1)) /\
    map (fun u : gmap string (Uniform Z Demo.mat4) => u !! g_TextureValueName) us
    = replicate 19 (Some (USampler2D 5)) /\
    String.length (cerr (world p')) = 526%nat.
Proof.
  assert (Hinv : inv (scene (world (Demo_program (Some Demo.shader) 3))))
    by (apply Demo_world_inv; lia).
  split; [exact Hinv |].
  destruct (RenderScene_textures Z Demo.mat4 Demo.mul Demo.scale Demo.rotate
              Demo.translate Demo.radians 0 1000 Demo.MAX_TEXTURES Demo.float_lit
              Demo_stack (Demo_program (Some Demo.shader) 3) Demo.shader [] Hinv
              eq_refl eq_refl)
    as (p' & us & Hrun & _ & Huse & Hsam & _ & Herr & _).
  exists p', us. split; [exact Hrun |]. split; [exact Huse |].
  split; [rewrite Hsam | rewrite Herr]; reflexivity.
Defined.

(** No texture under "rock": the spheres sample what the handle sampled. *)
Lemma RenderScene_rock_without_texture_run :
  inv (scene (world (Demo_program (Some Demo.shader) 3))) /\
  exists p' us handle,
    render (Demo_program (Some Demo.shader) 3) = Ok p' /\
    us !! 15%nat = Some handle /\
    map (fun u : gmap string (Uniform Z Demo.mat4) =>
           (u !! g_UseTextureName, u !! g_TextureValueName)) (drop 16 us)
    = replicate 3 (Some (UInt 1), handle !! g_TextureValueName).
Proof.
  assert (Hinv : inv (scene (world (Demo_program (Some Demo.shader) 3))))
    by (apply Demo_world_inv; lia).
  split; [exact Hinv |].
  assert (Hno : ~ tag_registered Z Demo.mat4
                    (scene (world (Demo_program (Some Demo.shader) 3))) "rock")
    by (apply Demo_not_registered; reflexivity).
  destruct (RenderScene_rock_without_texture Z Demo.mat4 Demo.mul Demo.scale Demo.rotate
              Demo.translate Demo.radians 0 1000 Demo.MAX_TEXTURES Demo.float_lit
              Demo_stack (Demo_program (Some Demo.shader) 3) Demo.shader [] Hinv
              eq_refl eq_refl Hno)
    as (p' & us & handle & err & Hrun & _ & Hhandle & Hrocks & _).
  exists p', us, handle. split; [exact Hrun |]. split; [exact Hhandle | exact Hrocks].
Defined.

(** All seven files are colour images and the table has sixteen slots. *)
Lemma first_frame_run :
  (7 <= Pos.to_nat Demo.MAX_TEXTURES)%nat /\
  exists p1 p2 us,
    PrepareScene Z Demo.mat4 0 1000 Demo.MAX_TEXTURES Demo_stbi_load_colour Demo.glGenName
      Demo.float_lit
      (SceneManager_new Z Demo.mat4 Demo.MAX_TEXTURES (Some Demo.shader) (fun _ => 0)
         (Demo.world_of None 0)) = Ok p1 /\
    render p1 = Ok p2 /\
    map (fun u : gmap string (Uniform Z Demo.mat4) => u !! g_TextureValueName) us
    = map (fun n => Some (USampler2D n)) render_units /\
    cerr (world p2) = "" /\
    map (fun u : gmap string (Uniform Z Demo.mat4) => u !! "material.shininess")
        (drop 16 us)
    = [Some (UFloat 7); Some (UFloat 8); Some (UFloat 9)].
Proof.
  assert (Hroom : (7 <= Pos.to_nat Demo.MAX_TEXTURES)%nat)
    by (change (Pos.to_nat Demo.MAX_TEXTURES) with 16%nat; lia).
  split; [exact Hroom |].
  assert (Hall : forall ft, ft ∈ scene_files ->
                            decodes_supported Demo_stbi_load_colour (fst ft) = true).
  { intros ft Hft. unfold scene_files in Hft.
    repeat (apply elem_of_cons in Hft; destruct Hft as [-> | Hft]; [reflexivity |]).
    inversion Hft. }
  destruct (first_frame Z Demo.mat4 Demo.mul Demo.scale Demo.rotate Demo.translate
              Demo.radians 0 1000 Demo.MAX_TEXTURES Demo_stbi_load_colour Demo.glGenName
              Demo.float_lit Demo.shader (fun _ => 0) (Demo.world_of None 0) Demo_stack
              Hroom Hall)
    as (p1 & p2 & us & Hrun1 & Hrun2 & _ & _ & Hunits & Herr & Hrocks).
  exists p1, p2, us. split; [exact Hrun1 |]. split; [exact Hrun2 |].
  split; [exact Hunits |]. split; [exact Herr |].
  apply (f_equal (map snd)) in Hrocks. rewrite map_map in Hrocks. exact Hrocks.
Defined.
